(** * ShortStory: the story-text parser and the playback state machine

  A shallow embedding of the ShortStory plugin
  (ShortStoryStructs.h, ShortStoryParser.cpp, ShortStorySubsystem.cpp).

  Conventions of the embedding:
  - [FString] is a list of characters; the engine's string functions the
    plugin calls (trimming, splitting, case folding, searching) are modelled
    in [Module FStr] after their documented behaviour;
  - [float] is modelled by the exact rationals [Q]: sums, products and
    comparisons are those of the source, rounding is not modelled;
  - [int32] is modelled by [Z]; every index of the plugin is bounded by the
    size of an array, so no wrap-around is reachable;
  - a C++ class is a [Module], its members are the fields of a record and its
    methods are functions from state to state. *)

From Stdlib Require Import QArith Lqa ZArith Ascii String DecimalString.
From stdpp Require Import base list gmap strings.

Local Open Scope Z_scope.

(** ** Engine strings *)

Definition FString : Type := list ascii.

(** The [TEXT("...")] macro. *)
Definition TEXT (s : string) : FString := list_ascii_of_string s.

Module FStr.

(** [FChar::IsWhitespace]: blank, tab, line feed, vertical tab, form feed,
    carriage return. *)
Definition IsWhitespace (c : ascii) : bool :=
  let n := nat_of_ascii c in
  (Nat.eqb n 32 || (Nat.leb 9 n && Nat.leb n 13))%bool.

(** [FChar::ToLower]: only the letters A..Z move. *)
Definition ToLowerChar (c : ascii) : ascii :=
  let n := nat_of_ascii c in
  if (Nat.leb 65 n && Nat.leb n 90)%bool then ascii_of_nat (n + 32)%nat else c.

Definition ToLower (s : FString) : FString := map ToLowerChar s.

Definition IsEmpty (s : FString) : bool :=
  match s with [] => true | _ => false end.

Definition Len (s : FString) : Z := Z.of_nat (length s).

Fixpoint TrimStart (s : FString) : FString :=
  match s with
  | [] => []
  | c :: r => if IsWhitespace c then TrimStart r else s
  end.

Definition TrimEnd (s : FString) : FString := rev (TrimStart (rev s)).

Definition TrimStartAndEnd (s : FString) : FString := TrimEnd (TrimStart s).

(** Character comparison under [ESearchCase]. *)
Definition char_eq (ignore_case : bool) (a b : ascii) : bool :=
  if ignore_case then Ascii.eqb (ToLowerChar a) (ToLowerChar b)
  else Ascii.eqb a b.

Fixpoint str_eq (ignore_case : bool) (a b : FString) : bool :=
  match a, b with
  | [], [] => true
  | x :: a', y :: b' => (char_eq ignore_case x y && str_eq ignore_case a' b')%bool
  | _, _ => false
  end.

(** [FString::Equals(Other, ESearchCase::CaseSensitive)] (the default). *)
Definition Equals (a b : FString) : bool := str_eq false a b.

(** [FString::Equals(Other, ESearchCase::IgnoreCase)], also [operator==]. *)
Definition EqualsIgnoreCase (a b : FString) : bool := str_eq true a b.

Fixpoint has_prefix (ignore_case : bool) (p s : FString) : bool :=
  match p, s with
  | [], _ => true
  | x :: p', y :: s' => (char_eq ignore_case x y && has_prefix ignore_case p' s')%bool
  | _ :: _, [] => false
  end.

(** [FString::StartsWith] and [EndsWith]; both ignore case by default, and
    an empty prefix or suffix never matches. *)
Definition StartsWith (s p : FString) : bool :=
  (negb (IsEmpty p) && has_prefix true p s)%bool.

Definition EndsWith (s p : FString) : bool :=
  (negb (IsEmpty p) && has_prefix true (rev p) (rev s))%bool.

(** [FString::Find] from the start: index of the first occurrence. *)
Fixpoint Find (ignore_case : bool) (sub s : FString) : option nat :=
  if has_prefix ignore_case sub s then Some 0%nat
  else match s with
       | [] => None
       | _ :: r => S <$> Find ignore_case sub r
       end.

(** [FString::Contains] (ignores case by default). *)
Definition Contains (s sub : FString) : bool :=
  match Find true sub s with Some _ => true | None => false end.

(** [FString::Left(Count)] and [FString::Mid(Start, Count)], both clamped. *)
Definition Left (s : FString) (count : Z) : FString := take (Z.to_nat count) s.

Definition Mid (s : FString) (start : Z) : FString := drop (Z.to_nat start) s.

Definition MidCount (s : FString) (start count : Z) : FString :=
  take (Z.to_nat count) (drop (Z.to_nat start) s).

(** [FString::Split(InS, &Left, &Right)]: cut at the first occurrence of
    [InS]; [None] when there is none. *)
Definition Split (s delim : FString) : option (FString * FString) :=
  match Find true delim s with
  | Some i => Some (take i s, drop (i + length delim)%nat s)
  | None => None
  end.

(** The pieces of [s] between the occurrences of [delim], scanning from the
    left; [skip] counts the characters of a delimiter still to be passed and
    [acc] is the current piece, reversed. *)
Fixpoint pieces (delim : FString) (s : FString) (skip : nat) (acc : FString)
  : list FString :=
  match s with
  | [] => [rev acc]
  | c :: r =>
      match skip with
      | S k => pieces delim r k acc
      | O =>
          if has_prefix false delim s
          then rev acc :: pieces delim r (length delim - 1)%nat []
          else pieces delim r 0%nat (c :: acc)
      end
  end.

(** [FString::ParseIntoArray(Out, Delim, bCullEmpty)]: nothing for an empty
    string; otherwise every piece, the empty ones dropped when culling. *)
Definition ParseIntoArray (s delim : FString) (cull_empty : bool) : list FString :=
  if (IsEmpty s || IsEmpty delim)%bool then []
  else
    let ps := pieces delim s 0%nat [] in
    if cull_empty then filter (fun p => negb (IsEmpty p) = true) ps else ps.

Definition CR : ascii := ascii_of_nat 13.
Definition LF : ascii := ascii_of_nat 10.

Fixpoint line_pieces (s : FString) (acc : FString) : list FString :=
  match s with
  | [] => [rev acc]
  | c :: r =>
      if Ascii.eqb c CR then
        match r with
        | c' :: r' =>
            if Ascii.eqb c' LF then rev acc :: line_pieces r' []
            else rev acc :: line_pieces r []
        | [] => rev acc :: line_pieces r []
        end
      else if Ascii.eqb c LF then rev acc :: line_pieces r []
      else line_pieces r (c :: acc)
  end.

(** [FString::ParseIntoArrayLines(Out)]: split at CR LF, CR or LF, empty
    lines culled (the default). *)
Definition ParseIntoArrayLines (s : FString) : list FString :=
  filter (fun p => negb (IsEmpty p) = true) (line_pieces s []).

(** [%d] of [FString::Printf]. *)
Definition FromInt (z : Z) : FString :=
  list_ascii_of_string (NilZero.string_of_int (Z.to_int z)).

End FStr.

(** ** Document model (ShortStoryStructs.h) *)

Module EStoryLineAnimation.
Inductive t := Typewriter | LeftToRight | Paragraph | TopDown | WordRain | Snake.
Definition eqb (a b : t) : bool :=
  match a, b with
  | Typewriter, Typewriter | LeftToRight, LeftToRight | Paragraph, Paragraph
  | TopDown, TopDown | WordRain, WordRain | Snake, Snake => true
  | _, _ => false
  end.
End EStoryLineAnimation.

Module EStorySpeed.
Inductive t := Standard | Fast | Slow.
Definition to_nat (s : t) : nat :=
  match s with Standard => 0 | Fast => 1 | Slow => 2 end.
Definition of_nat (n : nat) : t :=
  match n with 0%nat => Standard | 1%nat => Fast | _ => Slow end.
End EStorySpeed.

Module EStoryPauseDuration.
Inductive t := None | Short | Standard | Long | LineBreak | Wait.
Definition to_nat (p : t) : nat :=
  match p with
  | None => 0 | Short => 1 | Standard => 2 | Long => 3 | LineBreak => 4 | Wait => 5
  end.
Definition of_nat (n : nat) : t :=
  match n with
  | 0%nat => None | 1%nat => Short | 2%nat => Standard | 3%nat => Long
  | 4%nat => LineBreak | _ => Wait
  end.
End EStoryPauseDuration.

Module EStoryEffect.
Inductive t := None | ShakeLow | ShakeMed | ShakeHigh | Storm.
End EStoryEffect.

Module EStoryTransition.
Inductive t := Instant | Fade | Crossfade.
End EStoryTransition.

Module EStoryTimedEventType.
Inductive t := SFX | VFX | Wait | BackgroundChange.
End EStoryTimedEventType.

Global Instance EStorySpeed_eq_dec : EqDecision EStorySpeed.t.
Proof. solve_decision. Defined.

Global Instance EStorySpeed_countable : Countable EStorySpeed.t :=
inj_countable' EStorySpeed.to_nat EStorySpeed.of_nat (ltac:(by intros [])).

Global Instance EStoryPauseDuration_eq_dec : EqDecision EStoryPauseDuration.t.
Proof. solve_decision. Defined.

Global Instance EStoryPauseDuration_countable : Countable EStoryPauseDuration.t :=
inj_countable' EStoryPauseDuration.to_nat EStoryPauseDuration.of_nat
  (ltac:(by intros [])).

(** The timing profile of one speed, with the defaults of the struct. *)
Record FStoryAnimationTiming := {
PerLetter : Q;
ExtraAtSpace : Q;
ExtraAtPeriod : Q;
ExtraAtComma : Q;
BlockDuration : Q;
ExtraAtColon : Q
}.

Definition FStoryAnimationTiming_default : FStoryAnimationTiming :=
{| PerLetter := 0.04; ExtraAtSpace := 0.08; ExtraAtPeriod := 0.3;
   ExtraAtComma := 0.2; BlockDuration := 2.0; ExtraAtColon := 0.4 |}.

Record FVector2D := { X : Q; Y : Q }.

Definition ZeroVector : FVector2D := {| X := 0; Y := 0 |}.

Record FStoryTimedEvent := {
EventType : EStoryTimedEventType.t;
StartTime : Q;
Duration : Q;
AssetPath : FString
}.

Definition FStoryTimedEvent_default : FStoryTimedEvent :=
{| EventType := EStoryTimedEventType.SFX; StartTime := 0; Duration := 0;
   AssetPath := [] |}.

Module FStoryLine.
Record t := {
  Text : FString;
  AnimationType : EStoryLineAnimation.t;
  Speed : EStorySpeed.t;
  PauseDuration : EStoryPauseDuration.t;
  Effect : EStoryEffect.t;
  PositionOffset : FVector2D
}.

Definition default : t :=
  {| Text := []; AnimationType := EStoryLineAnimation.Typewriter;
     Speed := EStorySpeed.Standard; PauseDuration := EStoryPauseDuration.None;
     Effect := EStoryEffect.None; PositionOffset := ZeroVector |}.
End FStoryLine.

(** [Background] is the soft object path when one was set; the transient
  [RuntimeTexture] is filled by the texture loader only and is left out. *)
Record FStoryScreen := {
Name : FString;
Background : option FString;
BackgroundPath : FString;
TransitionType : EStoryTransition.t;
Lines : list FStoryLine.t;
TimedEvents : list FStoryTimedEvent
}.

Definition FStoryScreen_default : FStoryScreen :=
{| Name := []; Background := None; BackgroundPath := [];
   TransitionType := EStoryTransition.Fade; Lines := []; TimedEvents := [] |}.

Record FShortStory := {
Title : FString;
OST : FString;
Screens : list FStoryScreen;
SourceFileName : FString
}.

Definition FShortStory_default : FShortStory :=
{| Title := []; OST := []; Screens := []; SourceFileName := [] |}.

Definition IsValid (s : FShortStory) : bool :=
(negb (FStr.IsEmpty (Title s)) && (0 <? Z.of_nat (length (Screens s))))%bool.

(** Array access by an [int32] index, [None] outside [0 .. Num-1]. *)
Definition at_index {A : Type} (l : list A) (i : Z) : option A :=
if (0 <=? i) then l !! Z.to_nat i else None.

(** [TArray::IsValidIndex]. *)
Definition IsValidIndex {A : Type} (l : list A) (i : Z) : bool :=
((0 <=? i) && (i <? Z.of_nat (length l)))%bool.

(** [TArray::Num]. *)
Definition Num {A : Type} (l : list A) : Z := Z.of_nat (length l).

(** [a[i] = v] under an [IsValidIndex] guard. *)
Definition set_index {A : Type} (l : list A) (i : Z) (v : A) : list A :=
if IsValidIndex l i then <[Z.to_nat i := v]> l else l.

(** Comparisons of [float]. *)
Definition Qlt_bool (a b : Q) : bool := negb (Qle_bool b a).

(** ** The playback subsystem (ShortStorySubsystem.h, ShortStorySubsystem.cpp) *)

Module EStoryPlaybackState.
Inductive t := Idle | PlayingLine | PausingAfterLine | TransitioningScreen | Completed.
End EStoryPlaybackState.

Module UShortStorySubsystem.

(** The members of the class that playback reads or writes.  [TickerHandle]
    records whether the handle is valid, that is, whether the subsystem is
    registered with the core ticker. *)
Record t := {
  SpeedTimings : gmap EStorySpeed.t FStoryAnimationTiming;
  PauseDurations : gmap EStoryPauseDuration.t Q;
  ScreenTransitionPauseSeconds : Q;
  FadeWindowSeconds : Q;
  LineBreakPercent : Q;
  TransitionElapsedTime : Q;
  CurrentStory : FShortStory;
  CurrentScreenIndex : Z;
  CurrentLineIndex : Z;
  LineElapsedTime : Q;
  LineDuration : Q;
  PauseElapsedTime : Q;
  PauseDuration : Q;
  ScreenElapsedTime : Q;
  LineStartTimes : list Q;
  bIsPlaying : bool;
  bIsPaused : bool;
  CurrentState : EStoryPlaybackState.t;
  ProcessedTimedEventIndices : gset Z;
  TickerHandle : bool
}.

(** Assignment to one member; the others keep their value. *)
Definition set_TransitionElapsedTime (v : Q) (s : t) : t :=
  {| SpeedTimings := SpeedTimings s; PauseDurations := PauseDurations s;
     ScreenTransitionPauseSeconds := ScreenTransitionPauseSeconds s;
     FadeWindowSeconds := FadeWindowSeconds s; LineBreakPercent := LineBreakPercent s;
     TransitionElapsedTime := v; CurrentStory := CurrentStory s;
     CurrentScreenIndex := CurrentScreenIndex s; CurrentLineIndex := CurrentLineIndex s;
     LineElapsedTime := LineElapsedTime s; LineDuration := LineDuration s;
     PauseElapsedTime := PauseElapsedTime s; PauseDuration := PauseDuration s;
     ScreenElapsedTime := ScreenElapsedTime s; LineStartTimes := LineStartTimes s;
     bIsPlaying := bIsPlaying s; bIsPaused := bIsPaused s; CurrentState := CurrentState s;
     ProcessedTimedEventIndices := ProcessedTimedEventIndices s;
     TickerHandle := TickerHandle s |}.

Definition set_CurrentStory (v : FShortStory) (s : t) : t :=
  {| SpeedTimings := SpeedTimings s; PauseDurations := PauseDurations s;
     ScreenTransitionPauseSeconds := ScreenTransitionPauseSeconds s;
     FadeWindowSeconds := FadeWindowSeconds s; LineBreakPercent := LineBreakPercent s;
     TransitionElapsedTime := TransitionElapsedTime s; CurrentStory := v;
     CurrentScreenIndex := CurrentScreenIndex s; CurrentLineIndex := CurrentLineIndex s;
     LineElapsedTime := LineElapsedTime s; LineDuration := LineDuration s;
     PauseElapsedTime := PauseElapsedTime s; PauseDuration := PauseDuration s;
     ScreenElapsedTime := ScreenElapsedTime s; LineStartTimes := LineStartTimes s;
     bIsPlaying := bIsPlaying s; bIsPaused := bIsPaused s; CurrentState := CurrentState s;
     ProcessedTimedEventIndices := ProcessedTimedEventIndices s;
     TickerHandle := TickerHandle s |}.

Definition set_CurrentScreenIndex (v : Z) (s : t) : t :=
  {| SpeedTimings := SpeedTimings s; PauseDurations := PauseDurations s;
     ScreenTransitionPauseSeconds := ScreenTransitionPauseSeconds s;
     FadeWindowSeconds := FadeWindowSeconds s; LineBreakPercent := LineBreakPercent s;
     TransitionElapsedTime := TransitionElapsedTime s; CurrentStory := CurrentStory s;
     CurrentScreenIndex := v; CurrentLineIndex := CurrentLineIndex s;
     LineElapsedTime := LineElapsedTime s; LineDuration := LineDuration s;
     PauseElapsedTime := PauseElapsedTime s; PauseDuration := PauseDuration s;
     ScreenElapsedTime := ScreenElapsedTime s; LineStartTimes := LineStartTimes s;
     bIsPlaying := bIsPlaying s; bIsPaused := bIsPaused s; CurrentState := CurrentState s;
     ProcessedTimedEventIndices := ProcessedTimedEventIndices s;
     TickerHandle := TickerHandle s |}.

Definition set_CurrentLineIndex (v : Z) (s : t) : t :=
  {| SpeedTimings := SpeedTimings s; PauseDurations := PauseDurations s;
     ScreenTransitionPauseSeconds := ScreenTransitionPauseSeconds s;
     FadeWindowSeconds := FadeWindowSeconds s; LineBreakPercent := LineBreakPercent s;
     TransitionElapsedTime := TransitionElapsedTime s; CurrentStory := CurrentStory s;
     CurrentScreenIndex := CurrentScreenIndex s; CurrentLineIndex := v;
     LineElapsedTime := LineElapsedTime s; LineDuration := LineDuration s;
     PauseElapsedTime := PauseElapsedTime s; PauseDuration := PauseDuration s;
     ScreenElapsedTime := ScreenElapsedTime s; LineStartTimes := LineStartTimes s;
     bIsPlaying := bIsPlaying s; bIsPaused := bIsPaused s; CurrentState := CurrentState s;
     ProcessedTimedEventIndices := ProcessedTimedEventIndices s;
     TickerHandle := TickerHandle s |}.

Definition set_LineElapsedTime (v : Q) (s : t) : t :=
  {| SpeedTimings := SpeedTimings s; PauseDurations := PauseDurations s;
     ScreenTransitionPauseSeconds := ScreenTransitionPauseSeconds s;
     FadeWindowSeconds := FadeWindowSeconds s; LineBreakPercent := LineBreakPercent s;
     TransitionElapsedTime := TransitionElapsedTime s; CurrentStory := CurrentStory s;
     CurrentScreenIndex := CurrentScreenIndex s; CurrentLineIndex := CurrentLineIndex s;
     LineElapsedTime := v; LineDuration := LineDuration s;
     PauseElapsedTime := PauseElapsedTime s; PauseDuration := PauseDuration s;
     ScreenElapsedTime := ScreenElapsedTime s; LineStartTimes := LineStartTimes s;
     bIsPlaying := bIsPlaying s; bIsPaused := bIsPaused s; CurrentState := CurrentState s;
     ProcessedTimedEventIndices := ProcessedTimedEventIndices s;
     TickerHandle := TickerHandle s |}.

Definition set_LineDuration (v : Q) (s : t) : t :=
  {| SpeedTimings := SpeedTimings s; PauseDurations := PauseDurations s;
     ScreenTransitionPauseSeconds := ScreenTransitionPauseSeconds s;
     FadeWindowSeconds := FadeWindowSeconds s; LineBreakPercent := LineBreakPercent s;
     TransitionElapsedTime := TransitionElapsedTime s; CurrentStory := CurrentStory s;
     CurrentScreenIndex := CurrentScreenIndex s; CurrentLineIndex := CurrentLineIndex s;
     LineElapsedTime := LineElapsedTime s; LineDuration := v;
     PauseElapsedTime := PauseElapsedTime s; PauseDuration := PauseDuration s;
     ScreenElapsedTime := ScreenElapsedTime s; LineStartTimes := LineStartTimes s;
     bIsPlaying := bIsPlaying s; bIsPaused := bIsPaused s; CurrentState := CurrentState s;
     ProcessedTimedEventIndices := ProcessedTimedEventIndices s;
     TickerHandle := TickerHandle s |}.

Definition set_PauseElapsedTime (v : Q) (s : t) : t :=
  {| SpeedTimings := SpeedTimings s; PauseDurations := PauseDurations s;
     ScreenTransitionPauseSeconds := ScreenTransitionPauseSeconds s;
     FadeWindowSeconds := FadeWindowSeconds s; LineBreakPercent := LineBreakPercent s;
     TransitionElapsedTime := TransitionElapsedTime s; CurrentStory := CurrentStory s;
     CurrentScreenIndex := CurrentScreenIndex s; CurrentLineIndex := CurrentLineIndex s;
     LineElapsedTime := LineElapsedTime s; LineDuration := LineDuration s;
     PauseElapsedTime := v; PauseDuration := PauseDuration s;
     ScreenElapsedTime := ScreenElapsedTime s; LineStartTimes := LineStartTimes s;
     bIsPlaying := bIsPlaying s; bIsPaused := bIsPaused s; CurrentState := CurrentState s;
     ProcessedTimedEventIndices := ProcessedTimedEventIndices s;
     TickerHandle := TickerHandle s |}.

Definition set_PauseDuration (v : Q) (s : t) : t :=
  {| SpeedTimings := SpeedTimings s; PauseDurations := PauseDurations s;
     ScreenTransitionPauseSeconds := ScreenTransitionPauseSeconds s;
     FadeWindowSeconds := FadeWindowSeconds s; LineBreakPercent := LineBreakPercent s;
     TransitionElapsedTime := TransitionElapsedTime s; CurrentStory := CurrentStory s;
     CurrentScreenIndex := CurrentScreenIndex s; CurrentLineIndex := CurrentLineIndex s;
     LineElapsedTime := LineElapsedTime s; LineDuration := LineDuration s;
     PauseElapsedTime := PauseElapsedTime s; PauseDuration := v;
     ScreenElapsedTime := ScreenElapsedTime s; LineStartTimes := LineStartTimes s;
     bIsPlaying := bIsPlaying s; bIsPaused := bIsPaused s; CurrentState := CurrentState s;
     ProcessedTimedEventIndices := ProcessedTimedEventIndices s;
     TickerHandle := TickerHandle s |}.

Definition set_ScreenElapsedTime (v : Q) (s : t) : t :=
  {| SpeedTimings := SpeedTimings s; PauseDurations := PauseDurations s;
     ScreenTransitionPauseSeconds := ScreenTransitionPauseSeconds s;
     FadeWindowSeconds := FadeWindowSeconds s; LineBreakPercent := LineBreakPercent s;
     TransitionElapsedTime := TransitionElapsedTime s; CurrentStory := CurrentStory s;
     CurrentScreenIndex := CurrentScreenIndex s; CurrentLineIndex := CurrentLineIndex s;
     LineElapsedTime := LineElapsedTime s; LineDuration := LineDuration s;
     PauseElapsedTime := PauseElapsedTime s; PauseDuration := PauseDuration s;
     ScreenElapsedTime := v; LineStartTimes := LineStartTimes s;
     bIsPlaying := bIsPlaying s; bIsPaused := bIsPaused s; CurrentState := CurrentState s;
     ProcessedTimedEventIndices := ProcessedTimedEventIndices s;
     TickerHandle := TickerHandle s |}.

Definition set_LineStartTimes (v : list Q) (s : t) : t :=
  {| SpeedTimings := SpeedTimings s; PauseDurations := PauseDurations s;
     ScreenTransitionPauseSeconds := ScreenTransitionPauseSeconds s;
     FadeWindowSeconds := FadeWindowSeconds s; LineBreakPercent := LineBreakPercent s;
     TransitionElapsedTime := TransitionElapsedTime s; CurrentStory := CurrentStory s;
     CurrentScreenIndex := CurrentScreenIndex s; CurrentLineIndex := CurrentLineIndex s;
     LineElapsedTime := LineElapsedTime s; LineDuration := LineDuration s;
     PauseElapsedTime := PauseElapsedTime s; PauseDuration := PauseDuration s;
     ScreenElapsedTime := ScreenElapsedTime s; LineStartTimes := v;
     bIsPlaying := bIsPlaying s; bIsPaused := bIsPaused s; CurrentState := CurrentState s;
     ProcessedTimedEventIndices := ProcessedTimedEventIndices s;
     TickerHandle := TickerHandle s |}.

Definition set_bIsPlaying (v : bool) (s : t) : t :=
  {| SpeedTimings := SpeedTimings s; PauseDurations := PauseDurations s;
     ScreenTransitionPauseSeconds := ScreenTransitionPauseSeconds s;
     FadeWindowSeconds := FadeWindowSeconds s; LineBreakPercent := LineBreakPercent s;
     TransitionElapsedTime := TransitionElapsedTime s; CurrentStory := CurrentStory s;
     CurrentScreenIndex := CurrentScreenIndex s; CurrentLineIndex := CurrentLineIndex s;
     LineElapsedTime := LineElapsedTime s; LineDuration := LineDuration s;
     PauseElapsedTime := PauseElapsedTime s; PauseDuration := PauseDuration s;
     ScreenElapsedTime := ScreenElapsedTime s; LineStartTimes := LineStartTimes s;
     bIsPlaying := v; bIsPaused := bIsPaused s; CurrentState := CurrentState s;
     ProcessedTimedEventIndices := ProcessedTimedEventIndices s;
     TickerHandle := TickerHandle s |}.

Definition set_bIsPaused (v : bool) (s : t) : t :=
  {| SpeedTimings := SpeedTimings s; PauseDurations := PauseDurations s;
     ScreenTransitionPauseSeconds := ScreenTransitionPauseSeconds s;
     FadeWindowSeconds := FadeWindowSeconds s; LineBreakPercent := LineBreakPercent s;
     TransitionElapsedTime := TransitionElapsedTime s; CurrentStory := CurrentStory s;
     CurrentScreenIndex := CurrentScreenIndex s; CurrentLineIndex := CurrentLineIndex s;
     LineElapsedTime := LineElapsedTime s; LineDuration := LineDuration s;
     PauseElapsedTime := PauseElapsedTime s; PauseDuration := PauseDuration s;
     ScreenElapsedTime := ScreenElapsedTime s; LineStartTimes := LineStartTimes s;
     bIsPlaying := bIsPlaying s; bIsPaused := v; CurrentState := CurrentState s;
     ProcessedTimedEventIndices := ProcessedTimedEventIndices s;
     TickerHandle := TickerHandle s |}.

Definition set_CurrentState (v : EStoryPlaybackState.t) (s : t) : t :=
  {| SpeedTimings := SpeedTimings s; PauseDurations := PauseDurations s;
     ScreenTransitionPauseSeconds := ScreenTransitionPauseSeconds s;
     FadeWindowSeconds := FadeWindowSeconds s; LineBreakPercent := LineBreakPercent s;
     TransitionElapsedTime := TransitionElapsedTime s; CurrentStory := CurrentStory s;
     CurrentScreenIndex := CurrentScreenIndex s; CurrentLineIndex := CurrentLineIndex s;
     LineElapsedTime := LineElapsedTime s; LineDuration := LineDuration s;
     PauseElapsedTime := PauseElapsedTime s; PauseDuration := PauseDuration s;
     ScreenElapsedTime := ScreenElapsedTime s; LineStartTimes := LineStartTimes s;
     bIsPlaying := bIsPlaying s; bIsPaused := bIsPaused s; CurrentState := v;
     ProcessedTimedEventIndices := ProcessedTimedEventIndices s;
     TickerHandle := TickerHandle s |}.

Definition set_ProcessedTimedEventIndices (v : gset Z) (s : t) : t :=
  {| SpeedTimings := SpeedTimings s; PauseDurations := PauseDurations s;
     ScreenTransitionPauseSeconds := ScreenTransitionPauseSeconds s;
     FadeWindowSeconds := FadeWindowSeconds s; LineBreakPercent := LineBreakPercent s;
     TransitionElapsedTime := TransitionElapsedTime s; CurrentStory := CurrentStory s;
     CurrentScreenIndex := CurrentScreenIndex s; CurrentLineIndex := CurrentLineIndex s;
     LineElapsedTime := LineElapsedTime s; LineDuration := LineDuration s;
     PauseElapsedTime := PauseElapsedTime s; PauseDuration := PauseDuration s;
     ScreenElapsedTime := ScreenElapsedTime s; LineStartTimes := LineStartTimes s;
     bIsPlaying := bIsPlaying s; bIsPaused := bIsPaused s; CurrentState := CurrentState s;
     ProcessedTimedEventIndices := v; TickerHandle := TickerHandle s |}.

Definition set_TickerHandle (v : bool) (s : t) : t :=
  {| SpeedTimings := SpeedTimings s; PauseDurations := PauseDurations s;
     ScreenTransitionPauseSeconds := ScreenTransitionPauseSeconds s;
     FadeWindowSeconds := FadeWindowSeconds s; LineBreakPercent := LineBreakPercent s;
     TransitionElapsedTime := TransitionElapsedTime s; CurrentStory := CurrentStory s;
     CurrentScreenIndex := CurrentScreenIndex s; CurrentLineIndex := CurrentLineIndex s;
     LineElapsedTime := LineElapsedTime s; LineDuration := LineDuration s;
     PauseElapsedTime := PauseElapsedTime s; PauseDuration := PauseDuration s;
     ScreenElapsedTime := ScreenElapsedTime s; LineStartTimes := LineStartTimes s;
     bIsPlaying := bIsPlaying s; bIsPaused := bIsPaused s; CurrentState := CurrentState s;
     ProcessedTimedEventIndices := ProcessedTimedEventIndices s; TickerHandle := v |}.
Local Open Scope Q_scope.

(** *** Timing configuration *)

Definition GetSpeedTiming (s : t) (Speed : EStorySpeed.t) : FStoryAnimationTiming :=
  match SpeedTimings s !! Speed with
  | Some Found => Found
  | None =>
      match SpeedTimings s !! EStorySpeed.Standard with
      | Some Standard => Standard
      | None => FStoryAnimationTiming_default
      end
  end.

Definition GetPauseDuration (s : t) (PauseType : EStoryPauseDuration.t) : Q :=
  match PauseType with
  | EStoryPauseDuration.LineBreak | EStoryPauseDuration.None =>
      FadeWindowSeconds s * LineBreakPercent s
  | _ =>
      match PauseDurations s !! PauseType with
      | Some Found => Found
      | None => 0
      end
  end.

Definition is_char (c : ascii) (lit : string) : bool :=
  match lit with
  | String x EmptyString => Ascii.eqb c x
  | _ => false
  end.

(** One turn of the loop of [CalculateTypewriterDuration]. *)
Definition typewriter_step (Timing : FStoryAnimationTiming) (Total : Q) (Char : ascii) : Q :=
  let Total := Total + PerLetter Timing in
  if FStr.IsWhitespace Char then Total + ExtraAtSpace Timing
  else if (is_char Char "." || is_char Char "!" || is_char Char "?")%bool
  then Total + ExtraAtPeriod Timing
  else if is_char Char "," then Total + ExtraAtComma Timing
  else if (is_char Char ";" || is_char Char ":")%bool
  then (if is_char Char ":" then Total + ExtraAtColon Timing
        else Total + ExtraAtComma Timing)
  else Total.

Definition CalculateTypewriterDuration (s : t) (Text : FString) (Speed : EStorySpeed.t) : Q :=
  let Timing := GetSpeedTiming s Speed in
  fold_left (typewriter_step Timing) Text 0.

Definition CalculateLineDuration (s : t) (Line : FStoryLine.t) : Q :=
  match FStoryLine.AnimationType Line with
  | EStoryLineAnimation.Typewriter =>
      CalculateTypewriterDuration s (FStoryLine.Text Line) (FStoryLine.Speed Line)
  | _ => BlockDuration (GetSpeedTiming s (FStoryLine.Speed Line))
  end.

(** The loop of [GetCharacterIndexAtTime] from character [i] on, with its two
    early returns. *)
Fixpoint char_index_loop (Timing : FStoryAnimationTiming) (Time : Q)
  (rest : FString) (i : Z) (CurrentTime : Q) (TotalChars : Z) : Z :=
  match rest with
  | [] => TotalChars
  | Char :: rest' =>
      let TypeTime := PerLetter Timing in
      let ExtraTime :=
        if FStr.IsWhitespace Char then ExtraAtSpace Timing
        else if (is_char Char "." || is_char Char "!" || is_char Char "?")%bool
        then ExtraAtPeriod Timing
        else if is_char Char "," then ExtraAtComma Timing
        else if (is_char Char ";" || is_char Char ":")%bool
        then (if is_char Char ":" then ExtraAtColon Timing else ExtraAtComma Timing)
        else 0 in
      if Qlt_bool Time (CurrentTime + TypeTime) then i
      else
        let CurrentTime := CurrentTime + TypeTime in
        if Qlt_bool Time (CurrentTime + ExtraTime) then (i + 1)%Z
        else char_index_loop Timing Time rest' (i + 1)%Z (CurrentTime + ExtraTime) TotalChars
  end.

Definition GetCharacterIndexAtTime (s : t) (Text : FString) (Speed : EStorySpeed.t)
  (Time : Q) : Z :=
  if Qle_bool Time 0 then 0%Z
  else
    let Timing := GetSpeedTiming s Speed in
    char_index_loop Timing Time Text 0%Z 0 (FStr.Len Text).

(** *** Playback *)

(** The scan of [StartLine] for the end of a block: [rest] are the lines from
    index [i] on; the scan stops at the first line of another animation. *)
Fixpoint block_end (Anim : EStoryLineAnimation.t) (rest : list FStoryLine.t)
  (i : Z) (BlockEndIndex : Z) : Z :=
  match rest with
  | [] => BlockEndIndex
  | NextLine :: rest' =>
      if EStoryLineAnimation.eqb (FStoryLine.AnimationType NextLine) Anim
      then block_end Anim rest' (i + 1)%Z i
      else BlockEndIndex
  end.

Definition CascadeDelay : Q := 0.2.

(** The timing loop of [StartLine] over the lines [run] of a block, the first
    of which has index [i]: it returns the start times and [MaxFinishTime]. *)
Fixpoint block_timing (s : t) (Anim : EStoryLineAnimation.t) (run : list FStoryLine.t)
  (i : Z) (Starts : list Q) (CurrentDelay MaxFinishTime : Q) : list Q * Q :=
  match run with
  | [] => (Starts, MaxFinishTime)
  | Line_i :: run' =>
      let Starts := set_index Starts i (ScreenElapsedTime s + CurrentDelay) in
      let CurrentDelay :=
        match Anim with
        | EStoryLineAnimation.TopDown => CurrentDelay + CascadeDelay
        | _ => CurrentDelay
        end in
      let ThisDuration := CalculateLineDuration s Line_i in
      let FinishTime := CurrentDelay + ThisDuration in
      let MaxFinishTime :=
        if Qlt_bool MaxFinishTime FinishTime then FinishTime else MaxFinishTime in
      block_timing s Anim run' (i + 1)%Z Starts CurrentDelay MaxFinishTime
  end.

(** [StartLine].  An index below zero is never passed; the model leaves the
    state alone there. *)
Definition StartLine (LineIndex : Z) (s : t) : t :=
  if (Num (Screens (CurrentStory s)) <=? CurrentScreenIndex s)%Z then s
  else
    match at_index (Screens (CurrentStory s)) (CurrentScreenIndex s) with
    | None => s
    | Some CurrentScreen =>
        if (Num (Lines CurrentScreen) <=? LineIndex)%Z then s
        else
          match at_index (Lines CurrentScreen) LineIndex with
          | None => s
          | Some Line =>
              let bIsBlockAnimation :=
                match FStoryLine.AnimationType Line with
                | EStoryLineAnimation.Paragraph | EStoryLineAnimation.TopDown => true
                | _ => false
                end in
              let s :=
                if bIsBlockAnimation then
                  let Anim := FStoryLine.AnimationType Line in
                  let BlockEndIndex :=
                    block_end Anim
                      (drop (Z.to_nat (LineIndex + 1)) (Lines CurrentScreen))
                      (LineIndex + 1)%Z LineIndex in
                  let run :=
                    take (Z.to_nat (BlockEndIndex - LineIndex + 1))
                      (drop (Z.to_nat LineIndex) (Lines CurrentScreen)) in
                  let '(Starts, MaxFinishTime) :=
                    block_timing s Anim run LineIndex (LineStartTimes s) 0 0 in
                  let s := set_LineStartTimes Starts s in
                  let s := set_LineDuration MaxFinishTime s in
                  set_CurrentLineIndex BlockEndIndex s
                else
                  let s :=
                    set_LineDuration
                      (CalculateTypewriterDuration s (FStoryLine.Text Line)
                         (FStoryLine.Speed Line)) s in
                  set_LineStartTimes
                    (set_index (LineStartTimes s) LineIndex (ScreenElapsedTime s)) s in
              let s := set_LineElapsedTime 0 s in
              set_CurrentState EStoryPlaybackState.PlayingLine s
          end
    end.

(** [StartStory] after [LoadStory]: [Loaded] is the story it returned, [None]
    when loading failed.  The result is the return value and the new state. *)
Definition StartStory (Loaded : option FShortStory) (s : t) : bool * t :=
  match Loaded with
  | None => (false, s)
  | Some LoadedStory =>
      match Screens LoadedStory with
      | [] => (false, s)
      | Screen0 :: _ =>
          if (Num (Lines Screen0) =? 0)%Z then (false, s)
          else
            let s := set_CurrentStory LoadedStory s in
            let s := set_CurrentScreenIndex 0%Z s in
            let s := set_CurrentLineIndex 0%Z s in
            let s := set_ScreenElapsedTime 0 s in
            let s := set_ProcessedTimedEventIndices ∅ s in
            let s := set_LineStartTimes (replicate (length (Lines Screen0)) (-1)) s in
            let s := set_bIsPlaying true s in
            let s := set_bIsPaused false s in
            let s := set_CurrentState EStoryPlaybackState.PlayingLine s in
            let s := if negb (TickerHandle s) then set_TickerHandle true s else s in
            (true, StartLine 0%Z s)
      end
  end.

Definition StopStory (s : t) : t :=
  if negb (bIsPlaying s) then s
  else
    let s := set_bIsPlaying false s in
    let s := set_bIsPaused false s in
    let s := set_CurrentState EStoryPlaybackState.Idle s in
    let s := set_CurrentScreenIndex 0%Z s in
    let s := set_CurrentLineIndex 0%Z s in
    let s := set_ScreenElapsedTime 0 s in
    let s := set_LineElapsedTime 0 s in
    let s := set_PauseElapsedTime 0 s in
    let s := set_ProcessedTimedEventIndices ∅ s in
    let s := set_LineStartTimes [] s in
    if TickerHandle s then set_TickerHandle false s else s.

Definition SetPaused (bPause : bool) (s : t) : t :=
  if negb (bIsPlaying s) then s else set_bIsPaused bPause s.

Definition GetCurrentLine (s : t) : FStoryLine.t :=
  if (negb (bIsPlaying s) || (Num (Screens (CurrentStory s)) <=? CurrentScreenIndex s)%Z)%bool
  then FStoryLine.default
  else
    match at_index (Screens (CurrentStory s)) (CurrentScreenIndex s) with
    | None => FStoryLine.default
    | Some CurrentScreen =>
        if (Num (Lines CurrentScreen) <=? CurrentLineIndex s)%Z then FStoryLine.default
        else
          match at_index (Lines CurrentScreen) (CurrentLineIndex s) with
          | Some Line => Line
          | None => FStoryLine.default
          end
    end.

Definition StartPause (s : t) : t :=
  let CurrentLine := GetCurrentLine s in
  let s := set_PauseDuration (GetPauseDuration s (FStoryLine.PauseDuration CurrentLine)) s in
  let s := set_PauseElapsedTime 0 s in
  set_CurrentState EStoryPlaybackState.PausingAfterLine s.

Definition AdvanceToNextScreen (s : t) : t :=
  let s := set_CurrentScreenIndex (CurrentScreenIndex s + 1)%Z s in
  if (CurrentScreenIndex s <? Num (Screens (CurrentStory s)))%Z then
    match at_index (Screens (CurrentStory s)) (CurrentScreenIndex s) with
    | None => s
    | Some NextScreen =>
        let s := set_CurrentLineIndex 0%Z s in
        let s := set_ScreenElapsedTime 0 s in
        let s := set_ScreenElapsedTime 0 s in
        let s := set_ProcessedTimedEventIndices ∅ s in
        let s := set_LineStartTimes (replicate (length (Lines NextScreen)) (-1)) s in
        set_CurrentState EStoryPlaybackState.TransitioningScreen s
    end
  else
    let s := set_bIsPlaying false s in
    let s := set_CurrentState EStoryPlaybackState.Completed s in
    if TickerHandle s then set_TickerHandle false s else s.

Definition AdvanceToNextLineOrScreen (s : t) : t :=
  if (Num (Screens (CurrentStory s)) <=? CurrentScreenIndex s)%Z then s
  else
    match at_index (Screens (CurrentStory s)) (CurrentScreenIndex s) with
    | None => s
    | Some CurrentScreen =>
        let s := set_CurrentLineIndex (CurrentLineIndex s + 1)%Z s in
        if (CurrentLineIndex s <? Num (Lines CurrentScreen))%Z
        then StartLine (CurrentLineIndex s) s
        else AdvanceToNextScreen s
    end.

(** The loop of [ProcessTimedEvents]; [events] are the events from index [i]. *)
Fixpoint process_events (ScreenElapsed : Q) (events : list FStoryTimedEvent) (i : Z)
  (Processed : gset Z) : gset Z :=
  match events with
  | [] => Processed
  | Event :: events' =>
      if bool_decide (i ∈ Processed)
      then process_events ScreenElapsed events' (i + 1)%Z Processed
      else if Qle_bool (StartTime Event) ScreenElapsed
      then process_events ScreenElapsed events' (i + 1)%Z ({[ i ]} ∪ Processed)
      else process_events ScreenElapsed events' (i + 1)%Z Processed
  end.

Definition ProcessTimedEvents (s : t) : t :=
  if (Num (Screens (CurrentStory s)) <=? CurrentScreenIndex s)%Z then s
  else
    match at_index (Screens (CurrentStory s)) (CurrentScreenIndex s) with
    | None => s
    | Some CurrentScreen =>
        set_ProcessedTimedEventIndices
          (process_events (ScreenElapsedTime s) (TimedEvents CurrentScreen) 0%Z
             (ProcessedTimedEventIndices s)) s
    end.

Definition OnScreenTransitionComplete (s : t) : t :=
  if (Num (Screens (CurrentStory s)) <=? CurrentScreenIndex s)%Z then s
  else
    match at_index (Screens (CurrentStory s)) (CurrentScreenIndex s) with
    | None => s
    | Some CurrentScreen =>
        if (0 <? Num (Lines CurrentScreen))%Z then StartLine 0%Z s
        else AdvanceToNextScreen s
    end.

(** [Tick]; the source always returns [true] (keep ticking), the model returns
    the new state. *)
Definition Tick (DeltaTime : Q) (s : t) : t :=
  if (negb (bIsPlaying s) || bIsPaused s)%bool then s
  else
    let s := set_ScreenElapsedTime (ScreenElapsedTime s + DeltaTime) s in
    let s := ProcessTimedEvents s in
    match CurrentState s with
    | EStoryPlaybackState.PlayingLine =>
        let s := set_LineElapsedTime (LineElapsedTime s + DeltaTime) s in
        if Qle_bool (LineDuration s) (LineElapsedTime s) then StartPause s else s
    | EStoryPlaybackState.PausingAfterLine =>
        let s := set_PauseElapsedTime (PauseElapsedTime s + DeltaTime) s in
        if Qle_bool (PauseDuration s) (PauseElapsedTime s)
        then AdvanceToNextLineOrScreen s else s
    | EStoryPlaybackState.TransitioningScreen =>
        let s := set_TransitionElapsedTime (TransitionElapsedTime s + DeltaTime) s in
        if Qle_bool (ScreenTransitionPauseSeconds s) (TransitionElapsedTime s)
        then OnScreenTransitionComplete s else s
    | EStoryPlaybackState.Completed | EStoryPlaybackState.Idle => s
    end.

(** *** Debug functions *)

Definition DebugSkipToNextScreen (s : t) : t :=
  if negb (bIsPlaying s) then s
  else if (Num (Screens (CurrentStory s)) - 1 <=? CurrentScreenIndex s)%Z then s
  else AdvanceToNextScreen s.

Definition DebugSkipToPreviousScreen (s : t) : t :=
  if negb (bIsPlaying s) then s
  else if (CurrentScreenIndex s <=? 0)%Z then s
  else
    let s := set_CurrentScreenIndex (CurrentScreenIndex s - 1)%Z s in
    match at_index (Screens (CurrentStory s)) (CurrentScreenIndex s) with
    | None => s
    | Some PrevScreen =>
        let s := set_CurrentLineIndex 0%Z s in
        let s := set_ScreenElapsedTime 0 s in
        let s := set_LineElapsedTime 0 s in
        let s := set_PauseElapsedTime 0 s in
        let s := set_ProcessedTimedEventIndices ∅ s in
        let s := set_LineStartTimes (replicate (length (Lines PrevScreen)) (-1)) s in
        let s := set_CurrentState EStoryPlaybackState.TransitioningScreen s in
        set_TransitionElapsedTime 0 s
    end.

Definition DebugJumpToScreen (ScreenIndex : Z) (s : t) : t :=
  if negb (bIsPlaying s) then s
  else if ((ScreenIndex <? 0)%Z || (Num (Screens (CurrentStory s)) <=? ScreenIndex)%Z)%bool
  then s
  else
    let s := set_CurrentScreenIndex ScreenIndex s in
    match at_index (Screens (CurrentStory s)) (CurrentScreenIndex s) with
    | None => s
    | Some TargetScreen =>
        let s := set_CurrentLineIndex 0%Z s in
        let s := set_ScreenElapsedTime 0 s in
        let s := set_LineElapsedTime 0 s in
        let s := set_PauseElapsedTime 0 s in
        let s := set_ProcessedTimedEventIndices ∅ s in
        let s := set_LineStartTimes (replicate (length (Lines TargetScreen)) (-1)) s in
        let s := set_CurrentState EStoryPlaybackState.TransitioningScreen s in
        set_TransitionElapsedTime 0 s
    end.

Definition DebugSkipCurrentLine (s : t) : t :=
  if negb (bIsPlaying s) then s
  else
    match CurrentState s with
    | EStoryPlaybackState.PlayingLine =>
        let RemainingTime := LineDuration s - LineElapsedTime s in
        let s := set_ScreenElapsedTime (ScreenElapsedTime s + RemainingTime) s in
        let s := set_LineElapsedTime (LineDuration s) s in
        StartPause s
    | _ => s
    end.

(** The subsystem as constructed: the member initialisers of the class, with
    no timing table loaded. *)
Definition initial : t :=
  {| SpeedTimings := ∅; PauseDurations := ∅;
     ScreenTransitionPauseSeconds := 1.5; FadeWindowSeconds := 0.5;
     LineBreakPercent := 0.66; TransitionElapsedTime := 0;
     CurrentStory := FShortStory_default; CurrentScreenIndex := 0; CurrentLineIndex := 0;
     LineElapsedTime := 0; LineDuration := 0; PauseElapsedTime := 0; PauseDuration := 0;
     ScreenElapsedTime := 0; LineStartTimes := []; bIsPlaying := false; bIsPaused := false;
     CurrentState := EStoryPlaybackState.Idle; ProcessedTimedEventIndices := ∅;
     TickerHandle := false |}.

End UShortStorySubsystem.

(** ** The parser (ShortStoryParser.h, ShortStoryParser.cpp) *)

Module EParseState.
Inductive t := None | StoryMetadata | ScreenContent.
End EParseState.

Module UShortStoryParser.

Definition Space : ascii := ascii_of_nat 32.

(** *** Keyword tables *)

Definition ParseAnimationType (AnimString : FString) : option EStoryLineAnimation.t :=
  let Lower := FStr.ToLower AnimString in
  if (FStr.Equals Lower (TEXT "typewriter") || FStr.Equals Lower (TEXT "standard")
      || FStr.Equals Lower (TEXT "alone") || FStr.Equals Lower (TEXT "slow")
      || FStr.Equals Lower (TEXT "fast"))%bool
  then Some EStoryLineAnimation.Typewriter
  else if (FStr.Equals Lower (TEXT "left_to_right") || FStr.Equals Lower (TEXT "lefttoright"))%bool
  then Some EStoryLineAnimation.LeftToRight
  else if (FStr.Equals Lower (TEXT "top_down") || FStr.Equals Lower (TEXT "topdown"))%bool
  then Some EStoryLineAnimation.TopDown
  else if (FStr.Equals Lower (TEXT "word_rain") || FStr.Equals Lower (TEXT "wordrain"))%bool
  then Some EStoryLineAnimation.WordRain
  else if FStr.Equals Lower (TEXT "snake") then Some EStoryLineAnimation.Snake
  else if FStr.Equals Lower (TEXT "slow") then Some EStoryLineAnimation.Typewriter
  else if FStr.Equals Lower (TEXT "fast") then Some EStoryLineAnimation.Typewriter
  else if (FStr.Equals Lower (TEXT "paragraph") || FStr.Equals Lower (TEXT "fade_in")
           || FStr.Equals Lower (TEXT "fadein"))%bool
  then Some EStoryLineAnimation.Paragraph
  else None.

Definition ParsePauseDuration (PauseString : FString) : option EStoryPauseDuration.t :=
  let Lower := FStr.ToLower PauseString in
  if (FStr.Equals Lower (TEXT "0") || FStr.Equals Lower (TEXT "none"))%bool
  then Some EStoryPauseDuration.None
  else if FStr.Equals Lower (TEXT "short") then Some EStoryPauseDuration.Short
  else if FStr.Equals Lower (TEXT "standard") then Some EStoryPauseDuration.Standard
  else if FStr.Equals Lower (TEXT "long") then Some EStoryPauseDuration.Long
  else None.

Definition ParseEffectType (EffectString : FString) : option EStoryEffect.t :=
  let Lower := FStr.ToLower EffectString in
  if FStr.Equals Lower (TEXT "none") then Some EStoryEffect.None
  else if (FStr.Equals Lower (TEXT "shake_low") || FStr.Equals Lower (TEXT "shakelow"))%bool
  then Some EStoryEffect.ShakeLow
  else if (FStr.Equals Lower (TEXT "shake_med") || FStr.Equals Lower (TEXT "shakemed")
           || FStr.Equals Lower (TEXT "shake_medium"))%bool
  then Some EStoryEffect.ShakeMed
  else if (FStr.Equals Lower (TEXT "shake_high") || FStr.Equals Lower (TEXT "shakehigh"))%bool
  then Some EStoryEffect.ShakeHigh
  else if FStr.Equals Lower (TEXT "storm") then Some EStoryEffect.Storm
  else None.

Definition ParseTransitionType (TransitionString : FString) : option EStoryTransition.t :=
  let Lower := FStr.ToLower TransitionString in
  if FStr.Equals Lower (TEXT "instant") then Some EStoryTransition.Instant
  else if FStr.Equals Lower (TEXT "fade") then Some EStoryTransition.Fade
  else if FStr.Equals Lower (TEXT "crossfade") then Some EStoryTransition.Crossfade
  else None.

Definition ParseSpeed (SpeedString : FString) : option EStorySpeed.t :=
  let Lower := FStr.ToLower SpeedString in
  if FStr.Equals Lower (TEXT "standard") then Some EStorySpeed.Standard
  else if FStr.Equals Lower (TEXT "fast") then Some EStorySpeed.Fast
  else if FStr.Equals Lower (TEXT "slow") then Some EStorySpeed.Slow
  else None.

(** *** Line shapes *)

Definition CleanLine (Line : FString) : FString :=
  let Cleaned := FStr.TrimStartAndEnd Line in
  if FStr.StartsWith Cleaned (TEXT "#") then [] else Cleaned.

(** [IsSectionHeader]: the section name when the line is a header. *)
Definition IsSectionHeader (Line : FString) : option FString :=
  if (FStr.StartsWith Line (TEXT "[") && FStr.EndsWith Line (TEXT "]"))%bool then
    let OutSectionName :=
      FStr.TrimStartAndEnd (FStr.MidCount Line 1 (FStr.Len Line - 2)) in
    if FStr.EqualsIgnoreCase OutSectionName (TEXT "SPACER") then None
    else if negb (FStr.IsEmpty OutSectionName) then Some OutSectionName else None
  else None.

(** [ParseMetadataLine].  A [TMap] keyed by [FString] compares keys without
    case, so the map is keyed by the lower-cased key. *)
Definition ParseMetadataLine (Line : FString) (OutMetadata : gmap FString FString)
  : bool * gmap FString FString :=
  if FStr.Contains Line (TEXT "|") then (false, OutMetadata)
  else
    match FStr.Split Line (TEXT "=") with
    | Some (Key, Value) =>
        let Key := FStr.TrimStartAndEnd Key in
        let Value := FStr.TrimStartAndEnd Value in
        if (negb (FStr.IsEmpty Key) && negb (FStr.IsEmpty Value))%bool
        then (true, <[FStr.ToLower Key := Value]> OutMetadata)
        else (false, OutMetadata)
    | None => (false, OutMetadata)
    end.

(** *** Wrapping *)

(** The backward scan of [SplitTextByLength]: the greatest index [i <= n] with
    [Remaining[i] == ' '], or [-1]. *)
Fixpoint scan_space (Remaining : FString) (n : nat) : Z :=
  match Remaining !! n with
  | Some c =>
      if Ascii.eqb c Space then Z.of_nat n
      else match n with O => -1 | S k => scan_space Remaining k end
  | None => match n with O => -1 | S k => scan_space Remaining k end
  end.

Definition split_tail (Remaining : FString) : list FString :=
  if negb (FStr.IsEmpty Remaining) then [FStr.TrimStartAndEnd Remaining] else [].

(** The [while] loop of [SplitTextByLength] and the statement after it; each
    turn shortens [Remaining], so [length Remaining] turns are enough
    ([split_loop_fuel] below). *)
Fixpoint split_loop (fuel : nat) (MaxLen : Z) (Remaining : FString) : list FString :=
  match fuel with
  | O => split_tail Remaining
  | S fuel' =>
      if MaxLen <? FStr.Len Remaining then
        let SplitIndex := scan_space Remaining (Z.to_nat MaxLen) in
        let SplitIndex := if SplitIndex =? -1 then MaxLen else SplitIndex in
        FStr.TrimStartAndEnd (FStr.Left Remaining SplitIndex)
          :: split_loop fuel' MaxLen (FStr.TrimStart (FStr.Mid Remaining SplitIndex))
      else split_tail Remaining
  end.

Definition SplitTextByLength (Text : FString) (MaxLen : Z) : list FString :=
  if FStr.IsEmpty Text then []
  else if MaxLen <=? 0 then [Text]
  else split_loop (length Text) MaxLen Text.

(** The last loop of [ProcessTextToLines], from segment [i] on. *)
Fixpoint emit_segments (segs : list FString) (i n : Z) (Anim : EStoryLineAnimation.t)
  (Speed : EStorySpeed.t) (Pause : EStoryPauseDuration.t) (Effect : EStoryEffect.t)
  (Offset : FVector2D) : list FStoryLine.t :=
  match segs with
  | [] => []
  | seg :: segs' =>
      {| FStoryLine.Text := seg; FStoryLine.AnimationType := Anim;
         FStoryLine.Speed := Speed;
         FStoryLine.PauseDuration :=
           if i =? n - 1 then Pause else EStoryPauseDuration.LineBreak;
         FStoryLine.Effect := Effect; FStoryLine.PositionOffset := Offset |}
        :: emit_segments segs' (i + 1) n Anim Speed Pause Effect Offset
  end.

(** [ProcessTextToLines]: the new value of [OutLines]. *)
Definition ProcessTextToLines (Text : FString) (Anim : EStoryLineAnimation.t)
  (Speed : EStorySpeed.t) (Pause : EStoryPauseDuration.t) (Effect : EStoryEffect.t)
  (Offset : FVector2D) (OutLines : list FStoryLine.t) (MaxLineLength : Z)
  : list FStoryLine.t :=
  let ManualSegments := FStr.ParseIntoArray Text (TEXT "\\") false in
  let ManualSegments :=
    if Num ManualSegments =? 0 then [Text] else ManualSegments in
  let FinalSegments :=
    concat (map (fun ManualSeg =>
                   SplitTextByLength (FStr.TrimStartAndEnd ManualSeg) MaxLineLength)
              ManualSegments) in
  OutLines ++ emit_segments FinalSegments 0 (Num FinalSegments) Anim Speed Pause Effect Offset.

(** *** Attribute lines and timed events *)

Section WithAtof.

(** [FCString::Atof], the numeric conversion of the C library. *)
Variable Atof : FString -> Q.

Definition ParsePositionOffset (OffsetString : FString) : option FVector2D :=
  match FStr.ParseIntoArray OffsetString (TEXT ",") false with
  | [C0; C1] =>
      let X := Atof (FStr.TrimStartAndEnd C0) in
      let Y := Atof (FStr.TrimStartAndEnd C1) in
      Some {| X := X; Y := Y |}
  | _ => None
  end.

(** The reference parameters of [ParseLineAttributes]. *)
Record LineAttributes := {
  OutText : FString;
  OutAnim : EStoryLineAnimation.t;
  OutSpeed : EStorySpeed.t;
  OutPause : EStoryPauseDuration.t;
  OutEffect : EStoryEffect.t;
  OutOffset : FVector2D;
  OutError : FString
}.

Definition set_OutError (v : FString) (a : LineAttributes) : LineAttributes :=
  {| OutText := OutText a; OutAnim := OutAnim a; OutSpeed := OutSpeed a;
     OutPause := OutPause a; OutEffect := OutEffect a; OutOffset := OutOffset a;
     OutError := v |}.

Definition set_OutText (v : FString) (a : LineAttributes) : LineAttributes :=
  {| OutText := v; OutAnim := OutAnim a; OutSpeed := OutSpeed a;
     OutPause := OutPause a; OutEffect := OutEffect a; OutOffset := OutOffset a;
     OutError := OutError a |}.

Definition set_OutAnim (v : EStoryLineAnimation.t) (a : LineAttributes) : LineAttributes :=
  {| OutText := OutText a; OutAnim := v; OutSpeed := OutSpeed a;
     OutPause := OutPause a; OutEffect := OutEffect a; OutOffset := OutOffset a;
     OutError := OutError a |}.

Definition set_OutSpeed (v : EStorySpeed.t) (a : LineAttributes) : LineAttributes :=
  {| OutText := OutText a; OutAnim := OutAnim a; OutSpeed := v;
     OutPause := OutPause a; OutEffect := OutEffect a; OutOffset := OutOffset a;
     OutError := OutError a |}.

Definition set_OutPause (v : EStoryPauseDuration.t) (a : LineAttributes) : LineAttributes :=
  {| OutText := OutText a; OutAnim := OutAnim a; OutSpeed := OutSpeed a;
     OutPause := v; OutEffect := OutEffect a; OutOffset := OutOffset a;
     OutError := OutError a |}.

Definition set_OutEffect (v : EStoryEffect.t) (a : LineAttributes) : LineAttributes :=
  {| OutText := OutText a; OutAnim := OutAnim a; OutSpeed := OutSpeed a;
     OutPause := OutPause a; OutEffect := v; OutOffset := OutOffset a;
     OutError := OutError a |}.

Definition set_OutOffset (v : FVector2D) (a : LineAttributes) : LineAttributes :=
  {| OutText := OutText a; OutAnim := OutAnim a; OutSpeed := OutSpeed a;
     OutPause := OutPause a; OutEffect := OutEffect a; OutOffset := v;
     OutError := OutError a |}.

(** The locals a caller declares and hands to [ParseLineAttributes]: the
    strings are empty, and the enumerations and the offset hold no value yet
    (the default of each type stands for it; a successful call overwrites all
    of them and a failed call is followed by a read of [OutError] only). *)
Definition declared_locals : LineAttributes :=
  {| OutText := []; OutAnim := EStoryLineAnimation.Typewriter;
     OutSpeed := EStorySpeed.Standard; OutPause := EStoryPauseDuration.None;
     OutEffect := EStoryEffect.None; OutOffset := ZeroVector; OutError := [] |}.

(** One turn of the loop of [ParseLineAttributes] over the fields 2, 3, ... *)
Definition parse_parameter (a : LineAttributes) (Field : FString) : LineAttributes :=
  match FStr.Split Field (TEXT "=") with
  | Some (Key, Value) =>
      let Key := FStr.ToLower (FStr.TrimStartAndEnd Key) in
      let Value := FStr.TrimStartAndEnd Value in
      if FStr.EqualsIgnoreCase Key (TEXT "speed") then
        match ParseSpeed Value with
        | Some v => set_OutSpeed v a
        | None => set_OutError (TEXT "Unknown speed '" ++ Value ++ TEXT "'") a
        end
      else if FStr.EqualsIgnoreCase Key (TEXT "pause") then
        match ParsePauseDuration Value with
        | Some v => set_OutPause v a
        | None => set_OutError (TEXT "Unknown pause duration '" ++ Value ++ TEXT "'") a
        end
      else if FStr.EqualsIgnoreCase Key (TEXT "effect") then
        match ParseEffectType Value with
        | Some v => set_OutEffect v a
        | None => set_OutError (TEXT "Unknown effect type '" ++ Value ++ TEXT "'") a
        end
      else if FStr.EqualsIgnoreCase Key (TEXT "offset") then
        match ParsePositionOffset Value with
        | Some v => set_OutOffset v a
        | None =>
            set_OutError
              (TEXT "Invalid offset format '" ++ Value ++ TEXT "' (expected X,Y)") a
        end
      else set_OutError (TEXT "Unknown parameter '" ++ Key ++ TEXT "'") a
  | None =>
      set_OutError
        (TEXT "Invalid parameter format '" ++ Field ++ TEXT "' (expected key=value)") a
  end.

(** [ParseLineAttributes]: the return value and the reference parameters. *)
Definition ParseLineAttributes (Line : FString) (a : LineAttributes)
  : bool * LineAttributes :=
  let Fields := map FStr.TrimStartAndEnd (FStr.ParseIntoArray Line (TEXT "|") false) in
  match Fields with
  | Field0 :: Field1 :: Parameters =>
      let a := set_OutText Field0 a in
      let a :=
        if FStr.EqualsIgnoreCase (FStr.TrimStartAndEnd (OutText a)) (TEXT "[SPACER]")
        then set_OutText (TEXT " ") a else a in
      if FStr.IsEmpty (OutText a) then (false, set_OutError (TEXT "Empty text field") a)
      else
        let a :=
          match ParseAnimationType Field1 with
          | Some v => set_OutAnim v a
          | None =>
              let a :=
                set_OutError (TEXT "Unknown animation type '" ++ Field1 ++ TEXT "'") a in
              set_OutAnim EStoryLineAnimation.Typewriter a
          end in
        let a := set_OutSpeed EStorySpeed.Standard a in
        let a := set_OutPause EStoryPauseDuration.None a in
        let a := set_OutEffect EStoryEffect.None a in
        let a := set_OutOffset ZeroVector a in
        (true, fold_left parse_parameter Parameters a)
  | _ =>
      (false,
       set_OutError
         (TEXT "Invalid story line format (expected at least 2 fields, got "
            ++ FStr.FromInt (Num Fields) ++ TEXT ")") a)
  end.

(** [ParseTimedEvent]: the event on success, the error message otherwise. *)
Definition ParseTimedEvent (Line : FString) (LineNumber : Z)
  : FStoryTimedEvent + FString :=
  match FStr.ParseIntoArray Line (TEXT " ") true with
  | [] => inr (TEXT "Empty timed event")
  | Part0 :: Parts' =>
      let Command := FStr.ToLower Part0 in
      if FStr.Equals Command (TEXT "sfx") then
        let Remainder := FStr.TrimStartAndEnd (FStr.Mid Line (FStr.Len Command)) in
        match FStr.ParseIntoArray Remainder (TEXT "|") false with
        | F0 :: F1 :: _ =>
            inl {| EventType := EStoryTimedEventType.SFX;
                   StartTime := Atof (FStr.TrimStartAndEnd F1);
                   Duration := Duration FStoryTimedEvent_default;
                   AssetPath := FStr.TrimStartAndEnd F0 |}
        | _ => inr (TEXT "Invalid @sfx format (expected: @sfx <path> | <time>)")
        end
      else if FStr.Equals Command (TEXT "vfx") then
        let Remainder := FStr.TrimStartAndEnd (FStr.Mid Line (FStr.Len Command)) in
        match FStr.ParseIntoArray Remainder (TEXT "|") false with
        | F0 :: F1 :: F2 :: _ =>
            inl {| EventType := EStoryTimedEventType.VFX;
                   StartTime := Atof (FStr.TrimStartAndEnd F1);
                   Duration := Atof (FStr.TrimStartAndEnd F2);
                   AssetPath := FStr.TrimStartAndEnd F0 |}
        | _ =>
            inr (TEXT "Invalid @vfx format (expected: @vfx <class> | <time> | <duration>)")
        end
      else if FStr.Equals Command (TEXT "wait") then
        match Parts' with
        | Part1 :: _ =>
            inl {| EventType := EStoryTimedEventType.Wait;
                   StartTime := Atof Part1;
                   Duration := Duration FStoryTimedEvent_default;
                   AssetPath := AssetPath FStoryTimedEvent_default |}
        | [] => inr (TEXT "Invalid @wait format (expected: @wait <duration>)")
        end
      else if FStr.Equals Command (TEXT "background") then
        let Path := FStr.TrimStartAndEnd (FStr.Mid Line (FStr.Len Command)) in
        if FStr.IsEmpty Path
        then inr (TEXT "Invalid @background format (expected: @background <path>)")
        else
          inl {| EventType := EStoryTimedEventType.BackgroundChange;
                 StartTime := StartTime FStoryTimedEvent_default;
                 Duration := Duration FStoryTimedEvent_default;
                 AssetPath := Path |}
      else inr (TEXT "Unknown timed event command '" ++ Command ++ TEXT "'")
  end.

(** *** The line loop of [ParseStoryFromString] *)

(** The story and error list under construction and the locals of the loop.
    [CurrentScreen] points into [OutStory.Screens]: it is the index of the
    screen it points to, or [None] for [nullptr]. *)
Record ParseLocals := {
  OutStory : FShortStory;
  OutErrors : list FString;
  CurrentState : EParseState.t;
  StoryMetadata : gmap FString FString;
  CurrentScreenMetadata : gmap FString FString;
  CurrentScreen : option nat;
  bFoundStorySection : bool;
  PendingLines : list FString
}.

Definition set_OutStory (v : FShortStory) (p : ParseLocals) : ParseLocals :=
  {| OutStory := v; OutErrors := OutErrors p; CurrentState := CurrentState p;
     StoryMetadata := StoryMetadata p; CurrentScreenMetadata := CurrentScreenMetadata p;
     CurrentScreen := CurrentScreen p; bFoundStorySection := bFoundStorySection p;
     PendingLines := PendingLines p |}.

Definition set_OutErrors (v : list FString) (p : ParseLocals) : ParseLocals :=
  {| OutStory := OutStory p; OutErrors := v; CurrentState := CurrentState p;
     StoryMetadata := StoryMetadata p; CurrentScreenMetadata := CurrentScreenMetadata p;
     CurrentScreen := CurrentScreen p; bFoundStorySection := bFoundStorySection p;
     PendingLines := PendingLines p |}.

Definition set_CurrentState (v : EParseState.t) (p : ParseLocals) : ParseLocals :=
  {| OutStory := OutStory p; OutErrors := OutErrors p; CurrentState := v;
     StoryMetadata := StoryMetadata p; CurrentScreenMetadata := CurrentScreenMetadata p;
     CurrentScreen := CurrentScreen p; bFoundStorySection := bFoundStorySection p;
     PendingLines := PendingLines p |}.

Definition set_StoryMetadata (v : gmap FString FString) (p : ParseLocals) : ParseLocals :=
  {| OutStory := OutStory p; OutErrors := OutErrors p; CurrentState := CurrentState p;
     StoryMetadata := v; CurrentScreenMetadata := CurrentScreenMetadata p;
     CurrentScreen := CurrentScreen p; bFoundStorySection := bFoundStorySection p;
     PendingLines := PendingLines p |}.

Definition set_CurrentScreenMetadata (v : gmap FString FString) (p : ParseLocals)
  : ParseLocals :=
  {| OutStory := OutStory p; OutErrors := OutErrors p; CurrentState := CurrentState p;
     StoryMetadata := StoryMetadata p; CurrentScreenMetadata := v;
     CurrentScreen := CurrentScreen p; bFoundStorySection := bFoundStorySection p;
     PendingLines := PendingLines p |}.

Definition set_CurrentScreen (v : option nat) (p : ParseLocals) : ParseLocals :=
  {| OutStory := OutStory p; OutErrors := OutErrors p; CurrentState := CurrentState p;
     StoryMetadata := StoryMetadata p; CurrentScreenMetadata := CurrentScreenMetadata p;
     CurrentScreen := v; bFoundStorySection := bFoundStorySection p;
     PendingLines := PendingLines p |}.

Definition set_bFoundStorySection (v : bool) (p : ParseLocals) : ParseLocals :=
  {| OutStory := OutStory p; OutErrors := OutErrors p; CurrentState := CurrentState p;
     StoryMetadata := StoryMetadata p; CurrentScreenMetadata := CurrentScreenMetadata p;
     CurrentScreen := CurrentScreen p; bFoundStorySection := v;
     PendingLines := PendingLines p |}.

Definition set_PendingLines (v : list FString) (p : ParseLocals) : ParseLocals :=
  {| OutStory := OutStory p; OutErrors := OutErrors p; CurrentState := CurrentState p;
     StoryMetadata := StoryMetadata p; CurrentScreenMetadata := CurrentScreenMetadata p;
     CurrentScreen := CurrentScreen p; bFoundStorySection := bFoundStorySection p;
     PendingLines := v |}.

(** [OutErrors.Add(...)]. *)
Definition add_error (msg : FString) (p : ParseLocals) : ParseLocals :=
  set_OutErrors (OutErrors p ++ [msg]) p.

(** [TEXT("Line %d: ")] with the line number filled in. *)
Definition line_prefix (LineNumber : Z) : FString :=
  TEXT "Line " ++ FStr.FromInt LineNumber ++ TEXT ": ".

Definition set_Screens (v : list FStoryScreen) (st : FShortStory) : FShortStory :=
  {| Title := Title st; OST := OST st; Screens := v; SourceFileName := SourceFileName st |}.

Definition set_Title (v : FString) (st : FShortStory) : FShortStory :=
  {| Title := v; OST := OST st; Screens := Screens st; SourceFileName := SourceFileName st |}.

Definition set_OST (v : FString) (st : FShortStory) : FShortStory :=
  {| Title := Title st; OST := v; Screens := Screens st; SourceFileName := SourceFileName st |}.

(** A write through [CurrentScreen]. *)
Definition update_screen (idx : nat) (f : FStoryScreen -> FStoryScreen) (p : ParseLocals)
  : ParseLocals :=
  set_OutStory (set_Screens (alter f idx (Screens (OutStory p))) (OutStory p)) p.

Definition set_Lines (v : list FStoryLine.t) (sc : FStoryScreen) : FStoryScreen :=
  {| Name := Name sc; Background := Background sc; BackgroundPath := BackgroundPath sc;
     TransitionType := TransitionType sc; Lines := v; TimedEvents := TimedEvents sc |}.

Definition set_TimedEvents (v : list FStoryTimedEvent) (sc : FStoryScreen) : FStoryScreen :=
  {| Name := Name sc; Background := Background sc; BackgroundPath := BackgroundPath sc;
     TransitionType := TransitionType sc; Lines := Lines sc; TimedEvents := v |}.

Definition set_BackgroundPath (v : FString) (sc : FStoryScreen) : FStoryScreen :=
  {| Name := Name sc; Background := Background sc; BackgroundPath := v;
     TransitionType := TransitionType sc; Lines := Lines sc; TimedEvents := TimedEvents sc |}.

Definition set_Background (v : option FString) (sc : FStoryScreen) : FStoryScreen :=
  {| Name := Name sc; Background := v; BackgroundPath := BackgroundPath sc;
     TransitionType := TransitionType sc; Lines := Lines sc; TimedEvents := TimedEvents sc |}.

Definition set_TransitionType (v : EStoryTransition.t) (sc : FStoryScreen) : FStoryScreen :=
  {| Name := Name sc; Background := Background sc; BackgroundPath := BackgroundPath sc;
     TransitionType := v; Lines := Lines sc; TimedEvents := TimedEvents sc |}.

(** The spacer line built in two places of the loop. *)
Definition SpacerLine : FStoryLine.t :=
  {| FStoryLine.Text := TEXT " ";
     FStoryLine.AnimationType := EStoryLineAnimation.Typewriter;
     FStoryLine.Speed := FStoryLine.Speed FStoryLine.default;
     FStoryLine.PauseDuration := EStoryPauseDuration.None;
     FStoryLine.Effect := EStoryEffect.None;
     FStoryLine.PositionOffset := FStoryLine.PositionOffset FStoryLine.default |}.

(** "Apply screen metadata": the writes to the current screen. *)
Definition apply_screen_metadata (M : gmap FString FString) (sc : FStoryScreen)
  : FStoryScreen :=
  let sc :=
    match M !! TEXT "background" with
    | Some BGPath =>
        let sc := set_BackgroundPath BGPath sc in
        if (FStr.StartsWith BGPath (TEXT "/Game") || FStr.StartsWith BGPath (TEXT "/Engine"))%bool
        then set_Background (Some BGPath) sc else sc
    | None => sc
    end in
  match M !! TEXT "transition" with
  | Some v =>
      match ParseTransitionType v with
      | Some Transition => set_TransitionType Transition sc
      | None => sc
      end
  | None => sc
  end.

(** The finisher branch: the pending lines, then the final line, then the
    paragraph spacer, all appended to the lines of the screen. *)
Definition finish_block (a : LineAttributes) (Pending : list FString)
  (MaxLineLength : Z) (OutLines : list FStoryLine.t) : list FStoryLine.t :=
  let OutLines :=
    fold_left
      (fun OutLines PendingText =>
         ProcessTextToLines PendingText (OutAnim a) (OutSpeed a)
           EStoryPauseDuration.None (OutEffect a) (OutOffset a) OutLines MaxLineLength)
      Pending OutLines in
  let OutLines :=
    ProcessTextToLines (OutText a) (OutAnim a) (OutSpeed a) (OutPause a)
      (OutEffect a) (OutOffset a) OutLines MaxLineLength in
  OutLines ++ [SpacerLine].

(** The [ScreenContent] case of the [switch], with [CurrentScreen] pointing at
    screen [idx]. *)
Definition parse_screen_content (MaxLineLength : Z) (LineNumber : Z) (Line : FString)
  (idx : nat) (p : ParseLocals) : ParseLocals :=
  let Screen := default FStoryScreen_default (Screens (OutStory p) !! idx) in
  let bHasContent :=
    ((0 <? Num (Lines Screen)) || (0 <? Num (TimedEvents Screen))
     || (0 <? Num (PendingLines p)))%bool in
  let metadata :=
    if bHasContent then (false, CurrentScreenMetadata p)
    else ParseMetadataLine Line (CurrentScreenMetadata p) in
  if metadata.1 then
    let p := set_CurrentScreenMetadata metadata.2 p in
    update_screen idx (apply_screen_metadata (CurrentScreenMetadata p)) p
  else if FStr.StartsWith Line (TEXT "@") then
    match ParseTimedEvent (FStr.Mid Line 1) LineNumber with
    | inl Event =>
        update_screen idx (fun sc => set_TimedEvents (TimedEvents sc ++ [Event]) sc) p
    | inr EventError => add_error (line_prefix LineNumber ++ EventError) p
    end
  else if FStr.EqualsIgnoreCase (FStr.TrimStartAndEnd Line) (TEXT "[SPACER]") then
    let p :=
      if 0 <? Num (PendingLines p) then
        let p :=
          add_error
            (line_prefix LineNumber
               ++ TEXT "[SPACER] found inside a pending text block (missing metadata line?)")
            p in
        set_PendingLines [] p
      else p in
    update_screen idx (fun sc => set_Lines (Lines sc ++ [SpacerLine]) sc) p
  else if FStr.Contains Line (TEXT "|") then
    match ParseLineAttributes Line declared_locals with
    | (true, a) =>
        let p :=
          update_screen idx
            (fun sc => set_Lines (finish_block a (PendingLines p) MaxLineLength (Lines sc)) sc)
            p in
        set_PendingLines [] p
    | (false, a) => add_error (line_prefix LineNumber ++ OutError a) p
    end
  else set_PendingLines (PendingLines p ++ [Line]) p.

(** One turn of the loop over the lines of the text; [i] is the loop index. *)
Definition parse_line (MaxLineLength : Z) (i : Z) (RawLine : FString) (p : ParseLocals)
  : ParseLocals :=
  let LineNumber := i + 1 in
  let Line := CleanLine RawLine in
  if FStr.IsEmpty Line then p
  else
    match IsSectionHeader Line with
    | Some SectionName =>
        let p :=
          if 0 <? Num (PendingLines p) then
            let p :=
              add_error
                (line_prefix LineNumber
                   ++ TEXT "Orphaned text lines found before section change (missing metadata line?)")
                p in
            set_PendingLines [] p
          else p in
        if FStr.EqualsIgnoreCase SectionName (TEXT "STORY") then
          let p := set_CurrentState EParseState.StoryMetadata p in
          set_bFoundStorySection true p
        else if FStr.StartsWith SectionName (TEXT "SCREEN") then
          let p := set_CurrentScreen None p in
          let p := set_CurrentState EParseState.ScreenContent p in
          let p := set_CurrentScreenMetadata ∅ p in
          let p :=
            set_OutStory
              (set_Screens (Screens (OutStory p) ++ [FStoryScreen_default]) (OutStory p)) p in
          set_CurrentScreen (Some (length (Screens (OutStory p)) - 1)%nat) p
        else
          add_error
            (line_prefix LineNumber ++ TEXT "Unknown section [" ++ SectionName ++ TEXT "]") p
    | None =>
        match CurrentState p with
        | EParseState.StoryMetadata =>
            match ParseMetadataLine Line (StoryMetadata p) with
            | (true, M) => set_StoryMetadata M p
            | (false, _) =>
                add_error
                  (line_prefix LineNumber ++ TEXT "Invalid metadata format: " ++ Line) p
            end
        | EParseState.ScreenContent =>
            match CurrentScreen p with
            | None => add_error (line_prefix LineNumber ++ TEXT "No active screen section") p
            | Some idx => parse_screen_content MaxLineLength LineNumber Line idx p
            end
        | EParseState.None =>
            add_error
              (line_prefix LineNumber
                 ++ TEXT "Content found before [STORY] or [SCREEN] section") p
        end
    end.

Fixpoint parse_loop (MaxLineLength : Z) (Lines : list FString) (i : Z) (p : ParseLocals)
  : ParseLocals :=
  match Lines with
  | [] => p
  | RawLine :: Lines' =>
      parse_loop MaxLineLength Lines' (i + 1) (parse_line MaxLineLength i RawLine p)
  end.

Definition initial_locals : ParseLocals :=
  {| OutStory := FShortStory_default; OutErrors := [];
     CurrentState := EParseState.None; StoryMetadata := ∅; CurrentScreenMetadata := ∅;
     CurrentScreen := None; bFoundStorySection := false; PendingLines := [] |}.

(** The statements of [ParseStoryFromString] after the loop: the return
    value, [OutStory] and [OutErrors]. *)
Definition finish_parse (p : ParseLocals) : bool * FShortStory * list FString :=
  if negb (bFoundStorySection p)
  then (false, OutStory p, OutErrors p ++ [TEXT "Missing [STORY] section"])
  else
    let p :=
      if 0 <? Num (PendingLines p)
      then add_error (TEXT "End of file: Orphaned text lines found (missing metadata line?)") p
      else p in
    let Story := OutStory p in
    let Story :=
      match StoryMetadata p !! TEXT "title" with
      | Some v => set_Title v Story
      | None => Story
      end in
    let Story :=
      match StoryMetadata p !! TEXT "ost" with
      | Some v => set_OST v Story
      | None => Story
      end in
    if negb (IsValid Story) then
      let Errors := OutErrors p in
      let Errors :=
        if FStr.IsEmpty (Title Story)
        then Errors ++ [TEXT "Missing 'title' in [STORY] section"] else Errors in
      let Errors :=
        if Num (Screens Story) =? 0
        then Errors ++ [TEXT "No screens defined (missing [SCREEN_XX] sections)"]
        else Errors in
      (false, Story, Errors)
    else (true, Story, OutErrors p).

(** [ParseStoryFromString]: the return value, [OutStory] and [OutErrors]. *)
Definition ParseStoryFromString (StoryText : FString) (MaxLineLength : Z)
  : bool * FShortStory * list FString :=
  let Lines := FStr.ParseIntoArrayLines StoryText in
  if Num Lines =? 0 then (false, FShortStory_default, [TEXT "Empty story file"])
  else finish_parse (parse_loop MaxLineLength Lines 0 initial_locals).

(** The deprecated shim [ParseStoryLine]: the return value, [OutLines] and
    [OutError]. *)
Definition ParseStoryLine (Line : FString) (LineNumber : Z) (OutLines : list FStoryLine.t)
  (Error : FString) : bool * list FStoryLine.t * FString :=
  let a := set_OutError Error declared_locals in
  match ParseLineAttributes Line a with
  | (true, a) =>
      (true,
       ProcessTextToLines (OutText a) (OutAnim a) (OutSpeed a) (OutPause a) (OutEffect a)
         (OutOffset a) OutLines 80,
       OutError a)
  | (false, a) => (false, OutLines, OutError a)
  end.

End WithAtof.

End UShortStoryParser.

(** ** Stories and runs used in the statements below *)

Definition story_line (text : string) (Anim : EStoryLineAnimation.t)
  (Pause : EStoryPauseDuration.t) : FStoryLine.t :=
  {| FStoryLine.Text := TEXT text; FStoryLine.AnimationType := Anim;
     FStoryLine.Speed := EStorySpeed.Standard; FStoryLine.PauseDuration := Pause;
     FStoryLine.Effect := EStoryEffect.None; FStoryLine.PositionOffset := ZeroVector |}.

Definition story_screen (ls : list FStoryLine.t) : FStoryScreen :=
  {| Name := []; Background := None; BackgroundPath := [];
     TransitionType := EStoryTransition.Fade; Lines := ls; TimedEvents := [] |}.

Definition story_of (scs : list FStoryScreen) : FShortStory :=
  {| Title := TEXT "T"; OST := []; Screens := scs; SourceFileName := [] |}.

(** One screen holding a TopDown block of three lines, as the parser lays out
    a wrapped line. *)
Definition topdown_story : FShortStory :=
  story_of
    [story_screen
       [story_line "one" EStoryLineAnimation.TopDown EStoryPauseDuration.LineBreak;
        story_line "two" EStoryLineAnimation.TopDown EStoryPauseDuration.LineBreak;
        story_line "three" EStoryLineAnimation.TopDown EStoryPauseDuration.Long]].

(** One screen holding one WordRain line. *)
Definition wordrain_story : FShortStory :=
  story_of
    [story_screen [story_line "Hello" EStoryLineAnimation.WordRain EStoryPauseDuration.None]].

(** Three screens of one Typewriter line each. *)
Definition three_screen_story : FShortStory :=
  story_of
    [story_screen [story_line "a" EStoryLineAnimation.Typewriter EStoryPauseDuration.None];
     story_screen [story_line "b" EStoryLineAnimation.Typewriter EStoryPauseDuration.None];
     story_screen [story_line "c" EStoryLineAnimation.Typewriter EStoryPauseDuration.None]].

(** The subsystem after [StartStory] has loaded [story]. *)
Definition started (story : FShortStory) : UShortStorySubsystem.t :=
  (UShortStorySubsystem.StartStory (Some story) UShortStorySubsystem.initial).2.

(** [n] calls of [Tick] with the same [DeltaTime]. *)
Fixpoint run_ticks (n : nat) (DeltaTime : Q) (s : UShortStorySubsystem.t)
  : UShortStorySubsystem.t :=
  match n with
  | O => s
  | S k => run_ticks k DeltaTime (UShortStorySubsystem.Tick DeltaTime s)
  end.

(** A timing table whose three speeds share one profile. *)
Definition with_profile (T : FStoryAnimationTiming) (s : UShortStorySubsystem.t)
  : UShortStorySubsystem.t :=
  {| UShortStorySubsystem.SpeedTimings :=
       <[EStorySpeed.Standard := T]> (<[EStorySpeed.Fast := T]> (<[EStorySpeed.Slow := T]> ∅));
     UShortStorySubsystem.PauseDurations := UShortStorySubsystem.PauseDurations s;
     UShortStorySubsystem.ScreenTransitionPauseSeconds :=
       UShortStorySubsystem.ScreenTransitionPauseSeconds s;
     UShortStorySubsystem.FadeWindowSeconds := UShortStorySubsystem.FadeWindowSeconds s;
     UShortStorySubsystem.LineBreakPercent := UShortStorySubsystem.LineBreakPercent s;
     UShortStorySubsystem.TransitionElapsedTime :=
       UShortStorySubsystem.TransitionElapsedTime s;
     UShortStorySubsystem.CurrentStory := UShortStorySubsystem.CurrentStory s;
     UShortStorySubsystem.CurrentScreenIndex := UShortStorySubsystem.CurrentScreenIndex s;
     UShortStorySubsystem.CurrentLineIndex := UShortStorySubsystem.CurrentLineIndex s;
     UShortStorySubsystem.LineElapsedTime := UShortStorySubsystem.LineElapsedTime s;
     UShortStorySubsystem.LineDuration := UShortStorySubsystem.LineDuration s;
     UShortStorySubsystem.PauseElapsedTime := UShortStorySubsystem.PauseElapsedTime s;
     UShortStorySubsystem.PauseDuration := UShortStorySubsystem.PauseDuration s;
     UShortStorySubsystem.ScreenElapsedTime := UShortStorySubsystem.ScreenElapsedTime s;
     UShortStorySubsystem.LineStartTimes := UShortStorySubsystem.LineStartTimes s;
     UShortStorySubsystem.bIsPlaying := UShortStorySubsystem.bIsPlaying s;
     UShortStorySubsystem.bIsPaused := UShortStorySubsystem.bIsPaused s;
     UShortStorySubsystem.CurrentState := UShortStorySubsystem.CurrentState s;
     UShortStorySubsystem.ProcessedTimedEventIndices :=
       UShortStorySubsystem.ProcessedTimedEventIndices s;
     UShortStorySubsystem.TickerHandle := UShortStorySubsystem.TickerHandle s |}.

(** A profile that reveals text at once: every delay is zero. *)
Definition instant_profile : FStoryAnimationTiming :=
  {| PerLetter := 0; ExtraAtSpace := 0; ExtraAtPeriod := 0; ExtraAtComma := 0;
     BlockDuration := 0; ExtraAtColon := 0 |}.

(** A profile that shortens the step at a blank. *)
Definition hasty_profile : FStoryAnimationTiming :=
  {| PerLetter := 1; ExtraAtSpace := -0.5; ExtraAtPeriod := 0; ExtraAtComma := 0;
     BlockDuration := 2; ExtraAtColon := 0 |}.

(** Story text: the lines of a file joined by line feeds. *)
Definition story_text (lines : list string) : FString :=
  concat (map (fun l => (TEXT l ++ [FStr.LF])%list) lines).

(** The pause kinds of the lines of every screen, in order. *)
Definition pauses_of (st : FShortStory) : list (list EStoryPauseDuration.t) :=
  map (fun sc => map FStoryLine.PauseDuration (Lines sc)) (Screens st).

(** The pause kinds the parser hands out. *)
Definition parsed_pause (p : EStoryPauseDuration.t) : Prop :=
  p = EStoryPauseDuration.None \/ p = EStoryPauseDuration.Short
  \/ p = EStoryPauseDuration.Standard \/ p = EStoryPauseDuration.Long
  \/ p = EStoryPauseDuration.LineBreak.

(** The test of [StartLine] for a block animation. *)
Definition is_block_animation (a : EStoryLineAnimation.t) : bool :=
  match a with
  | EStoryLineAnimation.Paragraph | EStoryLineAnimation.TopDown => true
  | _ => false
  end.

(** The per-character bonus, as both walks select it. *)
Definition extra_time (Timing : FStoryAnimationTiming) (Char : ascii) : Q :=
  if FStr.IsWhitespace Char then ExtraAtSpace Timing
  else if (UShortStorySubsystem.is_char Char "." || UShortStorySubsystem.is_char Char "!" || UShortStorySubsystem.is_char Char "?")%bool
  then ExtraAtPeriod Timing
  else if UShortStorySubsystem.is_char Char "," then ExtraAtComma Timing
  else if (UShortStorySubsystem.is_char Char ";" || UShortStorySubsystem.is_char Char ":")%bool
  then (if UShortStorySubsystem.is_char Char ":" then ExtraAtColon Timing else ExtraAtComma Timing)
  else 0%Q.

(** A timing profile none of whose delays is negative. *)
Definition nonnegative_profile (Timing : FStoryAnimationTiming) : Prop :=
  (0 <= PerLetter Timing)%Q /\ (0 <= ExtraAtSpace Timing)%Q /\ (0 <= ExtraAtPeriod Timing)%Q
  /\ (0 <= ExtraAtComma Timing)%Q /\ (0 <= ExtraAtColon Timing)%Q.

(** [Text[j] == ' '] for an index inside the text. *)
Definition space_at (Text : FString) (j : Z) : Prop :=
  at_index Text j = Some UShortStoryParser.Space.

(** Every line carries a pause kind the parser hands out. *)
Definition lines_parsed (ls : list FStoryLine.t) : Prop :=
  Forall (fun l => parsed_pause (FStoryLine.PauseDuration l)) ls.

Definition screens_parsed (scs : list FStoryScreen) : Prop :=
  Forall (fun sc => lines_parsed (Lines sc)) scs.

(** A story whose only screen holds two continuation lines and their
    terminator. *)
Definition continuation_text : FString :=
  story_text ["[STORY]"; "title = T"; "[SCREEN_01]"; "A"; "B";
              "Final | typewriter | pause=long"]%string.

(** Stories whose only content line carries a field the attribute parser
    cannot use: an unknown key, an offset without a comma, no key at all. *)
Definition unknown_key_text : FString :=
  story_text ["[STORY]"; "title = T"; "[SCREEN_01]";
              "Hello | typewriter | bogus=1"]%string.

Definition bad_offset_text : FString :=
  story_text ["[STORY]"; "title = T"; "[SCREEN_01]";
              "Hello | typewriter | offset=12"]%string.

Definition no_key_text : FString :=
  story_text ["[STORY]"; "title = T"; "[SCREEN_01]";
              "Hello | typewriter | oops"]%string.

(** A numeric conversion that reads every text as zero. *)
Definition atof_zero : FString -> Q := fun _ => 0%Q.

(** The text and pause kind of the lines of every screen, in order. *)
Definition lines_of (st : FShortStory) : list (list (FString * EStoryPauseDuration.t)) :=
  map (fun sc => map (fun l => (FStoryLine.Text l, FStoryLine.PauseDuration l)) (Lines sc))
    (Screens st).

(** A line as [ProcessTextToLines] builds it. *)
Definition made_line (Text : FString) (Anim : EStoryLineAnimation.t) (Speed : EStorySpeed.t)
  (Pause : EStoryPauseDuration.t) (Effect : EStoryEffect.t) (Offset : FVector2D)
  : FStoryLine.t :=
  {| FStoryLine.Text := Text; FStoryLine.AnimationType := Anim; FStoryLine.Speed := Speed;
     FStoryLine.PauseDuration := Pause; FStoryLine.Effect := Effect;
     FStoryLine.PositionOffset := Offset |}.

(** The locals of the loop once it has read the two continuation lines of
    [continuation_text], and the attributes of its terminator. *)
Definition continuation_pending : UShortStoryParser.ParseLocals :=
  {| UShortStoryParser.OutStory :=
       {| Title := []; OST := []; Screens := [FStoryScreen_default];
          SourceFileName := [] |};
     UShortStoryParser.OutErrors := [];
     UShortStoryParser.CurrentState := EParseState.ScreenContent;
     UShortStoryParser.StoryMetadata := <[TEXT "title" := TEXT "T"]> ∅;
     UShortStoryParser.CurrentScreenMetadata := ∅;
     UShortStoryParser.CurrentScreen := Some 0%nat;
     UShortStoryParser.bFoundStorySection := true;
     UShortStoryParser.PendingLines := [TEXT "A"; TEXT "B"] |}.

Definition final_attributes : UShortStoryParser.LineAttributes :=
  {| UShortStoryParser.OutText := TEXT "Final";
     UShortStoryParser.OutAnim := EStoryLineAnimation.Typewriter;
     UShortStoryParser.OutSpeed := EStorySpeed.Standard;
     UShortStoryParser.OutPause := EStoryPauseDuration.Long;
     UShortStoryParser.OutEffect := EStoryEffect.None;
     UShortStoryParser.OutOffset := ZeroVector;
     UShortStoryParser.OutError := [] |}.

(** The characters of a text that are not whitespace, in order. *)
Definition solid (s : list ascii) : list ascii :=
  filter (fun c => FStr.IsWhitespace c = false) s.

(** The pause kinds of a group of lines made from one text: LineBreak on
    every line but the last, the requested pause on the last. *)
Definition wrapped_pauses (n : nat) (Pause : EStoryPauseDuration.t)
  : list EStoryPauseDuration.t :=
  match n with
  | O => []
  | S k => replicate k EStoryPauseDuration.LineBreak ++ [Pause]
  end.

(** The attributes every line of such a group shares. *)
Definition shares_attributes (Anim : EStoryLineAnimation.t) (Speed : EStorySpeed.t)
  (Effect : EStoryEffect.t) (Offset : FVector2D) (l : FStoryLine.t) : Prop :=
  FStoryLine.AnimationType l = Anim /\ FStoryLine.Speed l = Speed
  /\ FStoryLine.Effect l = Effect /\ FStoryLine.PositionOffset l = Offset.

(** A text that is empty or begins with a visible character. *)
Definition starts_solid (s : FString) : Prop :=
  match s with
  | [] => True
  | c :: _ => FStr.IsWhitespace c = false
  end.

(** The test of the line loop for a [[STORY]] header, on a raw line. *)
Definition declares_story (RawLine : FString) : bool :=
  match UShortStoryParser.IsSectionHeader (UShortStoryParser.CleanLine RawLine) with
  | Some SectionName => FStr.EqualsIgnoreCase SectionName (TEXT "STORY")
  | None => false
  end.

(** A story text with a screen but no [[STORY]] section. *)
Definition headless_text : FString :=
  story_text ["[SCREEN_01]"; "Hi there | typewriter"]%string.

(** The calls a user of the subsystem can make during playback.  The story
    [StartStory] gets from [LoadStory] stands for its file name. *)
Inductive PlayerCall :=
| CallStartStory (Loaded : option FShortStory)
| CallStopStory
| CallSetPaused (bPause : bool)
| CallTick (DeltaTime : Q)
| CallDebugSkipToNextScreen
| CallDebugSkipToPreviousScreen
| CallDebugJumpToScreen (ScreenIndex : Z)
| CallDebugSkipCurrentLine.

Definition call (c : PlayerCall) (s : UShortStorySubsystem.t) : UShortStorySubsystem.t :=
  match c with
  | CallStartStory Loaded => (UShortStorySubsystem.StartStory Loaded s).2
  | CallStopStory => UShortStorySubsystem.StopStory s
  | CallSetPaused bPause => UShortStorySubsystem.SetPaused bPause s
  | CallTick DeltaTime => UShortStorySubsystem.Tick DeltaTime s
  | CallDebugSkipToNextScreen => UShortStorySubsystem.DebugSkipToNextScreen s
  | CallDebugSkipToPreviousScreen => UShortStorySubsystem.DebugSkipToPreviousScreen s
  | CallDebugJumpToScreen ScreenIndex => UShortStorySubsystem.DebugJumpToScreen ScreenIndex s
  | CallDebugSkipCurrentLine => UShortStorySubsystem.DebugSkipCurrentLine s
  end.

Definition calls (cs : list PlayerCall) (s : UShortStorySubsystem.t)
  : UShortStorySubsystem.t :=
  fold_left (fun s c => call c s) cs s.

(** While a story plays, the screen cursor points at a screen of the story,
    the start-time array has one entry per line of that screen, and the line
    cursor points at a line of it, or is 0 while the screen is coming in. *)
Definition cursor_in_story (s : UShortStorySubsystem.t) : Prop :=
  UShortStorySubsystem.bIsPlaying s = true ->
  exists sc : FStoryScreen,
    at_index (Screens (UShortStorySubsystem.CurrentStory s))
      (UShortStorySubsystem.CurrentScreenIndex s) = Some sc
    /\ length (UShortStorySubsystem.LineStartTimes s) = length (Lines sc)
    /\ ((UShortStorySubsystem.CurrentState s = EStoryPlaybackState.TransitioningScreen
         /\ UShortStorySubsystem.CurrentLineIndex s = 0)
        \/ 0 <= UShortStorySubsystem.CurrentLineIndex s < Num (Lines sc)).


(** One screen holding a Paragraph block of two lines, a Typewriter line
    after it. *)
Definition paragraph_story : FShortStory :=
  story_of
    [story_screen
       [story_line "one" EStoryLineAnimation.Paragraph EStoryPauseDuration.LineBreak;
        story_line "two" EStoryLineAnimation.Paragraph EStoryPauseDuration.Long;
        story_line "end" EStoryLineAnimation.Typewriter EStoryPauseDuration.None]].

(** The test of the line loop for a screen header, on a raw line: a header
    that is not [[STORY]] and whose name begins with SCREEN. *)
Definition declares_screen (RawLine : FString) : bool :=
  match UShortStoryParser.IsSectionHeader (UShortStoryParser.CleanLine RawLine) with
  | Some SectionName =>
      (negb (FStr.EqualsIgnoreCase SectionName (TEXT "STORY"))
       && FStr.StartsWith SectionName (TEXT "SCREEN"))%bool
  | None => false
  end.

(** Two states of the line loop that differ in the error list at most. *)
Definition same_but_errors (p q : UShortStoryParser.ParseLocals) : Prop :=
  UShortStoryParser.OutStory p = UShortStoryParser.OutStory q
  /\ UShortStoryParser.CurrentState p = UShortStoryParser.CurrentState q
  /\ UShortStoryParser.StoryMetadata p = UShortStoryParser.StoryMetadata q
  /\ UShortStoryParser.CurrentScreenMetadata p = UShortStoryParser.CurrentScreenMetadata q
  /\ UShortStoryParser.CurrentScreen p = UShortStoryParser.CurrentScreen q
  /\ UShortStoryParser.bFoundStorySection p = UShortStoryParser.bFoundStorySection q
  /\ UShortStoryParser.PendingLines p = UShortStoryParser.PendingLines q.

(** A story with a comment line, and the same story without it. *)
Definition commented_text : FString :=
  story_text ["[STORY]"; "# the title"; "title = T"; "[SCREEN_01]";
              "Hi there | typewriter"]%string.

Definition uncommented_text : FString :=
  story_text ["[STORY]"; "title = T"; "[SCREEN_01]"; "Hi there | typewriter"]%string.

(** * Properties of the playback subsystem *)

Section Playback.

Import UShortStorySubsystem.
Local Open Scope Q_scope.

Lemma Qlt_bool_iff (a b : Q) : Qlt_bool a b = true <-> a < b.
Proof.
  unfold Qlt_bool. rewrite negb_true_iff.
  destruct (Qle_bool b a) eqn:E.
  - apply Qle_bool_iff in E. split; [discriminate | intros H; lra].
  - split; [intros _ | reflexivity].
    destruct (Qlt_le_dec a b) as [H | H]; [exact H |].
    apply Qle_bool_iff in H. congruence.
Qed.

Lemma Qlt_bool_false_iff (a b : Q) : Qlt_bool a b = false <-> b <= a.
Proof.
  unfold Qlt_bool. rewrite negb_false_iff. apply Qle_bool_iff.
Qed.

(** C8. A call of Tick while no story is playing, or while playback is
    paused, returns the state it was given: every counter, both cursors, the
    fired-event set and the playback state are unchanged, whatever
    DeltaTime is. *)
Theorem Tick_frozen_when_paused_or_stopped (DeltaTime : Q) (s : t) :
  bIsPlaying s = false \/ bIsPaused s = true -> Tick DeltaTime s = s.
Proof.
  intros H. unfold Tick.
  destruct H as [H | H]; rewrite H; [reflexivity |].
  rewrite orb_true_r. reflexivity.
Qed.

Lemma Tick_frozen_when_paused_or_stopped_witness :
  (bIsPlaying (SetPaused true (started three_screen_story)) = false
   \/ bIsPaused (SetPaused true (started three_screen_story)) = true)
  /\ Tick 1 (SetPaused true (started three_screen_story))
     = SetPaused true (started three_screen_story).
Proof.
  split.
  - right. reflexivity.
  - apply (Tick_frozen_when_paused_or_stopped 1
             (SetPaused true (started three_screen_story))).
    right. reflexivity.
Defined.

(** *** Stop *)

Lemma StopStory_not_playing (s : t) : bIsPlaying s = false -> StopStory s = s.
Proof. intros H. unfold StopStory. rewrite H. reflexivity. Qed.

(** C5, as amended. When a story is playing, whatever the playback state
    and whether paused or not, StopStory leaves the state Idle, the
    screen, line and pause counters at zero, the fired-event set and the
    line-start-time array empty, and the ticker handle released. *)
Theorem StopStory_while_playing (s : t) :
  bIsPlaying s = true ->
  CurrentState (StopStory s) = EStoryPlaybackState.Idle
  /\ bIsPlaying (StopStory s) = false
  /\ bIsPaused (StopStory s) = false
  /\ CurrentScreenIndex (StopStory s) = 0%Z
  /\ CurrentLineIndex (StopStory s) = 0%Z
  /\ ScreenElapsedTime (StopStory s) = 0
  /\ LineElapsedTime (StopStory s) = 0
  /\ PauseElapsedTime (StopStory s) = 0
  /\ ProcessedTimedEventIndices (StopStory s) = ∅
  /\ LineStartTimes (StopStory s) = []
  /\ TickerHandle (StopStory s) = false.
Proof.
  intros H. unfold StopStory. rewrite H. simpl.
  destruct (TickerHandle s) eqn:E; simpl; rewrite ?E; repeat split; reflexivity.
Qed.

Lemma StopStory_while_playing_witness :
  bIsPlaying (run_ticks 3 1 (started three_screen_story)) = true
  /\ CurrentState (StopStory (run_ticks 3 1 (started three_screen_story)))
     = EStoryPlaybackState.Idle
  /\ ScreenElapsedTime (StopStory (run_ticks 3 1 (started three_screen_story))) = 0.
Proof.
  assert (Hp : bIsPlaying (run_ticks 3 1 (started three_screen_story)) = true)
    by reflexivity.
  split; [exact Hp |].
  pose proof (StopStory_while_playing _ Hp) as H.
  split; [apply H | apply H].
Defined.

(** C5 as stated fails: the story of three screens, ticked once a second,
    completes at the ninth tick; StopStory then returns at its first test,
    so the state stays Completed and the screen clock keeps its value. *)
Lemma StopStory_after_completion_counterexample :
  CurrentState (run_ticks 9 1 (started three_screen_story))
    = EStoryPlaybackState.Completed
  /\ CurrentState (StopStory (run_ticks 9 1 (started three_screen_story)))
     = EStoryPlaybackState.Completed
  /\ CurrentState (StopStory (run_ticks 9 1 (started three_screen_story)))
     <> EStoryPlaybackState.Idle
  /\ ScreenElapsedTime (StopStory (run_ticks 9 1 (started three_screen_story))) == 3
  /\ CurrentScreenIndex (StopStory (run_ticks 9 1 (started three_screen_story))) = 3%Z.
Proof.
  repeat (match goal with |- _ /\ _ => split end);
    try (vm_compute; reflexivity); vm_compute; discriminate.
Qed.

(** *** Screen change *)

Lemma AdvanceToNextScreen_TransitionElapsedTime (s : t) :
  TransitionElapsedTime (AdvanceToNextScreen s) = TransitionElapsedTime s.
Proof.
  unfold AdvanceToNextScreen. simpl.
  destruct (_ <? _)%Z; simpl.
  - destruct (at_index _ _); reflexivity.
  - destruct (TickerHandle s); reflexivity.
Qed.

(** What AdvanceToNextScreen does establish when a screen remains. *)
Lemma AdvanceToNextScreen_more_screens (s : t) (NextScreen : FStoryScreen) :
  at_index (Screens (CurrentStory s)) (CurrentScreenIndex s + 1)%Z = Some NextScreen ->
  CurrentScreenIndex (AdvanceToNextScreen s) = (CurrentScreenIndex s + 1)%Z
  /\ CurrentLineIndex (AdvanceToNextScreen s) = 0%Z
  /\ ScreenElapsedTime (AdvanceToNextScreen s) = 0
  /\ ProcessedTimedEventIndices (AdvanceToNextScreen s) = ∅
  /\ LineStartTimes (AdvanceToNextScreen s) = replicate (length (Lines NextScreen)) (-1)
  /\ CurrentState (AdvanceToNextScreen s) = EStoryPlaybackState.TransitioningScreen.
Proof.
  intros H. unfold AdvanceToNextScreen. simpl.
  assert (Hlt : (CurrentScreenIndex s + 1 <? Num (Screens (CurrentStory s)))%Z = true).
  { unfold at_index in H. destruct (0 <=? _)%Z eqn:E; [| discriminate].
    apply lookup_lt_Some in H. apply Z.ltb_lt. unfold Num. lia. }
  rewrite Hlt, H. simpl. repeat split; reflexivity.
Qed.

(** C4 at a state playback reaches. The story of three screens, ticked
    once a second, waits after the line of the second screen at the fifth
    tick. AdvanceToNextScreen then moves to the third screen and resets the
    line cursor, the screen clock, the fired-event set and the line start
    times, and enters TransitioningScreen; but TransitionElapsedTime keeps
    the 2 seconds of the first transition, and the next tick already ends
    the transition that should last 1.5 seconds. *)
Theorem AdvanceToNextScreen_keeps_transition_clock :
  CurrentState (run_ticks 5 1 (started three_screen_story))
    = EStoryPlaybackState.PausingAfterLine
  /\ CurrentScreenIndex (AdvanceToNextScreen (run_ticks 5 1 (started three_screen_story)))
     = 2%Z
  /\ CurrentLineIndex (AdvanceToNextScreen (run_ticks 5 1 (started three_screen_story)))
     = 0%Z
  /\ ScreenElapsedTime (AdvanceToNextScreen (run_ticks 5 1 (started three_screen_story)))
     = 0
  /\ ProcessedTimedEventIndices
       (AdvanceToNextScreen (run_ticks 5 1 (started three_screen_story))) = ∅
  /\ LineStartTimes (AdvanceToNextScreen (run_ticks 5 1 (started three_screen_story)))
     = [-1]
  /\ CurrentState (AdvanceToNextScreen (run_ticks 5 1 (started three_screen_story)))
     = EStoryPlaybackState.TransitioningScreen
  /\ TransitionElapsedTime
       (AdvanceToNextScreen (run_ticks 5 1 (started three_screen_story))) == 2
  /\ ~ TransitionElapsedTime
         (AdvanceToNextScreen (run_ticks 5 1 (started three_screen_story))) == 0
  /\ CurrentState (run_ticks 7 1 (started three_screen_story))
     = EStoryPlaybackState.PlayingLine.
Proof.
  repeat (match goal with |- _ /\ _ => split end);
    try (vm_compute; reflexivity); vm_compute; discriminate.
Qed.

(** The sibling paths do reset the transition clock. *)
Lemma DebugJumpToScreen_resets_transition_clock (ScreenIndex : Z) (s : t)
  (TargetScreen : FStoryScreen) :
  bIsPlaying s = true ->
  at_index (Screens (CurrentStory s)) ScreenIndex = Some TargetScreen ->
  TransitionElapsedTime (DebugJumpToScreen ScreenIndex s) = 0
  /\ CurrentState (DebugJumpToScreen ScreenIndex s) = EStoryPlaybackState.TransitioningScreen.
Proof.
  intros Hp H. unfold DebugJumpToScreen. rewrite Hp. simpl.
  assert (Hr : ((ScreenIndex <? 0)%Z || (Num (Screens (CurrentStory s)) <=? ScreenIndex)%Z)%bool
               = false).
  { unfold at_index in H. destruct (0 <=? ScreenIndex)%Z eqn:E; [| discriminate].
    apply lookup_lt_Some in H. apply Z.leb_le in E.
    apply orb_false_iff. split; [apply Z.ltb_ge; lia | apply Z.leb_gt; unfold Num; lia]. }
  rewrite Hr, H. simpl. split; reflexivity.
Qed.

(** *** Line start *)

Lemma at_index_Some_bounds {A : Type} (l : list A) (i : Z) (x : A) :
  at_index l i = Some x -> (0 <= i < Num l)%Z.
Proof.
  unfold at_index, Num. destruct (0 <=? i)%Z eqn:E; [| discriminate].
  intros H. apply lookup_lt_Some in H. apply Z.leb_le in E. lia.
Qed.

(** The single-line branch of StartLine takes the character-weighted sum
    for every animation that is not a block animation. *)
Lemma StartLine_single_line (LineIndex : Z) (s : t) (CurrentScreen : FStoryScreen)
  (Line : FStoryLine.t) :
  at_index (Screens (CurrentStory s)) (CurrentScreenIndex s) = Some CurrentScreen ->
  at_index (Lines CurrentScreen) LineIndex = Some Line ->
  is_block_animation (FStoryLine.AnimationType Line) = false ->
  LineDuration (StartLine LineIndex s)
    = CalculateTypewriterDuration s (FStoryLine.Text Line) (FStoryLine.Speed Line)
  /\ CurrentLineIndex (StartLine LineIndex s) = CurrentLineIndex s
  /\ LineElapsedTime (StartLine LineIndex s) = 0
  /\ CurrentState (StartLine LineIndex s) = EStoryPlaybackState.PlayingLine.
Proof.
  intros Hs Hl Hb. unfold StartLine.
  pose proof (at_index_Some_bounds _ _ _ Hs) as Bs.
  pose proof (at_index_Some_bounds _ _ _ Hl) as Bl.
  destruct (Z.leb_spec (Num (Screens (CurrentStory s))) (CurrentScreenIndex s)); [lia |].
  rewrite Hs.
  destruct (Z.leb_spec (Num (Lines CurrentScreen)) LineIndex); [lia |].
  rewrite Hl. unfold is_block_animation in Hb.
  destruct (FStoryLine.AnimationType Line); try discriminate; simpl; repeat split.
Qed.

(** C3 at a line playback starts with. The story holds one WordRain line
    "Hello" at Standard speed, with the profile of the struct (0.04 s per
    letter, block duration 2 s). The Duration Calculator gives the line the
    block duration, 2 s; StartLine gives the state machine the
    character-weighted sum, 5 x 0.04 = 0.2 s. *)
Theorem StartLine_block_duration_ignored :
  CurrentState (started wordrain_story) = EStoryPlaybackState.PlayingLine
  /\ GetCurrentLine (started wordrain_story)
     = story_line "Hello" EStoryLineAnimation.WordRain EStoryPauseDuration.None
  /\ CalculateLineDuration (started wordrain_story)
       (story_line "Hello" EStoryLineAnimation.WordRain EStoryPauseDuration.None)
     == BlockDuration (GetSpeedTiming (started wordrain_story) EStorySpeed.Standard)
  /\ BlockDuration (GetSpeedTiming (started wordrain_story) EStorySpeed.Standard) == 2
  /\ LineDuration (started wordrain_story) == 0.2
  /\ ~ LineDuration (started wordrain_story)
       == CalculateLineDuration (started wordrain_story)
            (story_line "Hello" EStoryLineAnimation.WordRain EStoryPauseDuration.None).
Proof.
  repeat (match goal with |- _ /\ _ => split end);
    try (vm_compute; reflexivity); vm_compute; discriminate.
Qed.

Lemma inject_Z_of_nat_S (n : nat) :
  inject_Z (Z.of_nat (S n)) == inject_Z (Z.of_nat n) + 1.
Proof.
  rewrite Nat2Z.inj_succ. unfold Z.succ. rewrite inject_Z_plus. reflexivity.
Qed.

(** The timing loop on a TopDown run whose lines all last [d]: the delay is
    raised before the finish time is taken, so a run of [n] lines yields
    [n] staggers, not [n - 1]. *)
Lemma block_timing_TopDown_uniform (s : t) (d : Q) (run : list FStoryLine.t) :
  forall (i : Z) (Starts : list Q) (CurrentDelay MaxFinishTime : Q),
    Forall (fun L => CalculateLineDuration s L == d) run ->
    run <> [] ->
    MaxFinishTime <= CurrentDelay + d ->
    (block_timing s EStoryLineAnimation.TopDown run i Starts CurrentDelay MaxFinishTime).2
      == CurrentDelay + inject_Z (Z.of_nat (length run)) * CascadeDelay + d.
Proof.
  induction run as [| L run IH]; intros i Starts delay mx Hall Hne Hmx; [congruence |].
  apply Forall_cons in Hall as [HL Hall].
  cbn [block_timing].
  assert (Hlt : Qlt_bool mx (delay + CascadeDelay + CalculateLineDuration s L) = true).
  { apply Qlt_bool_iff. rewrite HL. unfold CascadeDelay. lra. }
  rewrite Hlt.
  destruct run as [| L' run'].
  - cbn [block_timing snd length]. rewrite HL. unfold CascadeDelay.
    change (inject_Z (Z.of_nat 1)) with 1. lra.
  - rewrite IH; [| exact Hall | discriminate | rewrite HL; lra].
    rewrite (inject_Z_of_nat_S (length (L' :: run'))). lra.
Qed.

(** C1 at a block playback starts with. The story holds one TopDown block
    of three lines; with the profile of the struct each line lasts d = 2 s.
    StartLine moves the cursor to the last line of the block and starts the
    lines 0.2 s apart, but sets the block duration to 3 x 0.2 + d = 2.6 s;
    the greatest of (0.2 s per preceding line + d) is 2 x 0.2 + d = 2.4 s. *)
Theorem StartLine_TopDown_block_duration :
  CurrentLineIndex (started topdown_story) = 2%Z
  /\ Forall (fun L => CalculateLineDuration (started topdown_story) L == 2)
       [story_line "one" EStoryLineAnimation.TopDown EStoryPauseDuration.LineBreak;
        story_line "two" EStoryLineAnimation.TopDown EStoryPauseDuration.LineBreak;
        story_line "three" EStoryLineAnimation.TopDown EStoryPauseDuration.Long]
  /\ Forall2 Qeq (LineStartTimes (started topdown_story)) [0; 0.2; 0.4]
  /\ LineDuration (started topdown_story) == 3 * 0.2 + 2
  /\ ~ LineDuration (started topdown_story) == 2 * 0.2 + 2.
Proof.
  split; [vm_compute; reflexivity |].
  split.
  { repeat (constructor; [vm_compute; reflexivity |]). constructor. }
  split.
  { vm_compute. repeat (constructor; [reflexivity |]). constructor. }
  split; [vm_compute; reflexivity |].
  vm_compute. discriminate.
Qed.

(** *** Duration and character index *)

Lemma extra_time_nonneg (Timing : FStoryAnimationTiming) (Char : ascii) :
  nonnegative_profile Timing -> 0 <= extra_time Timing Char.
Proof.
  intros (H1 & H2 & H3 & H4 & H5). unfold extra_time.
  repeat (match goal with |- context [if ?b then _ else _] => destruct b end);
    first [assumption | lra].
Qed.

(** The duration sum adds, for each character, the cost terms the index walk
    uses: the per-letter time and the bonus of the character. *)
Lemma typewriter_step_cost (Timing : FStoryAnimationTiming) (Total : Q) (Char : ascii) :
  typewriter_step Timing Total Char == Total + PerLetter Timing + extra_time Timing Char.
Proof.
  unfold typewriter_step, extra_time.
  repeat (match goal with |- context [if ?b then _ else _] => destruct b end); lra.
Qed.

Lemma typewriter_fold_proper (Timing : FStoryAnimationTiming) (Text : FString) :
  forall x y : Q, x == y ->
    fold_left (typewriter_step Timing) Text x == fold_left (typewriter_step Timing) Text y.
Proof.
  induction Text as [| c Text IH]; intros x y H; [exact H |].
  cbn [fold_left]. apply IH. rewrite !typewriter_step_cost. rewrite H. reflexivity.
Qed.

Lemma typewriter_fold_ge (Timing : FStoryAnimationTiming) (Text : FString) :
  nonnegative_profile Timing ->
  forall x : Q, x <= fold_left (typewriter_step Timing) Text x.
Proof.
  intros Hn. induction Text as [| c Text IH]; intros x; [cbn; lra |].
  cbn [fold_left]. specialize (IH (typewriter_step Timing x c)).
  pose proof (typewriter_step_cost Timing x c) as Hc.
  pose proof (extra_time_nonneg Timing c Hn) as He.
  destruct Hn as (Hp & _). lra.
Qed.

(** Once the elapsed time has reached the running sum of every remaining
    character, the walk runs to its end. *)
Lemma char_index_loop_full (Timing : FStoryAnimationTiming) (Time : Q) (TotalChars : Z)
  (rest : FString) :
  nonnegative_profile Timing ->
  forall (i : Z) (CurrentTime x : Q),
    x == CurrentTime ->
    fold_left (typewriter_step Timing) rest x <= Time ->
    char_index_loop Timing Time rest i CurrentTime TotalChars = TotalChars.
Proof.
  intros Hn. induction rest as [| c rest IH]; intros i cur x Hx Hle; [reflexivity |].
  cbn [fold_left] in Hle. cbn [char_index_loop].
  fold (extra_time Timing c).
  pose proof (typewriter_step_cost Timing x c) as Hc.
  pose proof (extra_time_nonneg Timing c Hn) as He.
  pose proof (typewriter_fold_ge Timing rest Hn (typewriter_step Timing x c)) as Hge.
  assert (Hp : 0 <= PerLetter Timing) by apply Hn.
  assert (H1 : Qlt_bool Time (cur + PerLetter Timing) = false).
  { apply Qlt_bool_false_iff. lra. }
  assert (H2 : Qlt_bool Time (cur + PerLetter Timing + extra_time Timing c) = false).
  { apply Qlt_bool_false_iff. lra. }
  rewrite H1, H2.
  apply (IH _ _ (typewriter_step Timing x c)); [| exact Hle].
  rewrite Hc, Hx. reflexivity.
Qed.

(** C7, as amended. For every text and every timing profile whose delays
    are not negative, when the total typewriter duration d is positive (or
    the text is empty) GetCharacterIndexAtTime(Text, Speed, d) is the length
    of Text. *)
Theorem GetCharacterIndexAtTime_at_duration (s : t) (Text : FString)
  (Speed : EStorySpeed.t) :
  nonnegative_profile (GetSpeedTiming s Speed) ->
  0 < CalculateTypewriterDuration s Text Speed \/ Text = [] ->
  GetCharacterIndexAtTime s Text Speed (CalculateTypewriterDuration s Text Speed)
    = FStr.Len Text.
Proof.
  intros Hn Hpos. unfold GetCharacterIndexAtTime.
  destruct (Qle_bool (CalculateTypewriterDuration s Text Speed) 0) eqn:E.
  - apply Qle_bool_iff in E. destruct Hpos as [Hpos | ->]; [lra | reflexivity].
  - apply (char_index_loop_full _ _ _ _ Hn 0%Z 0 0); [reflexivity |].
    unfold CalculateTypewriterDuration. lra.
Qed.

Lemma GetCharacterIndexAtTime_at_duration_witness :
  nonnegative_profile (GetSpeedTiming initial EStorySpeed.Standard)
  /\ (0 < CalculateTypewriterDuration initial (TEXT "Hi, you.") EStorySpeed.Standard
      \/ TEXT "Hi, you." = [])
  /\ GetCharacterIndexAtTime initial (TEXT "Hi, you.") EStorySpeed.Standard
       (CalculateTypewriterDuration initial (TEXT "Hi, you.") EStorySpeed.Standard)
     = FStr.Len (TEXT "Hi, you.").
Proof.
  assert (Hn : nonnegative_profile (GetSpeedTiming initial EStorySpeed.Standard)).
  { vm_compute. repeat (match goal with |- _ /\ _ => split end); discriminate. }
  assert (Hp : 0 < CalculateTypewriterDuration initial (TEXT "Hi, you.") EStorySpeed.Standard
               \/ TEXT "Hi, you." = []).
  { left. vm_compute. reflexivity. }
  split; [exact Hn |]. split; [exact Hp |].
  exact (GetCharacterIndexAtTime_at_duration initial (TEXT "Hi, you.")
           EStorySpeed.Standard Hn Hp).
Defined.

(** The guard at the head of GetCharacterIndexAtTime: no time, no character. *)
Lemma GetCharacterIndexAtTime_no_time (s : t) (Text : FString) (Speed : EStorySpeed.t)
  (Time : Q) :
  Time <= 0 -> GetCharacterIndexAtTime s Text Speed Time = 0%Z.
Proof.
  intros H. unfold GetCharacterIndexAtTime.
  apply Qle_bool_iff in H. rewrite H. reflexivity.
Qed.

(** C7 as stated fails on two profiles. With every delay zero the duration
    of "ab" is 0 and the guard returns index 0, not 2. With a negative bonus
    at blanks (per letter 1, at a blank -0.5) the duration of "a " is 1.5,
    which lies inside the typing phase of the second character: index 1,
    not 2. *)
Lemma GetCharacterIndexAtTime_at_duration_counterexample :
  (CalculateTypewriterDuration (with_profile instant_profile initial) (TEXT "ab")
     EStorySpeed.Standard == 0
   /\ GetCharacterIndexAtTime (with_profile instant_profile initial) (TEXT "ab")
        EStorySpeed.Standard
        (CalculateTypewriterDuration (with_profile instant_profile initial) (TEXT "ab")
           EStorySpeed.Standard) = 0%Z
   /\ FStr.Len (TEXT "ab") = 2%Z)
  /\ (CalculateTypewriterDuration (with_profile hasty_profile initial) (TEXT "a ")
        EStorySpeed.Standard == 1.5
      /\ GetCharacterIndexAtTime (with_profile hasty_profile initial) (TEXT "a ")
           EStorySpeed.Standard
           (CalculateTypewriterDuration (with_profile hasty_profile initial) (TEXT "a ")
              EStorySpeed.Standard) = 1%Z
      /\ FStr.Len (TEXT "a ") = 2%Z).
Proof.
  repeat (match goal with |- _ /\ _ => split end); vm_compute; reflexivity.
Qed.

End Playback.

(** * Properties of the parser *)

Section Wrapping.

Import UShortStoryParser.

Lemma length_TrimStart (s : FString) : (length (FStr.TrimStart s) <= length s)%nat.
Proof.
  induction s as [| c s IH]; cbn; [lia |].
  destruct (FStr.IsWhitespace c); cbn; lia.
Qed.

Lemma length_TrimEnd (s : FString) : (length (FStr.TrimEnd s) <= length s)%nat.
Proof.
  unfold FStr.TrimEnd. rewrite length_rev.
  pose proof (length_TrimStart (rev s)) as H. rewrite length_rev in H. exact H.
Qed.

Lemma length_TrimStartAndEnd (s : FString) :
  (length (FStr.TrimStartAndEnd s) <= length s)%nat.
Proof.
  unfold FStr.TrimStartAndEnd.
  pose proof (length_TrimEnd (FStr.TrimStart s)). pose proof (length_TrimStart s). lia.
Qed.

Lemma IsWhitespace_Space : FStr.IsWhitespace Space = true.
Proof. reflexivity. Qed.

(** Cutting at a blank and trimming removes at least that blank. *)
Lemma length_TrimStart_drop_space (R : FString) (k : nat) :
  R !! k = Some Space ->
  (length (FStr.TrimStart (drop k R)) < length R - k)%nat.
Proof.
  intros H. pose proof (lookup_lt_Some _ _ _ H) as Hk.
  rewrite (drop_S _ _ _ H). cbn [FStr.TrimStart]. rewrite IsWhitespace_Space.
  pose proof (length_TrimStart (drop (S k) R)) as Hl.
  rewrite length_drop in Hl. lia.
Qed.

(** What the backward scan returns. *)
Lemma scan_space_spec (R : FString) (n : nat) :
  (scan_space R n = -1 /\ forall j, (j <= n)%nat -> R !! j <> Some Space)
  \/ (0 <= scan_space R n <= Z.of_nat n
      /\ R !! Z.to_nat (scan_space R n) = Some Space
      /\ forall j, (Z.to_nat (scan_space R n) < j <= n)%nat -> R !! j <> Some Space).
Proof.
  induction n as [| n IH]; cbn [scan_space].
  - destruct (R !! 0%nat) as [c |] eqn:E.
    + destruct (Ascii.eqb_spec c Space) as [-> | Hne].
      * right. cbn. split; [lia |]. split; [exact E |]. intros j Hj. lia.
      * left. split; [reflexivity |]. intros j Hj. assert (j = 0%nat) as -> by lia.
        rewrite E. congruence.
    + left. split; [reflexivity |]. intros j Hj. assert (j = 0%nat) as -> by lia.
      rewrite E. congruence.
  - assert (Hrec :
      R !! S n <> Some Space ->
      (scan_space R n = -1 /\ forall j, (j <= S n)%nat -> R !! j <> Some Space)
      \/ (0 <= scan_space R n <= Z.of_nat (S n)
          /\ R !! Z.to_nat (scan_space R n) = Some Space
          /\ forall j, (Z.to_nat (scan_space R n) < j <= S n)%nat -> R !! j <> Some Space)).
    { intros Hn. destruct IH as [[H1 H2] | (H1 & H2 & H3)].
      - left. split; [exact H1 |]. intros j Hj.
        destruct (decide (j = S n)) as [-> | Hd]; [exact Hn | apply H2; lia].
      - right. split; [lia |]. split; [exact H2 |]. intros j Hj.
        destruct (decide (j = S n)) as [-> | Hd]; [exact Hn | apply H3; lia]. }
    destruct (R !! S n) as [c |] eqn:E.
    + destruct (Ascii.eqb_spec c Space) as [-> | Hne].
      * right. rewrite Nat2Z.id. split; [lia |]. split; [exact E |]. intros j Hj. lia.
      * apply Hrec. congruence.
    + apply Hrec. congruence.
Qed.

(** The index the loop cuts at, as a number of characters. *)
Lemma split_index_range (R : FString) (MaxLen : Z) :
  1 <= MaxLen ->
  let k := scan_space R (Z.to_nat MaxLen) in
  0 <= (if k =? -1 then MaxLen else k) <= MaxLen.
Proof.
  intros HM. cbv zeta.
  destruct (scan_space_spec R (Z.to_nat MaxLen)) as [[H _] | (H & _)].
  - rewrite H. cbn. lia.
  - destruct (Z.eqb_spec (scan_space R (Z.to_nat MaxLen)) (-1)); lia.
Qed.

(** Each turn of the loop leaves a shorter text. *)
Lemma split_remainder_shorter (R : FString) (MaxLen : Z) :
  1 <= MaxLen -> MaxLen < FStr.Len R ->
  let k := scan_space R (Z.to_nat MaxLen) in
  (length (FStr.TrimStart (FStr.Mid R (if (k =? -1)%Z then MaxLen else k))) < length R)%nat.
Proof.
  intros HM HL. cbv zeta. unfold FStr.Mid, FStr.Len in *.
  destruct (scan_space_spec R (Z.to_nat MaxLen)) as [[H _] | (H & Hs & _)].
  - rewrite H. change (-1 =? -1) with true. cbv iota.
    pose proof (length_TrimStart (drop (Z.to_nat MaxLen) R)) as Hl.
    rewrite length_drop in Hl. lia.
  - destruct (Z.eqb_spec (scan_space R (Z.to_nat MaxLen)) (-1)); [lia |].
    pose proof (length_TrimStart_drop_space _ _ Hs). lia.
Qed.

Lemma split_loop_nil (fuel : nat) (MaxLen : Z) :
  1 <= MaxLen -> split_loop fuel MaxLen [] = [].
Proof.
  intros HM. destruct fuel; [reflexivity |].
  cbn [split_loop]. change (FStr.Len []) with 0.
  destruct (Z.ltb_spec MaxLen 0); [lia | reflexivity].
Qed.

(** The loop leaves by its own test as soon as the fuel covers the text:
    more fuel changes nothing. *)
Lemma split_loop_fuel (MaxLen : Z) :
  1 <= MaxLen ->
  forall (f1 f2 : nat) (R : FString),
    (length R <= f1)%nat -> (length R <= f2)%nat ->
    split_loop f1 MaxLen R = split_loop f2 MaxLen R.
Proof.
  intros HM. induction f1 as [| f1 IH]; intros f2 R H1 H2.
  - destruct R; [| cbn in H1; lia]. rewrite !split_loop_nil by exact HM. reflexivity.
  - destruct f2 as [| f2].
    + destruct R; [| cbn in H2; lia]. rewrite !split_loop_nil by exact HM. reflexivity.
    + cbn [split_loop]. destruct (Z.ltb_spec MaxLen (FStr.Len R)) as [HL | HL]; [| reflexivity].
      f_equal. pose proof (split_remainder_shorter R MaxLen HM HL) as Hs. cbv zeta in Hs.
      apply IH; lia.
Qed.

Lemma split_loop_bound (MaxLen : Z) :
  1 <= MaxLen ->
  forall (fuel : nat) (R : FString),
    (length R <= fuel)%nat ->
    Forall (fun seg => FStr.Len seg <= MaxLen) (split_loop fuel MaxLen R).
Proof.
  intros HM. induction fuel as [| fuel IH]; intros R Hf.
  - destruct R; [| cbn in Hf; lia]. cbn. constructor.
  - cbn [split_loop]. destruct (Z.ltb_spec MaxLen (FStr.Len R)) as [HL | HL].
    + constructor.
      * pose proof (split_index_range R MaxLen HM) as Hr. cbv zeta in Hr.
        pose proof (length_TrimStartAndEnd
                      (FStr.Left R (if scan_space R (Z.to_nat MaxLen) =? -1
                                    then MaxLen else scan_space R (Z.to_nat MaxLen)))) as Ht.
        unfold FStr.Left in *. rewrite length_take in Ht. unfold FStr.Len. lia.
      * apply IH. pose proof (split_remainder_shorter R MaxLen HM HL) as Hs.
        cbv zeta in Hs. lia.
    + unfold split_tail. destruct (FStr.IsEmpty R); cbn; constructor; [| constructor].
      pose proof (length_TrimStartAndEnd R). unfold FStr.Len in *. lia.
Qed.

(** C9. For every text and every MaxLen >= 1: every segment of
    SplitTextByLength(Text, MaxLen) has at most MaxLen characters; and when
    the text is longer than MaxLen it is cut at an index k, the first segment
    being the trimmed characters before k and the rest being split in the
    same way, where k is the blank nearest below the limit when a blank
    stands at an index 0..MaxLen, and MaxLen itself when none does. *)
Theorem SplitTextByLength_segments (Text : FString) (MaxLen : Z) :
  1 <= MaxLen ->
  Forall (fun seg => FStr.Len seg <= MaxLen) (SplitTextByLength Text MaxLen)
  /\ (MaxLen < FStr.Len Text ->
      exists k : Z,
        SplitTextByLength Text MaxLen
          = FStr.TrimStartAndEnd (FStr.Left Text k)
              :: SplitTextByLength (FStr.TrimStart (FStr.Mid Text k)) MaxLen
        /\ ((exists j, 0 <= j <= MaxLen /\ space_at Text j) ->
            0 <= k <= MaxLen /\ space_at Text k
            /\ forall j, k < j <= MaxLen -> ~ space_at Text j)
        /\ ((forall j, 0 <= j <= MaxLen -> ~ space_at Text j) -> k = MaxLen)).
Proof.
  intros HM. split.
  - unfold SplitTextByLength. destruct (FStr.IsEmpty Text); [constructor |].
    destruct (Z.leb_spec MaxLen 0); [lia |].
    apply split_loop_bound; [exact HM | lia].
  - intros HL.
    exists (if scan_space Text (Z.to_nat MaxLen) =? -1 then MaxLen
            else scan_space Text (Z.to_nat MaxLen)).
    split; [| split].
    + unfold SplitTextByLength at 1.
      destruct Text as [| c Text']; [change (FStr.Len []) with 0 in HL; lia |].
      cbn [FStr.IsEmpty]. destruct (Z.leb_spec MaxLen 0); [lia |].
      set (R := c :: Text') in *.
      change (length R) with (S (length Text')). cbn [split_loop].
      destruct (Z.ltb_spec MaxLen (FStr.Len R)); [| lia].
      f_equal.
      pose proof (split_remainder_shorter R MaxLen HM HL) as Hs. cbv zeta in Hs.
      change (length R) with (S (length Text')) in Hs.
      unfold SplitTextByLength.
      destruct (FStr.TrimStart _) as [| c' R'] eqn:ER.
      * rewrite split_loop_nil by exact HM. reflexivity.
      * cbn [FStr.IsEmpty]. destruct (Z.leb_spec MaxLen 0); [lia |].
        apply split_loop_fuel; [exact HM | lia | lia].
    + intros (j & Hj & Hsp).
      destruct (scan_space_spec Text (Z.to_nat MaxLen)) as [[H Hno] | (H & Hs & Hno)].
      * exfalso. unfold space_at, at_index in Hsp.
        destruct (Z.leb_spec 0 j); [| lia]. apply (Hno (Z.to_nat j)); [lia | exact Hsp].
      * destruct (Z.eqb_spec (scan_space Text (Z.to_nat MaxLen)) (-1)); [lia |].
        split; [lia |]. split.
        -- unfold space_at, at_index. destruct (Z.leb_spec 0 (scan_space Text (Z.to_nat MaxLen)));
             [exact Hs | lia].
        -- intros j' Hj' Hsp'. unfold space_at, at_index in Hsp'.
           destruct (Z.leb_spec 0 j'); [| lia]. apply (Hno (Z.to_nat j')); [lia | exact Hsp'].
    + intros Hnone.
      destruct (scan_space_spec Text (Z.to_nat MaxLen)) as [[H Hno] | (H & Hs & Hno)].
      * rewrite H. reflexivity.
      * exfalso. apply (Hnone (scan_space Text (Z.to_nat MaxLen))); [lia |].
        unfold space_at, at_index.
        destruct (Z.leb_spec 0 (scan_space Text (Z.to_nat MaxLen))); [exact Hs | lia].
Qed.

Lemma SplitTextByLength_segments_witness :
  1 <= 9
  /\ Forall (fun seg => FStr.Len seg <= 9)
       (SplitTextByLength (TEXT "aaaa bbbb cccc") 9).
Proof.
  assert (H : 1 <= 9) by lia.
  split; [exact H |].
  exact (proj1 (SplitTextByLength_segments (TEXT "aaaa bbbb cccc") 9 H)).
Defined.

End Wrapping.

Section PauseKinds.

Import UShortStoryParser.

Variable Atof : FString -> Q.

Lemma emit_segments_parsed (segs : list FString) :
  forall (i n : Z) Anim Speed Pause Effect Offset,
    parsed_pause Pause ->
    lines_parsed (emit_segments segs i n Anim Speed Pause Effect Offset).
Proof.
  induction segs as [| seg segs IH]; intros i n Anim Speed Pause Effect Offset HP.
  - constructor.
  - cbn [emit_segments]. constructor; [| apply IH; exact HP].
    cbn. destruct (i =? n - 1); [exact HP |].
    unfold parsed_pause. tauto.
Qed.

Lemma ProcessTextToLines_parsed Text Anim Speed Pause Effect Offset OutLines M :
  parsed_pause Pause -> lines_parsed OutLines ->
  lines_parsed (ProcessTextToLines Text Anim Speed Pause Effect Offset OutLines M).
Proof.
  intros HP HO. unfold ProcessTextToLines, lines_parsed.
  apply Forall_app. split; [exact HO | apply emit_segments_parsed; exact HP].
Qed.

Lemma ParsePauseDuration_parsed (PauseString : FString) (v : EStoryPauseDuration.t) :
  ParsePauseDuration PauseString = Some v -> parsed_pause v.
Proof.
  unfold ParsePauseDuration, parsed_pause.
  repeat (match goal with |- context [if ?b then _ else _] => destruct b end);
    intros H; inversion H; tauto.
Qed.

Lemma parse_parameter_parsed (a : LineAttributes) (Field : FString) :
  parsed_pause (OutPause a) -> parsed_pause (OutPause (parse_parameter Atof a Field)).
Proof.
  intros HP. unfold parse_parameter.
  destruct (FStr.Split Field (TEXT "=")) as [[Key Value] |]; [| exact HP].
  repeat (match goal with |- context [if ?b then _ else _] => destruct b end).
  - destruct (ParseSpeed _); exact HP.
  - destruct (ParsePauseDuration _) eqn:E; [| exact HP].
    cbn. eapply ParsePauseDuration_parsed. exact E.
  - destruct (ParseEffectType _); exact HP.
  - destruct (ParsePositionOffset _ _); exact HP.
  - exact HP.
Qed.

Lemma fold_parse_parameter_parsed (Parameters : list FString) :
  forall a : LineAttributes,
    parsed_pause (OutPause a) ->
    parsed_pause (OutPause (fold_left (parse_parameter Atof) Parameters a)).
Proof.
  induction Parameters as [| F Ps IH]; intros a HP; [exact HP |].
  cbn [fold_left]. apply IH. apply parse_parameter_parsed. exact HP.
Qed.

(** A line ParseLineAttributes accepts never asks for the Wait pause. *)
Lemma ParseLineAttributes_parsed (Line : FString) (a0 a : LineAttributes) :
  ParseLineAttributes Atof Line a0 = (true, a) -> parsed_pause (OutPause a).
Proof.
  unfold ParseLineAttributes.
  destruct (map FStr.TrimStartAndEnd _) as [| F0 [| F1 Ps]]; try (intros H; discriminate).
  destruct (FStr.IsEmpty _); [intros H; discriminate |].
  intros H. inversion H as [Ha]. apply fold_parse_parameter_parsed.
  cbn. unfold parsed_pause. tauto.
Qed.

Lemma SpacerLine_parsed : parsed_pause (FStoryLine.PauseDuration SpacerLine).
Proof. cbn. unfold parsed_pause. tauto. Qed.

Lemma finish_block_parsed (a : LineAttributes) (Pending : list FString) (M : Z)
  (OutLines : list FStoryLine.t) :
  parsed_pause (OutPause a) -> lines_parsed OutLines ->
  lines_parsed (finish_block a Pending M OutLines).
Proof.
  intros HP HO. unfold finish_block.
  apply Forall_app. split; [| constructor; [apply SpacerLine_parsed | constructor]].
  apply ProcessTextToLines_parsed; [exact HP |].
  revert OutLines HO. induction Pending as [| P Ps IH]; intros OutLines HO; [exact HO |].
  cbn [fold_left]. apply IH. apply ProcessTextToLines_parsed; [| exact HO].
  unfold parsed_pause. tauto.
Qed.

Lemma update_screen_parsed (idx : nat) (f : FStoryScreen -> FStoryScreen)
  (p : ParseLocals) :
  (forall sc, lines_parsed (Lines sc) -> lines_parsed (Lines (f sc))) ->
  screens_parsed (Screens (OutStory p)) ->
  screens_parsed (Screens (OutStory (update_screen idx f p))).
Proof.
  intros Hf Hp. unfold update_screen. cbn. unfold screens_parsed.
  apply Forall_alter; [exact Hp |]. intros sc _. apply Hf.
Qed.

Lemma apply_screen_metadata_Lines (M : gmap FString FString) (sc : FStoryScreen) :
  Lines (apply_screen_metadata M sc) = Lines sc.
Proof.
  unfold apply_screen_metadata.
  destruct (M !! TEXT "background") as [BG |];
    destruct (M !! TEXT "transition") as [v |];
    repeat (match goal with
            | |- context [if ?b then _ else _] => destruct b
            | |- context [match ParseTransitionType ?v with _ => _ end] =>
                destruct (ParseTransitionType v)
            end); reflexivity.
Qed.

Lemma parse_screen_content_parsed (M LineNumber : Z) (Line : FString) (idx : nat)
  (p : ParseLocals) :
  screens_parsed (Screens (OutStory p)) ->
  screens_parsed (Screens (OutStory (parse_screen_content Atof M LineNumber Line idx p))).
Proof.
  intros Hp. unfold parse_screen_content.
  match goal with |- context [if ?b then (false, _) else _] => destruct b end.
  - cbn [fst snd].
    destruct (FStr.StartsWith Line (TEXT "@")).
    { destruct (ParseTimedEvent _ _ _); [| exact Hp].
      apply update_screen_parsed; [| exact Hp]. intros sc H. exact H. }
    destruct (FStr.EqualsIgnoreCase _ _).
    { apply update_screen_parsed.
      - intros sc H. cbn. apply Forall_app. split; [exact H |].
        constructor; [apply SpacerLine_parsed | constructor].
      - destruct (0 <? Num (PendingLines p)); exact Hp. }
    destruct (FStr.Contains _ _); [| exact Hp].
    destruct (ParseLineAttributes _ _ _) as [[|] a] eqn:E; [| exact Hp].
    cbn. apply (update_screen_parsed idx _ p); [| exact Hp].
    intros sc H. cbn. apply finish_block_parsed; [| exact H].
    eapply ParseLineAttributes_parsed. exact E.
  - destruct (ParseMetadataLine Line (CurrentScreenMetadata p)) as [[|] Md] eqn:E;
      cbn [fst snd].
    { apply update_screen_parsed; [| exact Hp].
      intros sc H. rewrite apply_screen_metadata_Lines. exact H. }
    destruct (FStr.StartsWith Line (TEXT "@")).
    { destruct (ParseTimedEvent _ _ _); [| exact Hp].
      apply update_screen_parsed; [| exact Hp]. intros sc H. exact H. }
    destruct (FStr.EqualsIgnoreCase _ _).
    { apply update_screen_parsed.
      - intros sc H. cbn. apply Forall_app. split; [exact H |].
        constructor; [apply SpacerLine_parsed | constructor].
      - destruct (0 <? Num (PendingLines p)); exact Hp. }
    destruct (FStr.Contains _ _); [| exact Hp].
    destruct (ParseLineAttributes _ _ _) as [[|] a] eqn:E'; [| exact Hp].
    cbn. apply (update_screen_parsed idx _ p); [| exact Hp].
    intros sc H. cbn. apply finish_block_parsed; [| exact H].
    eapply ParseLineAttributes_parsed. exact E'.
Qed.

Lemma parse_line_parsed (M i : Z) (RawLine : FString) (p : ParseLocals) :
  screens_parsed (Screens (OutStory p)) ->
  screens_parsed (Screens (OutStory (parse_line Atof M i RawLine p))).
Proof.
  intros Hp. unfold parse_line.
  destruct (FStr.IsEmpty _); [exact Hp |].
  destruct (IsSectionHeader _) as [SectionName |].
  - assert (Hp' : screens_parsed
                    (Screens (OutStory
                       (if 0 <? Num (PendingLines p)
                        then set_PendingLines []
                               (add_error
                                  (line_prefix (i + 1)
                                     ++ TEXT "Orphaned text lines found before section change (missing metadata line?)")
                                  p)
                        else p)))).
    { destruct (0 <? Num (PendingLines p)); exact Hp. }
    destruct (FStr.EqualsIgnoreCase SectionName (TEXT "STORY")); [exact Hp' |].
    destruct (FStr.StartsWith SectionName (TEXT "SCREEN")); [| exact Hp'].
    cbn. apply Forall_app. split; [exact Hp' |].
    constructor; [constructor | constructor].
  - destruct (CurrentState p).
    + exact Hp.
    + destruct (ParseMetadataLine _ _) as [[|] Md]; exact Hp.
    + destruct (CurrentScreen p) as [idx |]; [| exact Hp].
      apply parse_screen_content_parsed. exact Hp.
Qed.

Lemma parse_loop_parsed (M : Z) (Ls : list FString) :
  forall (i : Z) (p : ParseLocals),
    screens_parsed (Screens (OutStory p)) ->
    screens_parsed (Screens (OutStory (parse_loop Atof M Ls i p))).
Proof.
  induction Ls as [| L Ls IH]; intros i p Hp; [exact Hp |].
  cbn [parse_loop]. apply IH. apply parse_line_parsed. exact Hp.
Qed.

Lemma finish_parse_parsed (p : ParseLocals) :
  screens_parsed (Screens (OutStory p)) ->
  screens_parsed (Screens (finish_parse p).1.2).
Proof.
  intros H. unfold finish_parse.
  destruct (bFoundStorySection p); cbn [negb]; [| exact H].
  assert (H' : screens_parsed
                 (Screens (OutStory
                    (if 0 <? Num (PendingLines p)
                     then add_error
                            (TEXT "End of file: Orphaned text lines found (missing metadata line?)")
                            p
                     else p)))).
  { destruct (0 <? Num (PendingLines p)); exact H. }
  set (p' := if 0 <? Num (PendingLines p) then _ else p) in *.
  destruct (StoryMetadata p' !! TEXT "title"), (StoryMetadata p' !! TEXT "ost");
    match goal with |- context [if ?b then _ else _] => destruct b end; exact H'.
Qed.

(** C10. For every input text and every MaxLineLength, every line of every
    screen of the story ParseStoryFromString returns, whether it reports
    success or failure, has a pause kind among None, Short, Standard, Long
    and LineBreak: the parser never produces Wait. *)
Theorem ParseStoryFromString_never_Wait (StoryText : FString) (MaxLineLength : Z) :
  Forall
    (fun sc =>
       Forall
         (fun l =>
            FStoryLine.PauseDuration l = EStoryPauseDuration.None
            \/ FStoryLine.PauseDuration l = EStoryPauseDuration.Short
            \/ FStoryLine.PauseDuration l = EStoryPauseDuration.Standard
            \/ FStoryLine.PauseDuration l = EStoryPauseDuration.Long
            \/ FStoryLine.PauseDuration l = EStoryPauseDuration.LineBreak)
         (Lines sc))
    (Screens (ParseStoryFromString Atof StoryText MaxLineLength).1.2).
Proof.
  change (screens_parsed (Screens (ParseStoryFromString Atof StoryText MaxLineLength).1.2)).
  unfold ParseStoryFromString.
  destruct (Num (FStr.ParseIntoArrayLines StoryText) =? 0); [constructor |].
  apply finish_parse_parsed. apply parse_loop_parsed. constructor.
Qed.

End PauseKinds.

Section Continuation.

Import UShortStoryParser.

(** A text that is already trimmed and fits the limit (or meets no limit)
    is its own single segment. *)
Lemma SplitTextByLength_fits (Text : FString) (M : Z) :
  Text <> [] -> FStr.TrimStartAndEnd Text = Text ->
  M <= 0 \/ FStr.Len Text <= M ->
  SplitTextByLength Text M = [Text].
Proof.
  intros Hne Htrim HM. unfold SplitTextByLength.
  destruct Text as [| c Text']; [congruence |].
  cbn [FStr.IsEmpty]. destruct (Z.leb_spec M 0) as [H0 | H0]; [reflexivity |].
  destruct HM as [HM | HM]; [lia |].
  cbn [length split_loop].
  destruct (Z.ltb_spec M (FStr.Len (c :: Text'))); [lia |].
  unfold split_tail. cbn [FStr.IsEmpty negb]. rewrite Htrim. reflexivity.
Qed.

(** Such a text, when it holds no manual break, becomes one line, and that
    line carries the pause that was asked for. *)
Lemma ProcessTextToLines_fits Text Anim Speed Pause Effect Offset OutLines (M : Z) :
  FStr.ParseIntoArray Text (TEXT "\\") false = [Text] ->
  Text <> [] -> FStr.TrimStartAndEnd Text = Text ->
  M <= 0 \/ FStr.Len Text <= M ->
  ProcessTextToLines Text Anim Speed Pause Effect Offset OutLines M
    = OutLines ++ [made_line Text Anim Speed Pause Effect Offset].
Proof.
  intros Hm Hne Htrim HM. unfold ProcessTextToLines. rewrite Hm.
  change (Num [Text] =? 0) with false. cbv iota. cbn [map concat]. rewrite Htrim.
  rewrite (SplitTextByLength_fits Text M Hne Htrim HM). reflexivity.
Qed.

Lemma parse_loop_app (Atof : FString -> Q) (M : Z) (Ls1 Ls2 : list FString) :
  forall (i : Z) (p : ParseLocals),
    parse_loop Atof M (Ls1 ++ Ls2) i p
      = parse_loop Atof M Ls2 (i + Num Ls1) (parse_loop Atof M Ls1 i p).
Proof.
  induction Ls1 as [| L Ls1 IH]; intros i p.
  - cbn [app parse_loop]. unfold Num. cbn [length]. f_equal. lia.
  - cbn [app parse_loop]. rewrite IH. f_equal. unfold Num. cbn [length]. lia.
Qed.

(** The finisher branch of the loop, reached by a content line with a pipe
    that ParseLineAttributes accepts: the pending lines and the line itself
    go to the current screen and the buffer is cleared. *)
Lemma parse_line_finisher (Atof : FString -> Q) (M i : Z) (RawLine Line : FString)
  (idx : nat) (p : ParseLocals) (a : LineAttributes) :
  CleanLine RawLine = Line ->
  FStr.IsEmpty Line = false ->
  IsSectionHeader Line = None ->
  CurrentState p = EParseState.ScreenContent ->
  CurrentScreen p = Some idx ->
  FStr.StartsWith Line (TEXT "@") = false ->
  FStr.EqualsIgnoreCase (FStr.TrimStartAndEnd Line) (TEXT "[SPACER]") = false ->
  FStr.Contains Line (TEXT "|") = true ->
  ParseLineAttributes Atof Line declared_locals = (true, a) ->
  parse_line Atof M i RawLine p
    = set_PendingLines []
        (update_screen idx
           (fun sc => set_Lines (finish_block a (PendingLines p) M (Lines sc)) sc) p).
Proof.
  intros Hc He Hh Hs Hi H1 H2 H3 H4. unfold parse_line.
  rewrite Hc, He, Hh, Hs, Hi. unfold parse_screen_content.
  assert (Hmeta : forall Md, (ParseMetadataLine Line Md).1 = false).
  { intros Md. unfold ParseMetadataLine. rewrite H3. reflexivity. }
  match goal with |- context [if ?b then (false, _) else _] => destruct b end;
    cbn [fst]; rewrite ?Hmeta, H1, H2, H3, H4; reflexivity.
Qed.

(** The end of the parse of [continuation_text], whatever lines [FB] the
    finisher branch adds. *)
Lemma finish_parse_continuation (FB : list FStoryLine.t -> list FStoryLine.t) :
  finish_parse
    (set_PendingLines []
       (update_screen 0 (fun sc => set_Lines (FB (Lines sc)) sc) continuation_pending))
  = (true,
     {| Title := TEXT "T"; OST := [];
        Screens := [set_Lines (FB []) FStoryScreen_default]; SourceFileName := [] |},
     []).
Proof. vm_compute. reflexivity. Qed.

(** C2, as amended. With a line limit that leaves "Final" whole (at least 5,
    or no limit), parsing the screen "A", "B", "Final | typewriter |
    pause=long" succeeds without diagnostics and yields the lines A, B and
    Final with pauses None, None, Long, followed by one spacer with pause
    None. *)
Theorem continuation_block_pauses (Atof : FString -> Q) (MaxLineLength : Z) :
  MaxLineLength <= 0 \/ 5 <= MaxLineLength ->
  (ParseStoryFromString Atof continuation_text MaxLineLength).1.1 = true
  /\ (ParseStoryFromString Atof continuation_text MaxLineLength).2 = []
  /\ lines_of (ParseStoryFromString Atof continuation_text MaxLineLength).1.2
     = [[(TEXT "A", EStoryPauseDuration.None); (TEXT "B", EStoryPauseDuration.None);
         (TEXT "Final", EStoryPauseDuration.Long); (TEXT " ", EStoryPauseDuration.None)]].
Proof.
  intros HM. unfold ParseStoryFromString.
  assert (EL : FStr.ParseIntoArrayLines continuation_text
               = [TEXT "[STORY]"; TEXT "title = T"; TEXT "[SCREEN_01]"; TEXT "A"; TEXT "B"]
                   ++ [TEXT "Final | typewriter | pause=long"]).
  { vm_compute. reflexivity. }
  rewrite EL. clear EL.
  match goal with |- context [if ?b then _ else _] => change b with false end.
  cbv iota. rewrite parse_loop_app.
  assert (E5 : parse_loop Atof MaxLineLength
                 [TEXT "[STORY]"; TEXT "title = T"; TEXT "[SCREEN_01]"; TEXT "A"; TEXT "B"]
                 0 initial_locals = continuation_pending).
  { vm_compute. reflexivity. }
  rewrite E5. clear E5. cbn [parse_loop].
  rewrite (parse_line_finisher Atof MaxLineLength _ _ (TEXT "Final | typewriter | pause=long")
             0%nat continuation_pending final_attributes);
    [| vm_compute; reflexivity ..].
  pose proof (finish_parse_continuation
                (finish_block final_attributes (PendingLines continuation_pending)
                   MaxLineLength)) as EF.
  cbv beta in EF. rewrite EF. clear EF.
  cbn [fst snd]. split; [reflexivity |]. split; [reflexivity |].
  unfold lines_of, finish_block.
  cbn [Screens set_Lines Lines fold_left OutText OutAnim OutSpeed OutPause OutEffect
       OutOffset final_attributes continuation_pending PendingLines FStoryScreen_default
       map].
  assert (HA : MaxLineLength <= 0 \/ FStr.Len (TEXT "A") <= MaxLineLength).
  { destruct HM; [left | right; change (FStr.Len (TEXT "A")) with 1]; lia. }
  assert (HF : MaxLineLength <= 0 \/ FStr.Len (TEXT "Final") <= MaxLineLength).
  { destruct HM; [left | right; change (FStr.Len (TEXT "Final")) with 5]; lia. }
  rewrite (ProcessTextToLines_fits (TEXT "A"));
    [| reflexivity | discriminate | reflexivity | exact HA].
  rewrite (ProcessTextToLines_fits (TEXT "B"));
    [| reflexivity | discriminate | reflexivity | exact HA].
  rewrite (ProcessTextToLines_fits (TEXT "Final"));
    [| reflexivity | discriminate | reflexivity | exact HF].
  reflexivity.
Qed.

Lemma continuation_block_pauses_witness :
  (80 <= 0 \/ 5 <= 80)
  /\ lines_of (ParseStoryFromString atof_zero continuation_text 80).1.2
     = [[(TEXT "A", EStoryPauseDuration.None); (TEXT "B", EStoryPauseDuration.None);
         (TEXT "Final", EStoryPauseDuration.Long); (TEXT " ", EStoryPauseDuration.None)]].
Proof.
  assert (H : 80 <= 0 \/ 5 <= 80) by (right; lia).
  split; [exact H |].
  exact (proj2 (proj2 (continuation_block_pauses atof_zero 80 H))).
Defined.

(** C2 as stated fails: with the default limit of 80 the pauses of the
    three lines are None, None, Long, not LineBreak, LineBreak, Long; each
    continuation line is passed to ProcessTextToLines with the pause None. *)
Lemma continuation_block_pauses_counterexample :
  pauses_of (ParseStoryFromString atof_zero continuation_text 80).1.2
    = [[EStoryPauseDuration.None; EStoryPauseDuration.None; EStoryPauseDuration.Long;
        EStoryPauseDuration.None]]
  /\ pauses_of (ParseStoryFromString atof_zero continuation_text 80).1.2
     <> [[EStoryPauseDuration.LineBreak; EStoryPauseDuration.LineBreak;
          EStoryPauseDuration.Long; EStoryPauseDuration.None]].
Proof.
  split; [vm_compute; reflexivity | vm_compute; discriminate].
Qed.

(** *** Diagnostics of an accepted line *)

(** When ParseLineAttributes accepts a finisher line, the loop adds the
    lines and reads nothing of OutError: the error list is as it was. *)
Lemma accepted_line_adds_no_diagnostic (Atof : FString -> Q) (M LineNumber : Z)
  (Line : FString) (idx : nat) (p : ParseLocals) (a : LineAttributes) :
  FStr.StartsWith Line (TEXT "@") = false ->
  FStr.EqualsIgnoreCase (FStr.TrimStartAndEnd Line) (TEXT "[SPACER]") = false ->
  FStr.Contains Line (TEXT "|") = true ->
  ParseLineAttributes Atof Line declared_locals = (true, a) ->
  OutErrors (parse_screen_content Atof M LineNumber Line idx p) = OutErrors p.
Proof.
  intros H1 H2 H3 H4. unfold parse_screen_content.
  assert (Hmeta : forall Md, (ParseMetadataLine Line Md).1 = false).
  { intros Md. unfold ParseMetadataLine. rewrite H3. reflexivity. }
  match goal with |- context [if ?b then (false, _) else _] => destruct b end;
    cbn [fst]; rewrite ?Hmeta, H1, H2, H3, H4; reflexivity.
Qed.

(** C6 at three lines the loop can read. Each holds "Hello", the animation
    typewriter and one field the attribute parser cannot use. In each case
    ParseLineAttributes accepts the line and describes the field in
    OutError; ParseStoryFromString succeeds and emits the line with the
    defaults and its spacer; and the error list it returns is empty. *)
Theorem bad_field_diagnostic_dropped (Atof : FString -> Q) :
  ((ParseLineAttributes Atof (TEXT "Hello | typewriter | bogus=1") declared_locals).1 = true
   /\ OutError (ParseLineAttributes Atof (TEXT "Hello | typewriter | bogus=1")
                  declared_locals).2
      = TEXT "Unknown parameter 'bogus'"
   /\ ParseStoryFromString Atof unknown_key_text 80
      = (true,
         story_of
           [story_screen
              [story_line "Hello" EStoryLineAnimation.Typewriter EStoryPauseDuration.None;
               SpacerLine]],
         []))
  /\ ((ParseLineAttributes Atof (TEXT "Hello | typewriter | offset=12") declared_locals).1
      = true
      /\ OutError (ParseLineAttributes Atof (TEXT "Hello | typewriter | offset=12")
                     declared_locals).2
         = TEXT "Invalid offset format '12' (expected X,Y)"
      /\ ParseStoryFromString Atof bad_offset_text 80
         = (true,
            story_of
              [story_screen
                 [story_line "Hello" EStoryLineAnimation.Typewriter EStoryPauseDuration.None;
                  SpacerLine]],
            []))
  /\ ((ParseLineAttributes Atof (TEXT "Hello | typewriter | oops") declared_locals).1 = true
      /\ OutError (ParseLineAttributes Atof (TEXT "Hello | typewriter | oops")
                     declared_locals).2
         = TEXT "Invalid parameter format 'oops' (expected key=value)"
      /\ ParseStoryFromString Atof no_key_text 80
         = (true,
            story_of
              [story_screen
                 [story_line "Hello" EStoryLineAnimation.Typewriter EStoryPauseDuration.None;
                  SpacerLine]],
            [])).
Proof.
  repeat (match goal with |- _ /\ _ => split end); vm_compute; reflexivity.
Qed.

End Continuation.

(** * Further properties of the parser *)

Section WrappingMore.

Import UShortStoryParser.

Lemma solid_app (a b : FString) : solid (a ++ b) = solid a ++ solid b.
Proof. unfold solid. apply filter_app. Qed.

Lemma solid_TrimStart (s : FString) : solid (FStr.TrimStart s) = solid s.
Proof.
  induction s as [| c s IH]; [reflexivity |].
  cbn [FStr.TrimStart]. destruct (FStr.IsWhitespace c) eqn:E; [| reflexivity].
  rewrite IH. unfold solid. rewrite filter_cons.
  destruct (decide (FStr.IsWhitespace c = false)) as [H | H]; [congruence | reflexivity].
Qed.

Lemma solid_rev (s : FString) : solid (rev s) = rev (solid s).
Proof.
  induction s as [| c s IH]; [reflexivity |].
  cbn [rev]. rewrite solid_app, IH. unfold solid at 2 3. rewrite !filter_cons, filter_nil.
  destruct (decide (FStr.IsWhitespace c = false)); cbn [rev]; [reflexivity |].
  rewrite app_nil_r. reflexivity.
Qed.

Lemma solid_TrimEnd (s : FString) : solid (FStr.TrimEnd s) = solid s.
Proof.
  unfold FStr.TrimEnd. rewrite solid_rev, solid_TrimStart, solid_rev, rev_involutive.
  reflexivity.
Qed.

Lemma solid_TrimStartAndEnd (s : FString) : solid (FStr.TrimStartAndEnd s) = solid s.
Proof. unfold FStr.TrimStartAndEnd. rewrite solid_TrimEnd, solid_TrimStart. reflexivity. Qed.

Lemma solid_split_tail (R : FString) : solid (concat (split_tail R)) = solid R.
Proof.
  unfold split_tail. destruct R as [| c R]; [reflexivity |].
  cbn [FStr.IsEmpty negb concat]. rewrite app_nil_r. apply solid_TrimStartAndEnd.
Qed.

Lemma solid_split_loop (MaxLen : Z) (fuel : nat) :
  forall R : FString, solid (concat (split_loop fuel MaxLen R)) = solid R.
Proof.
  induction fuel as [| fuel IH]; intros R; cbn [split_loop]; [apply solid_split_tail |].
  destruct (MaxLen <? FStr.Len R); [| apply solid_split_tail].
  cbn [concat]. rewrite solid_app, IH, solid_TrimStart, solid_TrimStartAndEnd.
  unfold FStr.Left, FStr.Mid. rewrite <- solid_app, take_drop. reflexivity.
Qed.

(** X1. SplitTextByLength loses and reorders no visible character: for
    every text and every limit, the segments joined hold the non-whitespace
    characters of the text, in the same order. *)
Theorem SplitTextByLength_keeps_characters (Text : FString) (MaxLen : Z) :
  solid (concat (SplitTextByLength Text MaxLen)) = solid Text.
Proof.
  unfold SplitTextByLength. destruct Text as [| c Text]; [reflexivity |].
  cbn [FStr.IsEmpty]. destruct (MaxLen <=? 0).
  - cbn [concat]. rewrite app_nil_r. reflexivity.
  - apply solid_split_loop.
Qed.

End WrappingMore.

Section LineGroups.

Import UShortStoryParser.

Lemma emit_segments_pauses (segs : list FString) :
  forall (i n : Z) Anim Speed Pause Effect Offset,
    n = i + Num segs ->
    map FStoryLine.PauseDuration (emit_segments segs i n Anim Speed Pause Effect Offset)
      = wrapped_pauses (length segs) Pause.
Proof.
  induction segs as [| seg segs IH]; intros i n Anim Speed Pause Effect Offset Hn;
    [reflexivity |].
  cbn [emit_segments map FStoryLine.PauseDuration].
  rewrite (IH (i + 1) n); [| unfold Num in *; cbn [length] in Hn; lia].
  destruct segs as [| seg' segs'].
  - unfold Num in Hn. cbn [length] in Hn.
    destruct (Z.eqb_spec i (n - 1)); [reflexivity | lia].
  - unfold Num in Hn. cbn [length] in Hn.
    destruct (Z.eqb_spec i (n - 1)); [lia | reflexivity].
Qed.

Lemma emit_segments_attributes (segs : list FString) :
  forall (i n : Z) Anim Speed Pause Effect Offset,
    Forall (shares_attributes Anim Speed Effect Offset)
      (emit_segments segs i n Anim Speed Pause Effect Offset).
Proof.
  induction segs as [| seg segs IH]; intros; cbn [emit_segments]; constructor.
  - repeat split.
  - apply IH.
Qed.

Lemma emit_segments_texts (segs : list FString) :
  forall (i n : Z) Anim Speed Pause Effect Offset,
    map FStoryLine.Text (emit_segments segs i n Anim Speed Pause Effect Offset) = segs.
Proof.
  induction segs as [| seg segs IH]; intros; cbn [emit_segments map]; [reflexivity |].
  cbn. f_equal. apply IH.
Qed.

(** X2. ProcessTextToLines appends to OutLines and changes none of the
    lines already there; the lines it adds all carry the animation, speed,
    effect and offset it was given; and of their pauses every one is
    LineBreak except the last, which is the pause it was given. *)
Theorem ProcessTextToLines_layout (Text : FString) (Anim : EStoryLineAnimation.t)
  (Speed : EStorySpeed.t) (Pause : EStoryPauseDuration.t) (Effect : EStoryEffect.t)
  (Offset : FVector2D) (OutLines : list FStoryLine.t) (MaxLineLength : Z) :
  exists added : list FStoryLine.t,
    ProcessTextToLines Text Anim Speed Pause Effect Offset OutLines MaxLineLength
      = OutLines ++ added
    /\ Forall (shares_attributes Anim Speed Effect Offset) added
    /\ map FStoryLine.PauseDuration added = wrapped_pauses (length added) Pause.
Proof.
  unfold ProcessTextToLines.
  match goal with |- context [emit_segments ?segs 0 (Num ?segs)] => set (S := segs) end.
  exists (emit_segments S 0 (Num S) Anim Speed Pause Effect Offset).
  split; [reflexivity |]. split; [apply emit_segments_attributes |].
  rewrite emit_segments_pauses by lia.
  f_equal. rewrite <- (length_map FStoryLine.Text), emit_segments_texts. reflexivity.
Qed.

End LineGroups.

(** Invariants of the lines of the parsed story that depend on the text of a
    line only. *)
Section TextInvariant.

Import UShortStoryParser.

Variable Atof : FString -> Q.
Variable MaxLineLength : Z.
Variable PT : FString -> Prop.

Hypothesis PT_spacer : PT (TEXT " ").
Hypothesis PT_split :
  forall T : FString,
    Forall PT (SplitTextByLength (FStr.TrimStartAndEnd T) MaxLineLength).

Local Abbreviation lines_hold := (Forall (fun l => PT (FStoryLine.Text l))).
Local Abbreviation screens_hold := (Forall (fun sc => lines_hold (Lines sc))).

Lemma lines_hold_texts (ls : list FStoryLine.t) :
  Forall PT (map FStoryLine.Text ls) -> lines_hold ls.
Proof.
  induction ls as [| l ls IH]; intros H; [constructor |].
  cbn [map] in H. inversion H; subst. constructor; [assumption | apply IH; assumption].
Qed.

Lemma ProcessTextToLines_hold Text Anim Speed Pause Effect Offset OutLines :
  lines_hold OutLines ->
  lines_hold (ProcessTextToLines Text Anim Speed Pause Effect Offset OutLines MaxLineLength).
Proof.
  intros HO. unfold ProcessTextToLines.
  apply Forall_app. split; [exact HO |].
  apply lines_hold_texts. rewrite emit_segments_texts.
  apply Forall_concat. apply Forall_fmap. apply Forall_forall. intros T _. apply PT_split.
Qed.

Lemma finish_block_hold (a : LineAttributes) (Pending : list FString)
  (OutLines : list FStoryLine.t) :
  lines_hold OutLines -> lines_hold (finish_block a Pending MaxLineLength OutLines).
Proof.
  intros HO. unfold finish_block.
  apply Forall_app. split; [| constructor; [exact PT_spacer | constructor]].
  apply ProcessTextToLines_hold.
  revert OutLines HO. induction Pending as [| P Ps IH]; intros OutLines HO; [exact HO |].
  cbn [fold_left]. apply IH. apply ProcessTextToLines_hold. exact HO.
Qed.

Lemma update_screen_hold (idx : nat) (f : FStoryScreen -> FStoryScreen) (p : ParseLocals) :
  (forall sc, lines_hold (Lines sc) -> lines_hold (Lines (f sc))) ->
  screens_hold (Screens (OutStory p)) ->
  screens_hold (Screens (OutStory (update_screen idx f p))).
Proof.
  intros Hf Hp. unfold update_screen. cbn.
  apply Forall_alter; [exact Hp |]. intros sc _. apply Hf.
Qed.

Lemma parse_screen_content_hold (LineNumber : Z) (Line : FString) (idx : nat)
  (p : ParseLocals) :
  screens_hold (Screens (OutStory p)) ->
  screens_hold
    (Screens (OutStory (parse_screen_content Atof MaxLineLength LineNumber Line idx p))).
Proof.
  intros Hp. unfold parse_screen_content.
  assert (Hrest :
    screens_hold
      (Screens (OutStory
        (if FStr.StartsWith Line (TEXT "@") then
           match ParseTimedEvent Atof (FStr.Mid Line 1) LineNumber with
           | inl Event =>
               update_screen idx (fun sc => set_TimedEvents (TimedEvents sc ++ [Event]) sc) p
           | inr EventError => add_error (line_prefix LineNumber ++ EventError) p
           end
         else if FStr.EqualsIgnoreCase (FStr.TrimStartAndEnd Line) (TEXT "[SPACER]") then
           update_screen idx (fun sc => set_Lines (Lines sc ++ [SpacerLine]) sc)
             (if 0 <? Num (PendingLines p) then
                set_PendingLines []
                  (add_error
                     (line_prefix LineNumber
                        ++ TEXT "[SPACER] found inside a pending text block (missing metadata line?)")
                     p)
              else p)
         else if FStr.Contains Line (TEXT "|") then
           match ParseLineAttributes Atof Line declared_locals with
           | (true, a) =>
               set_PendingLines []
                 (update_screen idx
                    (fun sc =>
                       set_Lines (finish_block a (PendingLines p) MaxLineLength (Lines sc)) sc)
                    p)
           | (false, a) => add_error (line_prefix LineNumber ++ OutError a) p
           end
         else set_PendingLines (PendingLines p ++ [Line]) p)))).
  { destruct (FStr.StartsWith Line (TEXT "@")).
    { destruct (ParseTimedEvent _ _ _); [| exact Hp].
      apply update_screen_hold; [| exact Hp]. intros sc H. exact H. }
    destruct (FStr.EqualsIgnoreCase _ _).
    { apply update_screen_hold.
      - intros sc H. cbn. apply Forall_app. split; [exact H |].
        constructor; [exact PT_spacer | constructor].
      - destruct (0 <? Num (PendingLines p)); exact Hp. }
    destruct (FStr.Contains _ _); [| exact Hp].
    destruct (ParseLineAttributes _ _ _) as [[|] a]; [| exact Hp].
    cbn. apply (update_screen_hold idx _ p); [| exact Hp].
    intros sc H. cbn. apply finish_block_hold. exact H. }
  match goal with |- context [if ?b then (false, _) else _] => destruct b end.
  - cbn [fst snd]. exact Hrest.
  - destruct (ParseMetadataLine Line (CurrentScreenMetadata p)) as [[|] Md];
      cbn [fst snd]; [| exact Hrest].
    apply update_screen_hold; [| exact Hp].
    intros sc H. rewrite apply_screen_metadata_Lines. exact H.
Qed.

Lemma parse_line_hold (i : Z) (RawLine : FString) (p : ParseLocals) :
  screens_hold (Screens (OutStory p)) ->
  screens_hold (Screens (OutStory (parse_line Atof MaxLineLength i RawLine p))).
Proof.
  intros Hp. unfold parse_line.
  destruct (FStr.IsEmpty _); [exact Hp |].
  destruct (IsSectionHeader _) as [SectionName |].
  - match goal with |- context [if 0 <? Num (PendingLines p) then ?x else p] =>
      assert (Hp' : screens_hold
                      (Screens (OutStory (if 0 <? Num (PendingLines p) then x else p))))
        by (destruct (0 <? Num (PendingLines p)); exact Hp)
    end.
    destruct (FStr.EqualsIgnoreCase SectionName (TEXT "STORY")); [exact Hp' |].
    destruct (FStr.StartsWith SectionName (TEXT "SCREEN")); [| exact Hp'].
    cbn. apply Forall_app. split; [exact Hp' |].
    constructor; [constructor | constructor].
  - destruct (CurrentState p).
    + exact Hp.
    + destruct (ParseMetadataLine _ _) as [[|] Md]; exact Hp.
    + destruct (CurrentScreen p) as [idx |]; [| exact Hp].
      apply parse_screen_content_hold. exact Hp.
Qed.

Lemma parse_loop_hold (Ls : list FString) :
  forall (i : Z) (p : ParseLocals),
    screens_hold (Screens (OutStory p)) ->
    screens_hold (Screens (OutStory (parse_loop Atof MaxLineLength Ls i p))).
Proof.
  induction Ls as [| L Ls IH]; intros i p Hp; [exact Hp |].
  cbn [parse_loop]. apply IH. apply parse_line_hold. exact Hp.
Qed.

Lemma finish_parse_Screens (p : ParseLocals) :
  Screens (finish_parse p).1.2 = Screens (OutStory p).
Proof.
  unfold finish_parse.
  destruct (bFoundStorySection p); cbn [negb]; [| reflexivity].
  destruct (0 <? Num (PendingLines p));
    match goal with
    | |- context [StoryMetadata ?q !! TEXT "title"] =>
        destruct (StoryMetadata q !! TEXT "title"), (StoryMetadata q !! TEXT "ost")
    end;
    match goal with |- context [if ?b then _ else _] => destruct b end; reflexivity.
Qed.

Lemma ParseStoryFromString_hold (StoryText : FString) :
  screens_hold (Screens (ParseStoryFromString Atof StoryText MaxLineLength).1.2).
Proof.
  unfold ParseStoryFromString.
  destruct (Num (FStr.ParseIntoArrayLines StoryText) =? 0); [constructor |].
  rewrite finish_parse_Screens. apply parse_loop_hold. constructor.
Qed.

End TextInvariant.

Section LineTexts.

Import UShortStoryParser.

Lemma SplitTextByLength_bound (Text : FString) (MaxLen : Z) :
  1 <= MaxLen -> Forall (fun seg => FStr.Len seg <= MaxLen) (SplitTextByLength Text MaxLen).
Proof.
  intros HM. unfold SplitTextByLength. destruct (FStr.IsEmpty Text); [constructor |].
  destruct (Z.leb_spec MaxLen 0); [lia |].
  apply split_loop_bound; [exact HM | lia].
Qed.

(** X3. With a line limit of at least 1, no line of the story
    ParseStoryFromString returns, spacers included, has a text longer than
    the limit, whatever the input and whether parsing succeeds or not. *)
Theorem parsed_lines_within_limit (Atof : FString -> Q) (StoryText : FString)
  (MaxLineLength : Z) :
  1 <= MaxLineLength ->
  Forall
    (fun sc => Forall (fun l => FStr.Len (FStoryLine.Text l) <= MaxLineLength) (Lines sc))
    (Screens (ParseStoryFromString Atof StoryText MaxLineLength).1.2).
Proof.
  intros HM.
  apply (ParseStoryFromString_hold Atof MaxLineLength
           (fun T => FStr.Len T <= MaxLineLength)).
  - change (FStr.Len (TEXT " ")) with 1. exact HM.
  - intros T. apply SplitTextByLength_bound. exact HM.
Qed.

Lemma parsed_lines_within_limit_witness :
  1 <= 2
  /\ Forall (fun sc => Forall (fun l => FStr.Len (FStoryLine.Text l) <= 2) (Lines sc))
       (Screens (ParseStoryFromString atof_zero continuation_text 2).1.2).
Proof.
  assert (H : 1 <= 2) by lia.
  split; [exact H |].
  exact (parsed_lines_within_limit atof_zero continuation_text 2 H).
Defined.

Lemma TrimStart_starts_solid (s : FString) : starts_solid (FStr.TrimStart s).
Proof.
  induction s as [| c s IH]; [exact I |].
  cbn [FStr.TrimStart]. destruct (FStr.IsWhitespace c) eqn:E; [exact IH | exact E].
Qed.

Lemma TrimStart_snoc_solid (l : FString) (c : ascii) :
  FStr.IsWhitespace c = false -> exists l', FStr.TrimStart (l ++ [c]) = l' ++ [c].
Proof.
  intros Hc. induction l as [| a l IH].
  - exists []. cbn. rewrite Hc. reflexivity.
  - cbn [app FStr.TrimStart]. destruct (FStr.IsWhitespace a); [exact IH |].
    exists (a :: l). reflexivity.
Qed.

Lemma TrimEnd_solid_head (c : ascii) (r : FString) :
  FStr.IsWhitespace c = false -> exists r', FStr.TrimEnd (c :: r) = c :: r'.
Proof.
  intros Hc. unfold FStr.TrimEnd. cbn [rev].
  destruct (TrimStart_snoc_solid (rev r) c Hc) as [l' ->].
  exists (rev l'). rewrite rev_app_distr. reflexivity.
Qed.

Lemma TrimStartAndEnd_solid_head (c : ascii) (r : FString) :
  FStr.IsWhitespace c = false -> exists r', FStr.TrimStartAndEnd (c :: r) = c :: r'.
Proof.
  intros Hc. unfold FStr.TrimStartAndEnd. cbn [FStr.TrimStart]. rewrite Hc.
  apply TrimEnd_solid_head. exact Hc.
Qed.

Lemma TrimStartAndEnd_starts_solid (s : FString) : starts_solid (FStr.TrimStartAndEnd s).
Proof.
  unfold FStr.TrimStartAndEnd.
  pose proof (TrimStart_starts_solid s) as H.
  destruct (FStr.TrimStart s) as [| c r]; [exact I |].
  destruct (TrimEnd_solid_head c r H) as [r' ->]. exact H.
Qed.

Lemma split_tail_nonempty (R : FString) :
  starts_solid R -> Forall (fun seg => 0 < FStr.Len seg) (split_tail R).
Proof.
  intros H. unfold split_tail. destruct R as [| c r]; [constructor |].
  cbn [FStr.IsEmpty negb]. destruct (TrimStartAndEnd_solid_head c r H) as [r' ->].
  constructor; [| constructor]. unfold FStr.Len. cbn [length]. lia.
Qed.

(** A text that begins with a visible character is never cut at index 0. *)
Lemma split_loop_nonempty (MaxLen : Z) (fuel : nat) :
  1 <= MaxLen ->
  forall R : FString,
    starts_solid R -> Forall (fun seg => 0 < FStr.Len seg) (split_loop fuel MaxLen R).
Proof.
  intros HM. induction fuel as [| fuel IH]; intros R HR; cbn [split_loop];
    [apply split_tail_nonempty; exact HR |].
  destruct (Z.ltb_spec MaxLen (FStr.Len R)) as [HL | HL];
    [| apply split_tail_nonempty; exact HR].
  constructor; [| apply IH; apply TrimStart_starts_solid].
  destruct R as [| c r]; [change (FStr.Len []) with 0 in HL; lia |].
  cbn [starts_solid] in HR.
  set (k := if scan_space (c :: r) (Z.to_nat MaxLen) =? -1 then MaxLen
            else scan_space (c :: r) (Z.to_nat MaxLen)).
  assert (Hk : 1 <= k).
  { subst k. destruct (scan_space_spec (c :: r) (Z.to_nat MaxLen)) as [[H _] | (H & Hs & _)].
    - rewrite H. cbn. exact HM.
    - destruct (Z.eqb_spec (scan_space (c :: r) (Z.to_nat MaxLen)) (-1)); [lia |].
      destruct (Z.eq_dec (scan_space (c :: r) (Z.to_nat MaxLen)) 0) as [H0 | H0]; [| lia].
      rewrite H0 in Hs. cbn in Hs. inversion Hs; subst c.
      rewrite IsWhitespace_Space in HR. discriminate. }
  unfold FStr.Left. destruct (Z.to_nat k) as [| k'] eqn:Ek; [lia |].
  cbn [take]. destruct (TrimStartAndEnd_solid_head c (take k' r) HR) as [r' ->].
  unfold FStr.Len. cbn [length]. lia.
Qed.

Lemma SplitTextByLength_nonempty (T : FString) (MaxLen : Z) :
  Forall (fun seg => 0 < FStr.Len seg)
    (SplitTextByLength (FStr.TrimStartAndEnd T) MaxLen).
Proof.
  unfold SplitTextByLength.
  destruct (FStr.TrimStartAndEnd T) as [| c r] eqn:E; [constructor |].
  cbn [FStr.IsEmpty].
  destruct (Z.leb_spec MaxLen 0).
  - constructor; [| constructor]. unfold FStr.Len. cbn [length]. lia.
  - apply split_loop_nonempty; [lia |].
    rewrite <- E. apply TrimStartAndEnd_starts_solid.
Qed.

(** X4. No line of the story ParseStoryFromString returns has an empty
    text, whatever the input and the line limit: a text is trimmed before it
    is wrapped, so no segment is cut at index 0, and a spacer holds one
    blank. *)
Theorem parsed_lines_not_empty (Atof : FString -> Q) (StoryText : FString)
  (MaxLineLength : Z) :
  Forall
    (fun sc => Forall (fun l => 0 < FStr.Len (FStoryLine.Text l)) (Lines sc))
    (Screens (ParseStoryFromString Atof StoryText MaxLineLength).1.2).
Proof.
  apply (ParseStoryFromString_hold Atof MaxLineLength (fun T => 0 < FStr.Len T)).
  - reflexivity.
  - intros T. apply SplitTextByLength_nonempty.
Qed.

End LineTexts.

Section Verdict.

Import UShortStoryParser.

Variable Atof : FString -> Q.

Lemma update_screen_found (idx : nat) (f : FStoryScreen -> FStoryScreen) (p : ParseLocals) :
  bFoundStorySection (update_screen idx f p) = bFoundStorySection p.
Proof. reflexivity. Qed.

Lemma parse_screen_content_found (M LineNumber : Z) (Line : FString) (idx : nat)
  (p : ParseLocals) :
  bFoundStorySection (parse_screen_content Atof M LineNumber Line idx p)
    = bFoundStorySection p.
Proof.
  unfold parse_screen_content.
  repeat
    (match goal with
     | |- context [if ?b then _ else _] => destruct b
     | |- context [match ParseTimedEvent ?a ?b ?c with _ => _ end] =>
         destruct (ParseTimedEvent a b c)
     | |- context [match ParseLineAttributes ?a ?b ?c with _ => _ end] =>
         destruct (ParseLineAttributes a b c) as [[|] ?]
     | |- context [(ParseMetadataLine ?a ?b).1] =>
         destruct (ParseMetadataLine a b) as [[|] ?]; cbn [fst snd]
     end); reflexivity.
Qed.

Lemma parse_line_found (M i : Z) (RawLine : FString) (p : ParseLocals) :
  bFoundStorySection (parse_line Atof M i RawLine p)
    = (bFoundStorySection p || declares_story RawLine)%bool.
Proof.
  unfold parse_line, declares_story.
  destruct (FStr.IsEmpty (CleanLine RawLine)) eqn:E.
  - destruct (CleanLine RawLine); [| discriminate].
    change (IsSectionHeader []) with (@None FString). rewrite orb_false_r. reflexivity.
  - destruct (IsSectionHeader (CleanLine RawLine)) as [SectionName |].
    + destruct (FStr.EqualsIgnoreCase SectionName (TEXT "STORY")).
      * cbn. rewrite orb_true_r. reflexivity.
      * rewrite orb_false_r.
        destruct (FStr.StartsWith SectionName (TEXT "SCREEN"));
          destruct (0 <? Num (PendingLines p)); reflexivity.
    + rewrite orb_false_r. destruct (CurrentState p).
      * reflexivity.
      * destruct (ParseMetadataLine _ _) as [[|] ?]; reflexivity.
      * destruct (CurrentScreen p); [apply parse_screen_content_found | reflexivity].
Qed.

Lemma parse_loop_found (M : Z) (Ls : list FString) :
  forall (i : Z) (p : ParseLocals),
    bFoundStorySection (parse_loop Atof M Ls i p)
      = (bFoundStorySection p || existsb declares_story Ls)%bool.
Proof.
  induction Ls as [| L Ls IH]; intros i p; cbn [parse_loop existsb].
  - rewrite orb_false_r. reflexivity.
  - rewrite IH, parse_line_found, orb_assoc. reflexivity.
Qed.

Lemma finish_parse_verdict (p : ParseLocals) :
  (finish_parse p).1.1 = (bFoundStorySection p && IsValid (finish_parse p).1.2)%bool
  /\ ((finish_parse p).1.1 || (0 <? Num (finish_parse p).2))%bool = true.
Proof.
  unfold finish_parse. destruct (bFoundStorySection p); cbn [negb andb].
  - match goal with |- context [IsValid ?S] => set (Story := S) end.
    destruct (IsValid Story) eqn:EV; cbn [negb fst snd orb]; rewrite ?EV;
      [split; reflexivity |].
    split; [reflexivity |].
    unfold IsValid in EV. apply andb_false_iff in EV.
    unfold Num. destruct EV as [EV | EV].
    + apply negb_false_iff in EV. rewrite EV.
      destruct (Z.of_nat (length (Screens Story)) =? 0);
        rewrite ?length_app; cbn [length]; apply Z.ltb_lt; lia.
    + apply Z.ltb_ge in EV.
      destruct (Z.eqb_spec (Z.of_nat (length (Screens Story))) 0) as [E0 | E0]; [| lia].
      destruct (FStr.IsEmpty (Title Story));
        rewrite ?length_app; cbn [length]; apply Z.ltb_lt; lia.
  - cbn [fst snd orb]. split; [reflexivity |].
    unfold Num. rewrite length_app. cbn [length]. apply Z.ltb_lt. lia.
Qed.

(** X5. ParseStoryFromString reports success exactly when some line of the
    text is a [STORY] header and the story it returns is valid (a title
    that is not empty and at least one screen); and whenever it reports
    failure its error list is not empty. *)
Theorem ParseStoryFromString_verdict (StoryText : FString) (MaxLineLength : Z) :
  (ParseStoryFromString Atof StoryText MaxLineLength).1.1
    = (existsb declares_story (FStr.ParseIntoArrayLines StoryText)
       && IsValid (ParseStoryFromString Atof StoryText MaxLineLength).1.2)%bool
  /\ ((ParseStoryFromString Atof StoryText MaxLineLength).1.1
      || (0 <? Num (ParseStoryFromString Atof StoryText MaxLineLength).2))%bool = true.
Proof.
  unfold ParseStoryFromString.
  destruct (FStr.ParseIntoArrayLines StoryText) as [| L Ls] eqn:E.
  - cbn. split; reflexivity.
  - change (Num (L :: Ls) =? 0) with false. cbv iota.
    pose proof (finish_parse_verdict
                  (parse_loop Atof MaxLineLength (L :: Ls) 0 initial_locals)) as [H1 H2].
    rewrite parse_loop_found in H1. split; [exact H1 | exact H2].
Qed.

Lemma finish_parse_not_found (p : ParseLocals) :
  bFoundStorySection p = false ->
  (finish_parse p).1.1 = false
  /\ last (finish_parse p).2 = Some (TEXT "Missing [STORY] section").
Proof.
  intros H. unfold finish_parse. rewrite H. cbn [negb fst snd].
  split; [reflexivity | apply last_snoc].
Qed.

End Verdict.

Section MissingStory.

Import UShortStoryParser.

(** X6. When no line of a text that holds some line is a [STORY] header,
    ParseStoryFromString fails and the last diagnostic it returns is
    "Missing [STORY] section", however many screens it has parsed. *)
Theorem ParseStoryFromString_missing_story (Atof : FString -> Q) (StoryText : FString)
  (MaxLineLength : Z) :
  FStr.ParseIntoArrayLines StoryText <> [] ->
  existsb declares_story (FStr.ParseIntoArrayLines StoryText) = false ->
  (ParseStoryFromString Atof StoryText MaxLineLength).1.1 = false
  /\ last (ParseStoryFromString Atof StoryText MaxLineLength).2
     = Some (TEXT "Missing [STORY] section").
Proof.
  intros Hne Hno. unfold ParseStoryFromString.
  destruct (FStr.ParseIntoArrayLines StoryText) as [| L Ls]; [congruence |].
  change (Num (L :: Ls) =? 0) with false. cbv iota.
  apply finish_parse_not_found. rewrite parse_loop_found, Hno. reflexivity.
Qed.

Lemma ParseStoryFromString_missing_story_witness :
  FStr.ParseIntoArrayLines headless_text <> []
  /\ existsb declares_story (FStr.ParseIntoArrayLines headless_text) = false
  /\ (ParseStoryFromString atof_zero headless_text 80).1.1 = false
  /\ last (ParseStoryFromString atof_zero headless_text 80).2
     = Some (TEXT "Missing [STORY] section")
  /\ length (Screens (ParseStoryFromString atof_zero headless_text 80).1.2) = 1%nat.
Proof.
  assert (H1 : FStr.ParseIntoArrayLines headless_text <> []) by (vm_compute; discriminate).
  assert (H2 : existsb declares_story (FStr.ParseIntoArrayLines headless_text) = false)
    by (vm_compute; reflexivity).
  split; [exact H1 |]. split; [exact H2 |].
  pose proof (ParseStoryFromString_missing_story atof_zero headless_text 80 H1 H2) as [Ha Hb].
  split; [exact Ha |]. split; [exact Hb |]. vm_compute. reflexivity.
Defined.

End MissingStory.

(** * Further properties of the playback subsystem *)

Section CharacterIndex.

Import UShortStorySubsystem.
Local Open Scope Q_scope.

Lemma char_index_loop_range (Timing : FStoryAnimationTiming) (Time : Q) (TotalChars : Z)
  (rest : FString) :
  forall (i : Z) (CurrentTime : Q),
    (i + FStr.Len rest = TotalChars)%Z ->
    (i <= char_index_loop Timing Time rest i CurrentTime TotalChars <= TotalChars)%Z.
Proof.
  induction rest as [| c rest IH]; intros i cur Hi.
  - cbn. unfold FStr.Len in Hi. cbn [length] in Hi. lia.
  - cbn [char_index_loop]. unfold FStr.Len in *. cbn [length] in Hi.
    destruct (Qlt_bool Time _); [lia |].
    destruct (Qlt_bool Time _); [lia |].
    match goal with |- context [char_index_loop _ _ _ _ ?x _] =>
      specialize (IH (i + 1)%Z x ltac:(unfold FStr.Len; lia))
    end.
    lia.
Qed.

Lemma GetCharacterIndexAtTime_range_aux (s : t) (Text : FString) (Speed : EStorySpeed.t)
  (Time : Q) :
  (0 <= GetCharacterIndexAtTime s Text Speed Time <= FStr.Len Text)%Z.
Proof.
  unfold GetCharacterIndexAtTime. destruct (Qle_bool Time 0).
  - unfold FStr.Len. lia.
  - apply char_index_loop_range. lia.
Qed.

(** X7. For every text, speed, timing table and time, the index
    GetCharacterIndexAtTime returns lies between 0 and the length of the
    text. *)
Theorem GetCharacterIndexAtTime_range (s : t) (Text : FString) (Speed : EStorySpeed.t)
  (Time : Q) :
  (0 <= GetCharacterIndexAtTime s Text Speed Time <= FStr.Len Text)%Z.
Proof.
  unfold GetCharacterIndexAtTime. destruct (Qle_bool Time 0).
  - unfold FStr.Len. lia.
  - apply char_index_loop_range. lia.
Qed.

Lemma char_index_loop_mono (Timing : FStoryAnimationTiming) (t1 t2 : Q) (TotalChars : Z)
  (rest : FString) :
  t1 <= t2 ->
  forall (i : Z) (CurrentTime : Q),
    (i + FStr.Len rest = TotalChars)%Z ->
    (char_index_loop Timing t1 rest i CurrentTime TotalChars
     <= char_index_loop Timing t2 rest i CurrentTime TotalChars)%Z.
Proof.
  intros Ht. induction rest as [| c rest IH]; intros i cur Hi; [cbn; lia |].
  pose proof (char_index_loop_range Timing t2 TotalChars (c :: rest) i cur Hi) as Hr.
  cbn [char_index_loop] in *. unfold FStr.Len in *. cbn [length] in Hi.
  fold (extra_time Timing c) in *.
  destruct (Qlt_bool t1 (cur + PerLetter Timing)) eqn:E1; [lia |].
  apply Qlt_bool_false_iff in E1.
  assert (E2 : Qlt_bool t2 (cur + PerLetter Timing) = false)
    by (apply Qlt_bool_false_iff; lra).
  rewrite E2 in *.
  destruct (Qlt_bool t1 (cur + PerLetter Timing + extra_time Timing c)) eqn:E3.
  - destruct (Qlt_bool t2 (cur + PerLetter Timing + extra_time Timing c)); [lia |].
    assert (Hi' : (i + 1 + FStr.Len rest = TotalChars)%Z) by (unfold FStr.Len; lia).
    pose proof (char_index_loop_range Timing t2 TotalChars rest (i + 1)%Z
                  (cur + PerLetter Timing + extra_time Timing c) Hi').
    lia.
  - apply Qlt_bool_false_iff in E3.
    assert (E4 : Qlt_bool t2 (cur + PerLetter Timing + extra_time Timing c) = false)
      by (apply Qlt_bool_false_iff; lra).
    rewrite E4. apply IH. unfold FStr.Len. lia.
Qed.

(** X8. The revealed-character index never goes back as time passes: for
    every text, speed and timing table, t1 <= t2 gives
    GetCharacterIndexAtTime(t1) <= GetCharacterIndexAtTime(t2). *)
Theorem GetCharacterIndexAtTime_monotone (s : t) (Text : FString) (Speed : EStorySpeed.t)
  (t1 t2 : Q) :
  t1 <= t2 ->
  (GetCharacterIndexAtTime s Text Speed t1 <= GetCharacterIndexAtTime s Text Speed t2)%Z.
Proof.
  intros Ht.
  pose proof (GetCharacterIndexAtTime_range_aux s Text Speed t2) as Hr.
  unfold GetCharacterIndexAtTime in *.
  destruct (Qle_bool t1 0) eqn:E1; [lia |].
  destruct (Qle_bool t2 0) eqn:E2.
  - apply Qle_bool_iff in E2.
    assert (Qle_bool t1 0 = true) by (apply Qle_bool_iff; lra). congruence.
  - apply char_index_loop_mono; [exact Ht | lia].
Qed.

Lemma GetCharacterIndexAtTime_monotone_witness :
  0.05 <= 0.5
  /\ (GetCharacterIndexAtTime initial (TEXT "Hi, you.") EStorySpeed.Standard 0.05
      <= GetCharacterIndexAtTime initial (TEXT "Hi, you.") EStorySpeed.Standard 0.5)%Z.
Proof.
  assert (H : 0.05 <= 0.5) by lra.
  split; [exact H |].
  exact (GetCharacterIndexAtTime_monotone initial (TEXT "Hi, you.") EStorySpeed.Standard
           0.05 0.5 H).
Defined.



End CharacterIndex.

Section Cursor.

Import UShortStorySubsystem.

Lemma at_index_in_range {A : Type} (l : list A) (i : Z) :
  0 <= i < Num l -> exists x, at_index l i = Some x.
Proof.
  intros H. unfold at_index, Num in *. destruct (Z.leb_spec 0 i); [| lia].
  apply lookup_lt_is_Some. lia.
Qed.

Lemma length_set_index {A : Type} (l : list A) (i : Z) (v : A) :
  length (set_index l i v) = length l.
Proof. unfold set_index. destruct (IsValidIndex l i); [apply length_insert | reflexivity]. Qed.

Lemma block_end_range (Anim : EStoryLineAnimation.t) (rest : list FStoryLine.t) :
  forall i b : Z, b < i -> b <= block_end Anim rest i b < i + Num rest.
Proof.
  induction rest as [| L rest IH]; intros i b Hb; cbn [block_end].
  - unfold Num. cbn [length]. lia.
  - unfold Num in *. cbn [length].
    destruct (EStoryLineAnimation.eqb _ _).
    + specialize (IH (i + 1) i ltac:(lia)). lia.
    + lia.
Qed.

Lemma length_block_timing (s : t) (Anim : EStoryLineAnimation.t) (run : list FStoryLine.t) :
  forall (i : Z) (Starts : list Q) (d m : Q),
    length (block_timing s Anim run i Starts d m).1 = length Starts.
Proof.
  induction run as [| L run IH]; intros i Starts d m; cbn [block_timing]; [reflexivity |].
  rewrite IH. apply length_set_index.
Qed.

(** What StartLine does to the cursors when it is given a line of the
    current screen. *)
Lemma StartLine_cursor (LineIndex : Z) (s : t) (sc : FStoryScreen) :
  at_index (Screens (CurrentStory s)) (CurrentScreenIndex s) = Some sc ->
  length (LineStartTimes s) = length (Lines sc) ->
  0 <= CurrentLineIndex s < Num (Lines sc) ->
  0 <= LineIndex < Num (Lines sc) ->
  bIsPlaying (StartLine LineIndex s) = bIsPlaying s
  /\ CurrentStory (StartLine LineIndex s) = CurrentStory s
  /\ CurrentScreenIndex (StartLine LineIndex s) = CurrentScreenIndex s
  /\ length (LineStartTimes (StartLine LineIndex s)) = length (Lines sc)
  /\ 0 <= CurrentLineIndex (StartLine LineIndex s) < Num (Lines sc)
  /\ CurrentState (StartLine LineIndex s) = EStoryPlaybackState.PlayingLine.
Proof.
  intros Hs Hl Hc Hi. unfold StartLine.
  pose proof (at_index_Some_bounds _ _ _ Hs) as Bs.
  destruct (Z.leb_spec (Num (Screens (CurrentStory s))) (CurrentScreenIndex s)); [lia |].
  rewrite Hs.
  destruct (Z.leb_spec (Num (Lines sc)) LineIndex); [lia |].
  destruct (at_index_in_range (Lines sc) LineIndex Hi) as [Line HL]. rewrite HL.
  destruct (match FStoryLine.AnimationType Line with
            | EStoryLineAnimation.Paragraph | EStoryLineAnimation.TopDown => true
            | _ => false
            end).
  - destruct (block_timing _ _ _ _ _ _ _) as [Starts MaxFinishTime] eqn:EB.
    cbn. repeat split; try lia.
    + pose proof (length_block_timing s (FStoryLine.AnimationType Line)
                    (take (Z.to_nat
                             (block_end (FStoryLine.AnimationType Line)
                                (drop (Z.to_nat (LineIndex + 1)) (Lines sc))
                                (LineIndex + 1) LineIndex - LineIndex + 1))
                       (drop (Z.to_nat LineIndex) (Lines sc)))
                    LineIndex (LineStartTimes s) 0%Q 0%Q) as HB.
      rewrite EB in HB. cbn [fst] in HB. lia.
    + pose proof (block_end_range (FStoryLine.AnimationType Line)
                    (drop (Z.to_nat (LineIndex + 1)) (Lines sc)) (LineIndex + 1) LineIndex
                    ltac:(lia)) as HB.
      lia.
    + pose proof (block_end_range (FStoryLine.AnimationType Line)
                    (drop (Z.to_nat (LineIndex + 1)) (Lines sc)) (LineIndex + 1) LineIndex
                    ltac:(lia)) as HB.
      unfold Num in *. rewrite length_drop in HB. lia.
  - cbn. rewrite length_set_index. repeat split; lia.
Qed.

Lemma StartLine_keeps_cursor (LineIndex : Z) (s : t) (sc : FStoryScreen) :
  at_index (Screens (CurrentStory s)) (CurrentScreenIndex s) = Some sc ->
  length (LineStartTimes s) = length (Lines sc) ->
  0 <= CurrentLineIndex s < Num (Lines sc) ->
  0 <= LineIndex < Num (Lines sc) ->
  cursor_in_story (StartLine LineIndex s).
Proof.
  intros Hs Hl Hc Hi _.
  destruct (StartLine_cursor LineIndex s sc Hs Hl Hc Hi) as (H1 & H2 & H3 & H4 & H5 & H6).
  exists sc. rewrite H2, H3. split; [exact Hs |]. split; [exact H4 |]. right. lia.
Qed.

Lemma StartLine_bIsPlaying (LineIndex : Z) (s : t) :
  bIsPlaying (StartLine LineIndex s) = bIsPlaying s.
Proof.
  unfold StartLine.
  destruct (_ <=? _); [reflexivity |].
  destruct (at_index _ _) as [sc |]; [| reflexivity].
  destruct (_ <=? _); [reflexivity |].
  destruct (at_index _ _) as [Line |]; [| reflexivity].
  destruct (match FStoryLine.AnimationType Line with
            | EStoryLineAnimation.Paragraph | EStoryLineAnimation.TopDown => true
            | _ => false
            end); [| reflexivity].
  destruct (block_timing _ _ _ _ _ _ _). reflexivity.
Qed.

Lemma AdvanceToNextScreen_keeps_cursor (s : t) :
  (bIsPlaying s = true -> 0 <= CurrentScreenIndex s) ->
  cursor_in_story (AdvanceToNextScreen s).
Proof.
  intros H0. unfold AdvanceToNextScreen. cbn.
  destruct (Z.ltb_spec (CurrentScreenIndex s + 1) (Num (Screens (CurrentStory s)))).
  - destruct (at_index (Screens (CurrentStory s)) (CurrentScreenIndex s + 1)) as [sc |] eqn:E.
    + intros _. exists sc. cbn. split; [exact E |]. split; [apply length_replicate |].
      left. split; reflexivity.
    + intros Hp. cbn in Hp. specialize (H0 Hp).
      destruct (at_index_in_range (Screens (CurrentStory s)) (CurrentScreenIndex s + 1))
        as [x Hx]; [lia | congruence].
  - intros Hp. destruct (TickerHandle s); cbn in Hp; discriminate.
Qed.

Lemma cursor_in_story_screen (s : t) :
  cursor_in_story s -> bIsPlaying s = true -> 0 <= CurrentScreenIndex s.
Proof.
  intros Hinv Hp. destruct (Hinv Hp) as (sc & Ha & _).
  pose proof (at_index_Some_bounds _ _ _ Ha). lia.
Qed.

(** Calls that change neither the story, nor a cursor, nor the start-time
    array, nor the playback state. *)
Lemma cursor_in_story_same (s s' : t) :
  bIsPlaying s' = bIsPlaying s -> CurrentStory s' = CurrentStory s ->
  CurrentScreenIndex s' = CurrentScreenIndex s ->
  CurrentLineIndex s' = CurrentLineIndex s ->
  LineStartTimes s' = LineStartTimes s -> CurrentState s' = CurrentState s ->
  cursor_in_story s -> cursor_in_story s'.
Proof.
  intros H1 H2 H3 H4 H5 H6 Hinv Hp. rewrite H1 in Hp.
  destruct (Hinv Hp) as (sc & Ha & Hb & Hc). exists sc.
  rewrite H2, H3, H4, H5, H6. auto.
Qed.

Lemma ProcessTimedEvents_same (s : t) :
  bIsPlaying (ProcessTimedEvents s) = bIsPlaying s
  /\ CurrentStory (ProcessTimedEvents s) = CurrentStory s
  /\ CurrentScreenIndex (ProcessTimedEvents s) = CurrentScreenIndex s
  /\ CurrentLineIndex (ProcessTimedEvents s) = CurrentLineIndex s
  /\ LineStartTimes (ProcessTimedEvents s) = LineStartTimes s
  /\ CurrentState (ProcessTimedEvents s) = CurrentState s.
Proof.
  unfold ProcessTimedEvents.
  destruct (_ <=? _); [repeat split |].
  destruct (at_index _ _); repeat split.
Qed.

Lemma StartPause_keeps_cursor (s : t) :
  CurrentState s <> EStoryPlaybackState.TransitioningScreen ->
  cursor_in_story s -> cursor_in_story (StartPause s).
Proof.
  intros Hst Hinv Hp. cbn in Hp. destruct (Hinv Hp) as (sc & Ha & Hb & Hc).
  exists sc. cbn. split; [exact Ha |]. split; [exact Hb |].
  right. destruct Hc as [[Hc _] | Hc]; [congruence | exact Hc].
Qed.

Lemma AdvanceToNextLineOrScreen_keeps_cursor (s : t) :
  CurrentState s <> EStoryPlaybackState.TransitioningScreen ->
  cursor_in_story s -> cursor_in_story (AdvanceToNextLineOrScreen s).
Proof.
  intros Hst Hinv. unfold AdvanceToNextLineOrScreen.
  destruct (Z.leb_spec (Num (Screens (CurrentStory s))) (CurrentScreenIndex s));
    [exact Hinv |].
  destruct (at_index (Screens (CurrentStory s)) (CurrentScreenIndex s)) as [sc |] eqn:E;
    [| exact Hinv].
  cbn [CurrentLineIndex set_CurrentLineIndex].
  destruct (bIsPlaying s) eqn:Hp.
  - destruct (Hinv Hp) as (sc' & Ha & Hb & Hc).
    assert (sc' = sc) as -> by congruence.
    destruct Hc as [[Hc _] | Hc]; [congruence |].
    destruct (Z.ltb_spec (CurrentLineIndex s + 1) (Num (Lines sc))).
    + apply (StartLine_keeps_cursor _ _ sc); cbn; try assumption; lia.
    + apply AdvanceToNextScreen_keeps_cursor. cbn. intros _.
      pose proof (at_index_Some_bounds _ _ _ Ha). lia.
  - destruct (_ <? _).
    + intros Hp'. rewrite StartLine_bIsPlaying in Hp'. cbn in Hp'. congruence.
    + apply AdvanceToNextScreen_keeps_cursor. cbn. congruence.
Qed.

Lemma OnScreenTransitionComplete_keeps_cursor (s : t) :
  CurrentState s = EStoryPlaybackState.TransitioningScreen ->
  cursor_in_story s -> cursor_in_story (OnScreenTransitionComplete s).
Proof.
  intros Hst Hinv. unfold OnScreenTransitionComplete.
  destruct (Z.leb_spec (Num (Screens (CurrentStory s))) (CurrentScreenIndex s));
    [exact Hinv |].
  destruct (at_index (Screens (CurrentStory s)) (CurrentScreenIndex s)) as [sc |] eqn:E;
    [| exact Hinv].
  destruct (bIsPlaying s) eqn:Hp.
  - destruct (Hinv Hp) as (sc' & Ha & Hb & Hc).
    assert (sc' = sc) as -> by congruence.
    destruct (Z.ltb_spec 0 (Num (Lines sc))).
    + apply (StartLine_keeps_cursor _ _ sc); try assumption; [| lia].
      destruct Hc as [[_ Hc] | Hc]; lia.
    + apply AdvanceToNextScreen_keeps_cursor. intros _.
      pose proof (at_index_Some_bounds _ _ _ Ha). lia.
  - destruct (_ <? _).
    + intros Hp'. rewrite StartLine_bIsPlaying in Hp'. congruence.
    + apply AdvanceToNextScreen_keeps_cursor. congruence.
Qed.

Lemma Tick_keeps_cursor (DeltaTime : Q) (s : t) :
  cursor_in_story s -> cursor_in_story (Tick DeltaTime s).
Proof.
  intros Hinv. unfold Tick.
  destruct (negb (bIsPlaying s) || bIsPaused s)%bool; [exact Hinv |].
  set (s1 := ProcessTimedEvents (set_ScreenElapsedTime (ScreenElapsedTime s + DeltaTime)%Q s)).
  assert (H1 : cursor_in_story s1).
  { destruct (ProcessTimedEvents_same
                (set_ScreenElapsedTime (ScreenElapsedTime s + DeltaTime)%Q s))
      as (A & B & C & D & E & F).
    revert Hinv. apply cursor_in_story_same; assumption. }
  clearbody s1. clear Hinv s.
  destruct (CurrentState s1) eqn:Hst; try exact H1.
  - match goal with |- context [if ?b then _ else _] => destruct b end.
    + apply StartPause_keeps_cursor; [cbn; congruence |].
      revert H1. apply cursor_in_story_same; reflexivity.
    + revert H1. apply cursor_in_story_same; reflexivity.
  - match goal with |- context [if ?b then _ else _] => destruct b end.
    + apply AdvanceToNextLineOrScreen_keeps_cursor; [cbn; congruence |].
      revert H1. apply cursor_in_story_same; reflexivity.
    + revert H1. apply cursor_in_story_same; reflexivity.
  - match goal with |- context [if ?b then _ else _] => destruct b end.
    + apply OnScreenTransitionComplete_keeps_cursor; [cbn; congruence |].
      revert H1. apply cursor_in_story_same; reflexivity.
    + revert H1. apply cursor_in_story_same; reflexivity.
Qed.

Lemma StartStory_keeps_cursor (Loaded : option FShortStory) (s : t) :
  cursor_in_story s -> cursor_in_story (StartStory Loaded s).2.
Proof.
  intros Hinv. unfold StartStory.
  destruct Loaded as [LoadedStory |]; [| exact Hinv].
  destruct (Screens LoadedStory) as [| Screen0 rest] eqn:ES; [exact Hinv |].
  destruct (Z.eqb_spec (Num (Lines Screen0)) 0) as [E0 | E0]; [exact Hinv |].
  cbn [snd].
  match goal with |- cursor_in_story (StartLine 0 ?x) => set (s1 := x) end.
  assert (H1 : CurrentStory s1 = LoadedStory /\ CurrentScreenIndex s1 = 0
               /\ CurrentLineIndex s1 = 0
               /\ LineStartTimes s1 = replicate (length (Lines Screen0)) (-1)%Q).
  { subst s1. cbn. destruct (TickerHandle s); cbn; repeat split. }
  destruct H1 as (A & B & C & D). clearbody s1.
  apply (StartLine_keeps_cursor _ _ Screen0).
  - rewrite A, B, ES. reflexivity.
  - rewrite D. apply length_replicate.
  - rewrite C. unfold Num in *. lia.
  - unfold Num in *. lia.
Qed.

Lemma reset_to_screen_keeps_cursor (s : t) (ScreenIndex : Z) :
  0 <= ScreenIndex < Num (Screens (CurrentStory s)) ->
  cursor_in_story
    (let s := set_CurrentScreenIndex ScreenIndex s in
     match at_index (Screens (CurrentStory s)) (CurrentScreenIndex s) with
     | None => s
     | Some TargetScreen =>
         let s := set_CurrentLineIndex 0 s in
         let s := set_ScreenElapsedTime 0%Q s in
         let s := set_LineElapsedTime 0%Q s in
         let s := set_PauseElapsedTime 0%Q s in
         let s := set_ProcessedTimedEventIndices ∅ s in
         let s := set_LineStartTimes (replicate (length (Lines TargetScreen)) (-1)%Q) s in
         let s := set_CurrentState EStoryPlaybackState.TransitioningScreen s in
         set_TransitionElapsedTime 0%Q s
     end).
Proof.
  intros Hi. cbn.
  destruct (at_index_in_range (Screens (CurrentStory s)) ScreenIndex Hi) as [sc Hsc].
  rewrite Hsc. intros _. exists sc. cbn.
  split; [exact Hsc |]. split; [apply length_replicate |]. left. split; reflexivity.
Qed.

Lemma call_keeps_cursor (c : PlayerCall) (s : t) :
  cursor_in_story s -> cursor_in_story (call c s).
Proof.
  intros Hinv. destruct c as [Loaded | | bPause | DeltaTime | | | ScreenIndex |]; cbn [call].
  - apply StartStory_keeps_cursor. exact Hinv.
  - unfold StopStory. destruct (bIsPlaying s) eqn:Hp; cbn [negb]; [| exact Hinv].
    intros Hp'. cbn in Hp'. destruct (TickerHandle s); cbn in Hp'; discriminate.
  - unfold SetPaused. destruct (negb (bIsPlaying s)); [exact Hinv |].
    revert Hinv. apply cursor_in_story_same; reflexivity.
  - apply Tick_keeps_cursor. exact Hinv.
  - unfold DebugSkipToNextScreen. destruct (bIsPlaying s) eqn:Hp; cbn [negb]; [| exact Hinv].
    destruct (_ <=? _); [exact Hinv |].
    apply AdvanceToNextScreen_keeps_cursor. intros _.
    apply cursor_in_story_screen; assumption.
  - unfold DebugSkipToPreviousScreen.
    destruct (bIsPlaying s) eqn:Hp; cbn [negb]; [| exact Hinv].
    destruct (Z.leb_spec (CurrentScreenIndex s) 0); [exact Hinv |].
    apply (reset_to_screen_keeps_cursor s (CurrentScreenIndex s - 1)).
    destruct (Hinv Hp) as (sc & Ha & _).
    pose proof (at_index_Some_bounds _ _ _ Ha). lia.
  - unfold DebugJumpToScreen. destruct (bIsPlaying s) eqn:Hp; cbn [negb]; [| exact Hinv].
    destruct (Z.ltb_spec ScreenIndex 0); cbn [orb]; [exact Hinv |].
    destruct (Z.leb_spec (Num (Screens (CurrentStory s))) ScreenIndex); [exact Hinv |].
    apply (reset_to_screen_keeps_cursor s ScreenIndex). lia.
  - unfold DebugSkipCurrentLine. destruct (bIsPlaying s) eqn:Hp; cbn [negb]; [| exact Hinv].
    destruct (CurrentState s) eqn:Hst; try exact Hinv.
    apply StartPause_keeps_cursor; [cbn; congruence |].
    revert Hinv. apply cursor_in_story_same; reflexivity.
Qed.

Lemma calls_keep_cursor (cs : list PlayerCall) :
  forall s : t, cursor_in_story s -> cursor_in_story (calls cs s).
Proof.
  induction cs as [| c cs IH]; intros s Hinv; [exact Hinv |].
  cbn [calls fold_left]. apply IH. apply call_keeps_cursor. exact Hinv.
Qed.

(** X10. Playback never leaves the story. Start from a subsystem that is
    not playing and make any sequence of calls of StartStory, StopStory,
    SetPaused, Tick and the debug functions: whenever a story is then
    playing, the screen cursor denotes a screen of it, the start-time array
    has one entry for each line of that screen, and the line cursor denotes
    a line of that screen (or is 0 while the screen is coming in). *)
Theorem playback_cursor_in_story (s : t) (cs : list PlayerCall) :
  bIsPlaying s = false -> cursor_in_story (calls cs s).
Proof.
  intros Hp. apply calls_keep_cursor. intros Hp'. congruence.
Qed.

Lemma playback_cursor_in_story_witness :
  bIsPlaying initial = false
  /\ cursor_in_story
       (calls [CallStartStory (Some topdown_story); CallTick 3%Q; CallTick 3%Q;
               CallDebugSkipToNextScreen; CallStartStory (Some three_screen_story);
               CallTick 1%Q; CallTick 1%Q; CallDebugJumpToScreen 2] initial).
Proof.
  assert (H : bIsPlaying initial = false) by reflexivity.
  split; [exact H |].
  exact (playback_cursor_in_story initial _ H).
Defined.

End Cursor.

Section TimedEvents.

Import UShortStorySubsystem.
Local Open Scope Q_scope.




End TimedEvents.

Section Blocks.

Import UShortStorySubsystem.
Local Open Scope Q_scope.

Lemma EStoryLineAnimation_eqb_eq (a b : EStoryLineAnimation.t) :
  EStoryLineAnimation.eqb a b = true <-> a = b.
Proof. destruct a, b; cbn; split; intros H; try reflexivity; discriminate. Qed.

(** The scan stops at the first line of another animation. *)
Lemma block_end_spec (Anim : EStoryLineAnimation.t) (rest : list FStoryLine.t) :
  forall i : Z,
    (forall j, (i <= j <= block_end Anim rest i (i - 1))%Z ->
               exists L, rest !! Z.to_nat (j - i) = Some L
                         /\ FStoryLine.AnimationType L = Anim)
    /\ (forall L, rest !! Z.to_nat (block_end Anim rest i (i - 1) + 1 - i) = Some L ->
                  FStoryLine.AnimationType L <> Anim).
Proof.
  induction rest as [| L0 rest IH]; intros i; cbn [block_end].
  - split; [intros j Hj; lia | intros L HL; discriminate].
  - destruct (EStoryLineAnimation.eqb (FStoryLine.AnimationType L0) Anim) eqn:E.
    + apply EStoryLineAnimation_eqb_eq in E.
      destruct (IH (i + 1)%Z) as [IH1 IH2].
      replace (i + 1 - 1)%Z with i in IH1, IH2 by lia.
      pose proof (block_end_range Anim rest (i + 1) i ltac:(lia)) as Hr.
      split.
      * intros j Hj. destruct (Z.eq_dec j i) as [-> | Hne].
        -- exists L0. replace (i - i)%Z with 0%Z by lia. split; [reflexivity | exact E].
        -- destruct (IH1 j ltac:(lia)) as (L & HL & HA). exists L. split; [| exact HA].
           replace (Z.to_nat (j - i)) with (S (Z.to_nat (j - (i + 1)))) by lia. exact HL.
      * intros L HL. apply (IH2 L).
        replace (Z.to_nat (block_end Anim rest (i + 1) i + 1 - i))
          with (S (Z.to_nat (block_end Anim rest (i + 1) i + 1 - (i + 1))))
          in HL by lia.
        exact HL.
    + split; [intros j Hj; lia |].
      intros L HL. replace (i - 1 + 1 - i)%Z with 0%Z in HL by lia.
      cbn in HL. inversion HL; subst L. intros HA.
      apply EStoryLineAnimation_eqb_eq in HA. congruence.
Qed.

Lemma StartLine_block_cursor (LineIndex : Z) (s : t) (CurrentScreen : FStoryScreen)
  (Line : FStoryLine.t) :
  at_index (Screens (CurrentStory s)) (CurrentScreenIndex s) = Some CurrentScreen ->
  at_index (Lines CurrentScreen) LineIndex = Some Line ->
  is_block_animation (FStoryLine.AnimationType Line) = true ->
  CurrentLineIndex (StartLine LineIndex s)
    = block_end (FStoryLine.AnimationType Line)
        (drop (Z.to_nat (LineIndex + 1)) (Lines CurrentScreen)) (LineIndex + 1) LineIndex
  /\ LineStartTimes (StartLine LineIndex s)
     = (block_timing s (FStoryLine.AnimationType Line)
          (take (Z.to_nat
                   (block_end (FStoryLine.AnimationType Line)
                      (drop (Z.to_nat (LineIndex + 1)) (Lines CurrentScreen))
                      (LineIndex + 1) LineIndex - LineIndex + 1))
             (drop (Z.to_nat LineIndex) (Lines CurrentScreen)))
          LineIndex (LineStartTimes s) 0 0).1
  /\ LineDuration (StartLine LineIndex s)
     = (block_timing s (FStoryLine.AnimationType Line)
          (take (Z.to_nat
                   (block_end (FStoryLine.AnimationType Line)
                      (drop (Z.to_nat (LineIndex + 1)) (Lines CurrentScreen))
                      (LineIndex + 1) LineIndex - LineIndex + 1))
             (drop (Z.to_nat LineIndex) (Lines CurrentScreen)))
          LineIndex (LineStartTimes s) 0 0).2.
Proof.
  intros Hs Hl Hb. unfold StartLine.
  pose proof (at_index_Some_bounds _ _ _ Hs) as Bs.
  pose proof (at_index_Some_bounds _ _ _ Hl) as Bl.
  destruct (Z.leb_spec (Num (Screens (CurrentStory s))) (CurrentScreenIndex s)); [lia |].
  rewrite Hs.
  destruct (Z.leb_spec (Num (Lines CurrentScreen)) LineIndex); [lia |].
  rewrite Hl. unfold is_block_animation in Hb.
  destruct (FStoryLine.AnimationType Line) eqn:EA; try discriminate;
    destruct (block_timing _ _ _ _ _ _ _) as [Starts MaxFinishTime]; cbn; repeat split.
Qed.

(** X12. When StartLine is given a line of a block animation (Paragraph or
    TopDown), it leaves the line cursor on the last line of the longest run
    of lines of that same animation that begins at the given line: every
    line from the given one to the cursor has that animation, and the line
    after the cursor, if the screen has one, has another. *)
Theorem StartLine_block_is_longest_run (LineIndex : Z) (s : t)
  (CurrentScreen : FStoryScreen) (Line : FStoryLine.t) :
  at_index (Screens (CurrentStory s)) (CurrentScreenIndex s) = Some CurrentScreen ->
  at_index (Lines CurrentScreen) LineIndex = Some Line ->
  is_block_animation (FStoryLine.AnimationType Line) = true ->
  (LineIndex <= CurrentLineIndex (StartLine LineIndex s) < Num (Lines CurrentScreen))%Z
  /\ (forall j, (LineIndex <= j <= CurrentLineIndex (StartLine LineIndex s))%Z ->
                exists L, at_index (Lines CurrentScreen) j = Some L
                          /\ FStoryLine.AnimationType L = FStoryLine.AnimationType Line)
  /\ (forall L, at_index (Lines CurrentScreen) (CurrentLineIndex (StartLine LineIndex s) + 1)
                = Some L ->
                FStoryLine.AnimationType L <> FStoryLine.AnimationType Line).
Proof.
  intros Hs Hl Hb.
  destruct (StartLine_block_cursor LineIndex s CurrentScreen Line Hs Hl Hb) as (-> & _ & _).
  pose proof (at_index_Some_bounds _ _ _ Hl) as Bl.
  set (Anim := FStoryLine.AnimationType Line).
  set (rest := drop (Z.to_nat (LineIndex + 1)) (Lines CurrentScreen)).
  pose proof (block_end_range Anim rest (LineIndex + 1) LineIndex ltac:(lia)) as Hr.
  assert (Hlen : Num rest = (Num (Lines CurrentScreen) - (LineIndex + 1))%Z).
  { subst rest. unfold Num in *. rewrite length_drop. lia. }
  pose proof (block_end_spec Anim rest (LineIndex + 1)) as [H1 H2].
  replace (LineIndex + 1 - 1)%Z with LineIndex in H1, H2 by lia.
  assert (Hlook : forall j L, (LineIndex + 1 <= j)%Z ->
            rest !! Z.to_nat (j - (LineIndex + 1)) = Some L ->
            at_index (Lines CurrentScreen) j = Some L).
  { intros j L Hj HL. subst rest. rewrite lookup_drop in HL. unfold at_index.
    destruct (Z.leb_spec 0 j); [| lia].
    replace (Z.to_nat j) with (Z.to_nat (LineIndex + 1) + Z.to_nat (j - (LineIndex + 1)))%nat
      by lia.
    exact HL. }
  split; [lia |]. split.
  - intros j Hj. destruct (Z.eq_dec j LineIndex) as [-> | Hne].
    + exists Line. split; [exact Hl | reflexivity].
    + destruct (H1 j ltac:(lia)) as (L & HL & HA). exists L.
      split; [apply Hlook; [lia | exact HL] | exact HA].
  - intros L HL. apply (H2 L). unfold at_index in HL.
    destruct (Z.leb_spec 0 (block_end Anim rest (LineIndex + 1) LineIndex + 1)); [| lia].
    subst rest. rewrite lookup_drop.
    replace (Z.to_nat (LineIndex + 1)
             + Z.to_nat (block_end Anim (drop (Z.to_nat (LineIndex + 1)) (Lines CurrentScreen))
                           (LineIndex + 1) LineIndex + 1 - (LineIndex + 1)))%nat
      with (Z.to_nat (block_end Anim (drop (Z.to_nat (LineIndex + 1)) (Lines CurrentScreen))
                        (LineIndex + 1) LineIndex + 1)) by lia.
    exact HL.
Qed.

Lemma StartLine_block_is_longest_run_witness :
  at_index (Screens (CurrentStory (started paragraph_story)))
    (CurrentScreenIndex (started paragraph_story))
  = Some (story_screen
            [story_line "one" EStoryLineAnimation.Paragraph EStoryPauseDuration.LineBreak;
             story_line "two" EStoryLineAnimation.Paragraph EStoryPauseDuration.Long;
             story_line "end" EStoryLineAnimation.Typewriter EStoryPauseDuration.None])
  /\ (0 <= CurrentLineIndex (StartLine 0 (started paragraph_story)) < 3)%Z.
Proof.
  assert (Hs : at_index (Screens (CurrentStory (started paragraph_story)))
                 (CurrentScreenIndex (started paragraph_story))
               = Some (story_screen
                         [story_line "one" EStoryLineAnimation.Paragraph
                            EStoryPauseDuration.LineBreak;
                          story_line "two" EStoryLineAnimation.Paragraph
                            EStoryPauseDuration.Long;
                          story_line "end" EStoryLineAnimation.Typewriter
                            EStoryPauseDuration.None])) by reflexivity.
  split; [exact Hs |].
  exact (proj1 (StartLine_block_is_longest_run 0 (started paragraph_story) _
                  (story_line "one" EStoryLineAnimation.Paragraph
                     EStoryPauseDuration.LineBreak)
                  Hs eq_refl eq_refl)).
Defined.

End Blocks.

Section BlockTiming.

Import UShortStorySubsystem.
Local Open Scope Q_scope.






Lemma block_run_lookup (lines : list FStoryLine.t) (i e : Z) (k : nat) :
  (0 <= i <= e)%Z -> (e < Num lines)%Z -> (Z.of_nat k <= e - i)%Z ->
  take (Z.to_nat (e - i + 1)) (drop (Z.to_nat i) lines) !! k
    = lines !! (Z.to_nat i + k)%nat.
Proof.
  intros Hi He Hk. rewrite lookup_take_lt by lia. apply lookup_drop.
Qed.



(** In a block without stagger the loop keeps the greatest duration seen. *)
Lemma block_timing_max (s : t) (Anim : EStoryLineAnimation.t) (run : list FStoryLine.t) :
  Anim <> EStoryLineAnimation.TopDown ->
  forall (i : Z) (Starts : list Q) (d m : Q),
    m <= (block_timing s Anim run i Starts d m).2
    /\ (forall k L, run !! k = Some L ->
                    d + CalculateLineDuration s L <= (block_timing s Anim run i Starts d m).2)
    /\ ((block_timing s Anim run i Starts d m).2 == m
        \/ exists k L, run !! k = Some L
                       /\ (block_timing s Anim run i Starts d m).2
                          == d + CalculateLineDuration s L).
Proof.
  intros HA. induction run as [| L0 run IH]; intros i Starts d m; cbn [block_timing].
  - cbn. split; [lra |]. split; [intros k L H; discriminate | left; reflexivity].
  - assert (Hd : match Anim with
                 | EStoryLineAnimation.TopDown => d + CascadeDelay
                 | _ => d
                 end = d) by (destruct Anim; congruence).
    rewrite Hd.
    match goal with |- context [block_timing s Anim run (i + 1)%Z ?S d ?m'] =>
      destruct (IH (i + 1)%Z S d m') as (H1 & H2 & H3); set (m1 := m') in *
    end.
    assert (Hm1 : m <= m1 /\ d + CalculateLineDuration s L0 <= m1
                  /\ (m1 == m \/ m1 == d + CalculateLineDuration s L0)).
    { subst m1. destruct (Qlt_bool m (d + CalculateLineDuration s L0)) eqn:E.
      - apply Qlt_bool_iff in E. split; [lra |]. split; [lra | right; reflexivity].
      - apply Qlt_bool_false_iff in E. split; [lra |]. split; [lra | left; reflexivity]. }
    destruct Hm1 as (Ha & Hb & Hc).
    split; [lra |]. split.
    + intros k L Hk. destruct k as [| k]; [cbn in Hk; inversion Hk; subst L; lra |].
      apply (H2 k L). exact Hk.
    + destruct H3 as [H3 | (k & L & Hk & H3)].
      * destruct Hc as [Hc | Hc]; [left; lra |].
        right. exists 0%nat, L0. split; [reflexivity | lra].
      * right. exists (S k), L. split; [exact Hk | exact H3].
Qed.

(** X14. For a Paragraph block the duration StartLine gives the state
    machine is the greatest Duration of the lines of the block (0 when none
    is positive): it is at least 0 and at least the Duration of every line
    of the block, and it is 0 or the Duration of one of them. *)
Theorem StartLine_Paragraph_duration (LineIndex : Z) (s : t) (CurrentScreen : FStoryScreen)
  (Line : FStoryLine.t) :
  at_index (Screens (CurrentStory s)) (CurrentScreenIndex s) = Some CurrentScreen ->
  at_index (Lines CurrentScreen) LineIndex = Some Line ->
  FStoryLine.AnimationType Line = EStoryLineAnimation.Paragraph ->
  0 <= LineDuration (StartLine LineIndex s)
  /\ (forall j L, (LineIndex <= j <= CurrentLineIndex (StartLine LineIndex s))%Z ->
                  at_index (Lines CurrentScreen) j = Some L ->
                  CalculateLineDuration s L <= LineDuration (StartLine LineIndex s))
  /\ (LineDuration (StartLine LineIndex s) == 0
      \/ exists j L, (LineIndex <= j <= CurrentLineIndex (StartLine LineIndex s))%Z
                     /\ at_index (Lines CurrentScreen) j = Some L
                     /\ LineDuration (StartLine LineIndex s) == CalculateLineDuration s L).
Proof.
  intros Hs Hl HA.
  assert (Hb : is_block_animation (FStoryLine.AnimationType Line) = true)
    by (rewrite HA; reflexivity).
  destruct (StartLine_block_cursor LineIndex s CurrentScreen Line Hs Hl Hb) as (-> & _ & ->).
  pose proof (at_index_Some_bounds _ _ _ Hl) as Bl.
  rewrite HA.
  set (Anim := EStoryLineAnimation.Paragraph).
  set (e := block_end Anim (drop (Z.to_nat (LineIndex + 1)) (Lines CurrentScreen))
              (LineIndex + 1) LineIndex) in *.
  assert (He : (LineIndex <= e < Num (Lines CurrentScreen))%Z).
  { pose proof (block_end_range Anim (drop (Z.to_nat (LineIndex + 1)) (Lines CurrentScreen))
                  (LineIndex + 1) LineIndex ltac:(lia)) as Hr.
    fold e in Hr. unfold Num in *. rewrite length_drop in Hr. lia. }
  set (run := take (Z.to_nat (e - LineIndex + 1)) (drop (Z.to_nat LineIndex)
                                                     (Lines CurrentScreen))).
  destruct (block_timing_max s Anim run ltac:(discriminate) LineIndex (LineStartTimes s) 0 0)
    as (H1 & H2 & H3).
  split; [exact H1 |]. split.
  - intros j L Hj HL.
    specialize (H2 (Z.to_nat (j - LineIndex)) L).
    assert (Hrun : run !! Z.to_nat (j - LineIndex) = Some L).
    { subst run. rewrite block_run_lookup by lia. unfold at_index in HL.
      destruct (Z.leb_spec 0 j); [| lia].
      replace (Z.to_nat LineIndex + Z.to_nat (j - LineIndex))%nat with (Z.to_nat j) by lia.
      exact HL. }
    specialize (H2 Hrun). lra.
  - destruct H3 as [H3 | (k & L & Hk & H3)]; [left; exact H3 |].
    right. exists (LineIndex + Z.of_nat k)%Z, L.
    assert (Hk' : (Z.of_nat k <= e - LineIndex)%Z).
    { apply lookup_lt_Some in Hk. subst run. rewrite length_take in Hk. lia. }
    split; [lia |]. split; [| lra].
    subst run. rewrite block_run_lookup in Hk by lia. unfold at_index.
    destruct (Z.leb_spec 0 (LineIndex + Z.of_nat k)); [| lia].
    replace (Z.to_nat (LineIndex + Z.of_nat k)) with (Z.to_nat LineIndex + k)%nat by lia.
    exact Hk.
Qed.

Lemma StartLine_Paragraph_duration_witness :
  at_index (Screens (CurrentStory (started paragraph_story)))
    (CurrentScreenIndex (started paragraph_story))
  = Some (story_screen
            [story_line "one" EStoryLineAnimation.Paragraph EStoryPauseDuration.LineBreak;
             story_line "two" EStoryLineAnimation.Paragraph EStoryPauseDuration.Long;
             story_line "end" EStoryLineAnimation.Typewriter EStoryPauseDuration.None])
  /\ 0 <= LineDuration (StartLine 0 (started paragraph_story)).
Proof.
  assert (Hs : at_index (Screens (CurrentStory (started paragraph_story)))
                 (CurrentScreenIndex (started paragraph_story))
               = Some (story_screen
                         [story_line "one" EStoryLineAnimation.Paragraph
                            EStoryPauseDuration.LineBreak;
                          story_line "two" EStoryLineAnimation.Paragraph
                            EStoryPauseDuration.Long;
                          story_line "end" EStoryLineAnimation.Typewriter
                            EStoryPauseDuration.None])) by reflexivity.
  split; [exact Hs |].
  exact (proj1 (StartLine_Paragraph_duration 0 (started paragraph_story) _
                  (story_line "one" EStoryLineAnimation.Paragraph
                     EStoryPauseDuration.LineBreak)
                  Hs eq_refl eq_refl)).
Defined.

End BlockTiming.

Section SkipLine.

Import UShortStorySubsystem.
Local Open Scope Q_scope.




End SkipLine.

Section ScreensAndComments.

Import UShortStoryParser.

Variable Atof : FString -> Q.

Lemma update_screen_length (idx : nat) (f : FStoryScreen -> FStoryScreen) (p : ParseLocals) :
  length (Screens (OutStory (update_screen idx f p))) = length (Screens (OutStory p)).
Proof. unfold update_screen. cbn. apply length_alter. Qed.

Lemma parse_screen_content_length (M LineNumber : Z) (Line : FString) (idx : nat)
  (p : ParseLocals) :
  length (Screens (OutStory (parse_screen_content Atof M LineNumber Line idx p)))
    = length (Screens (OutStory p)).
Proof.
  unfold parse_screen_content.
  repeat
    (match goal with
     | |- context [if ?b then _ else _] => destruct b
     | |- context [match ParseTimedEvent ?a ?b ?c with _ => _ end] =>
         destruct (ParseTimedEvent a b c)
     | |- context [match ParseLineAttributes ?a ?b ?c with _ => _ end] =>
         destruct (ParseLineAttributes a b c) as [[|] ?]
     | |- context [(ParseMetadataLine ?a ?b).1] =>
         destruct (ParseMetadataLine a b) as [[|] ?]; cbn [fst snd]
     end);
    try reflexivity; cbn [OutStory set_PendingLines]; rewrite ?update_screen_length;
    reflexivity.
Qed.

Lemma parse_line_length (M i : Z) (RawLine : FString) (p : ParseLocals) :
  length (Screens (OutStory (parse_line Atof M i RawLine p)))
    = (length (Screens (OutStory p)) + (if declares_screen RawLine then 1 else 0))%nat.
Proof.
  unfold parse_line, declares_screen.
  destruct (FStr.IsEmpty (CleanLine RawLine)) eqn:E.
  - destruct (CleanLine RawLine); [| discriminate].
    change (IsSectionHeader []) with (@None FString). cbv iota. lia.
  - destruct (IsSectionHeader (CleanLine RawLine)) as [SectionName |].
    + destruct (FStr.EqualsIgnoreCase SectionName (TEXT "STORY")); cbn [negb andb].
      * destruct (0 <? Num (PendingLines p)); cbn; lia.
      * destruct (FStr.StartsWith SectionName (TEXT "SCREEN"));
          destruct (0 <? Num (PendingLines p)); cbn; rewrite ?length_app; cbn; lia.
    + destruct (CurrentState p).
      * cbn. lia.
      * destruct (ParseMetadataLine _ _) as [[|] ?]; cbn; lia.
      * destruct (CurrentScreen p); [rewrite parse_screen_content_length | cbn]; lia.
Qed.

Lemma parse_loop_length (M : Z) (Ls : list FString) :
  forall (i : Z) (p : ParseLocals),
    length (Screens (OutStory (parse_loop Atof M Ls i p)))
      = (length (Screens (OutStory p))
         + length (filter (fun l => declares_screen l = true) Ls))%nat.
Proof.
  induction Ls as [| L Ls IH]; intros i p; cbn [parse_loop].
  - cbn. lia.
  - rewrite IH, parse_line_length, filter_cons.
    destruct (declares_screen L); cbn.
    + destruct (decide (true = true)); [cbn; lia | congruence].
    + destruct (decide (false = true)); [discriminate | lia].
Qed.

(** X16. The story ParseStoryFromString returns has one screen for each
    screen header of the text, in every case: a header makes a screen even
    when nothing follows it, and nothing else makes or removes one. *)
Theorem ParseStoryFromString_screen_count (StoryText : FString) (MaxLineLength : Z) :
  length (Screens (ParseStoryFromString Atof StoryText MaxLineLength).1.2)
    = length (filter (fun l => declares_screen l = true)
                (FStr.ParseIntoArrayLines StoryText)).
Proof.
  unfold ParseStoryFromString.
  destruct (FStr.ParseIntoArrayLines StoryText) as [| L Ls]; [reflexivity |].
  change (Num (L :: Ls) =? 0) with false. cbv iota.
  rewrite finish_parse_Screens, parse_loop_length. reflexivity.
Qed.

Lemma same_but_errors_refl (p : ParseLocals) : same_but_errors p p.
Proof. repeat split. Qed.

Lemma add_error_same (msg : FString) (p : ParseLocals) : same_but_errors (add_error msg p) p.
Proof. repeat split. Qed.

(** ParseTimedEvent takes the line number and never reads it. *)
Lemma ParseTimedEvent_line_number (Line : FString) (n n' : Z) :
  ParseTimedEvent Atof Line n = ParseTimedEvent Atof Line n'.
Proof. reflexivity. Qed.

(** A turn of the loop reads the error list nowhere, and the line number
    only to word a diagnostic. *)
Lemma parse_line_same (M i i' : Z) (RawLine : FString) (p q : ParseLocals) :
  same_but_errors p q ->
  same_but_errors (parse_line Atof M i RawLine p) (parse_line Atof M i' RawLine q).
Proof.
  intros H. destruct p as [S1 E1 C1 SM1 CM1 CS1 F1 P1], q as [S2 E2 C2 SM2 CM2 CS2 F2 P2].
  unfold same_but_errors in H. cbn in H.
  destruct H as (-> & -> & -> & -> & -> & -> & ->).
  unfold parse_line.
  destruct (FStr.IsEmpty _); [repeat split |].
  destruct (IsSectionHeader _) as [SectionName |].
  - cbn [PendingLines].
    destruct (0 <? Num P2); destruct (FStr.EqualsIgnoreCase SectionName (TEXT "STORY"));
      try (repeat split; fail);
      destruct (FStr.StartsWith SectionName (TEXT "SCREEN")); repeat split.
  - cbn [CurrentState CurrentScreen]. destruct C2; [repeat split | |].
    + cbn [StoryMetadata]. destruct (ParseMetadataLine _ _) as [[|] ?]; repeat split.
    + destruct CS2 as [idx |]; [| repeat split].
      unfold parse_screen_content.
      cbn [OutStory PendingLines CurrentScreenMetadata].
      rewrite ?(ParseTimedEvent_line_number _ (i' + 1) (i + 1)).
      repeat
        (match goal with
         | |- context [if ?b then _ else _] => destruct b
         | |- context [match ParseTimedEvent ?a ?b ?c with _ => _ end] =>
             destruct (ParseTimedEvent a b c)
         | |- context [match ParseLineAttributes ?a ?b ?c with _ => _ end] =>
             destruct (ParseLineAttributes a b c) as [[|] ?]
         | |- context [(ParseMetadataLine ?a ?b).1] =>
             destruct (ParseMetadataLine a b) as [[|] ?]; cbn [fst snd]
         end); repeat split.
Qed.

Lemma parse_loop_same (M : Z) (Ls : list FString) :
  forall (i i' : Z) (p q : ParseLocals),
    same_but_errors p q ->
    same_but_errors (parse_loop Atof M Ls i p) (parse_loop Atof M Ls i' q).
Proof.
  induction Ls as [| L Ls IH]; intros i i' p q H; [exact H |].
  cbn [parse_loop]. apply IH. apply parse_line_same. exact H.
Qed.

Lemma finish_parse_same (p q : ParseLocals) :
  same_but_errors p q -> (finish_parse p).1 = (finish_parse q).1.
Proof.
  intros H. destruct p as [S1 E1 C1 SM1 CM1 CS1 F1 P1], q as [S2 E2 C2 SM2 CM2 CS2 F2 P2].
  unfold same_but_errors in H. cbn in H.
  destruct H as (-> & -> & -> & -> & -> & -> & ->).
  unfold finish_parse. cbn [bFoundStorySection PendingLines].
  destruct F2; cbn [negb]; [| reflexivity].
  destruct (0 <? Num P2); cbn [OutStory StoryMetadata add_error set_OutErrors];
    match goal with |- context [IsValid ?S] => destruct (IsValid S) end; reflexivity.
Qed.

Lemma parse_line_blank (M i : Z) (RawLine : FString) (p : ParseLocals) :
  CleanLine RawLine = [] -> parse_line Atof M i RawLine p = p.
Proof. intros H. unfold parse_line. rewrite H. reflexivity. Qed.

(** X17. A comment line, or a line of whitespace, changes neither the
    story nor the verdict: if the lines of one text are those of another
    with one more line whose cleaned form is empty, ParseStoryFromString
    returns the same success flag and the same story for both. *)
Theorem ParseStoryFromString_ignores_comment (StoryText StoryText' : FString)
  (MaxLineLength : Z) (Before After : list FString) (Comment : FString) :
  FStr.ParseIntoArrayLines StoryText = Before ++ Comment :: After ->
  FStr.ParseIntoArrayLines StoryText' = Before ++ After ->
  CleanLine Comment = [] ->
  (ParseStoryFromString Atof StoryText MaxLineLength).1
    = (ParseStoryFromString Atof StoryText' MaxLineLength).1.
Proof.
  intros H1 H2 Hc. unfold ParseStoryFromString. rewrite H1, H2.
  assert (Hn : (Num (Before ++ Comment :: After) =? 0) = false).
  { unfold Num. rewrite length_app. cbn [length]. apply Z.eqb_neq. lia. }
  rewrite Hn.
  assert (Hloop : same_but_errors
                    (parse_loop Atof MaxLineLength (Before ++ Comment :: After) 0
                       initial_locals)
                    (parse_loop Atof MaxLineLength (Before ++ After) 0 initial_locals)).
  { rewrite !parse_loop_app. cbn [parse_loop]. rewrite (parse_line_blank _ _ _ _ Hc).
    apply parse_loop_same. apply same_but_errors_refl. }
  destruct (Z.eqb_spec (Num (Before ++ After)) 0) as [E0 | E0].
  - assert (Before = [] /\ After = []) as [-> ->].
    { unfold Num in E0. rewrite length_app in E0.
      destruct Before, After; cbn in E0; try lia. split; reflexivity. }
    cbn [app parse_loop]. rewrite (parse_line_blank _ _ _ _ Hc). reflexivity.
  - apply finish_parse_same. exact Hloop.
Qed.

End ScreensAndComments.

Section CommentWitness.

Import UShortStoryParser.

Lemma ParseStoryFromString_ignores_comment_witness :
  FStr.ParseIntoArrayLines commented_text
    = [TEXT "[STORY]"] ++ TEXT "# the title"
        :: [TEXT "title = T"; TEXT "[SCREEN_01]"; TEXT "Hi there | typewriter"]
  /\ FStr.ParseIntoArrayLines uncommented_text
     = [TEXT "[STORY]"]
         ++ [TEXT "title = T"; TEXT "[SCREEN_01]"; TEXT "Hi there | typewriter"]
  /\ CleanLine (TEXT "# the title") = []
  /\ (ParseStoryFromString atof_zero commented_text 80).1
     = (ParseStoryFromString atof_zero uncommented_text 80).1.
Proof.
  assert (H1 : FStr.ParseIntoArrayLines commented_text
               = [TEXT "[STORY]"] ++ TEXT "# the title"
                   :: [TEXT "title = T"; TEXT "[SCREEN_01]";
                       TEXT "Hi there | typewriter"]) by (vm_compute; reflexivity).
  assert (H2 : FStr.ParseIntoArrayLines uncommented_text
               = [TEXT "[STORY]"]
                   ++ [TEXT "title = T"; TEXT "[SCREEN_01]";
                       TEXT "Hi there | typewriter"]) by (vm_compute; reflexivity).
  assert (H3 : CleanLine (TEXT "# the title") = []) by (vm_compute; reflexivity).
  split; [exact H1 |]. split; [exact H2 |]. split; [exact H3 |].
  exact (ParseStoryFromString_ignores_comment atof_zero _ _ 80 _ _ _ H1 H2 H3).
Defined.

End CommentWitness.
